(** * remarkable_usb_api: the document tree and path resolution

    A shallow embedding of [rest_api.py] and of the parts of
    [rm_rest_api_types.py] it calls: the raw records and their parser,
    [read_folder], the [Document] and [Folder] entities with their
    [filename] property, [_find_doc], [get_documents], [find_file],
    [has_file], [mkdir] and [upload_document_as_file], and of the command
    [ls] of [cli.py].

    Conventions.
    - Python [str] is [string], the bytes of its UTF-8 encoding;
      [Optional[T]] is [option T].
    - [pathlib.Path] (a [PurePosixPath]) is a root and a list of parts.
    - A method either returns, raises, or recurses without end.  The model
      recurses on a fuel counter; [OutOfFuel] stands for "the recursion is
      deeper than the fuel given".
    - The tablet answers every request; what it answers may depend on
      the folder asked for and on the moment of the request, which is the
      position of the request in the log of the run.
    - Python objects have an identity.  Every [Document] and [Folder]
      carries the stamp [oid] it received when it was constructed; the
      stamp is no attribute of the Python class. *)

From Stdlib Require Import String Ascii List ZArith Lia Bool Arith.
From Stdlib Require Import Permutation DecimalString.
Import ListNotations.

Open Scope string_scope.
Open Scope list_scope.

Infix "+++" := String.append (right associativity, at level 60).

(* ===================================================================== *)
(** ** Strings: the [str] methods the client uses *)
(* ===================================================================== *)

(** [s.endswith(suffix)] *)
Definition endswith (s suffix : string) : bool :=
  (String.length suffix <=? String.length s)%nat &&
  String.eqb
    (substring (String.length s - String.length suffix)
       (String.length suffix) s)
    suffix.

(** [s[:-n]] *)
Definition slice_to_minus (n : nat) (s : string) : string :=
  substring 0 (String.length s - n) s.

(** [s.split("/")] *)
Fixpoint split_slash (s : string) : list string :=
  match s with
  | EmptyString => [EmptyString]
  | String c s' =>
      if Ascii.eqb c "/" then EmptyString :: split_slash s'
      else match split_slash s' with
           | [] => [String c EmptyString]
           | h :: t => String c h :: t
           end
  end.

Fixpoint has_slash (s : string) : bool :=
  match s with
  | EmptyString => false
  | String c s' => Ascii.eqb c "/" || has_slash s'
  end.

(** ["/".join(l)] *)
Fixpoint join_slash (l : list string) : string :=
  match l with
  | [] => ""
  | [x] => x
  | x :: rest => x +++ "/" +++ join_slash rest
  end.

Fixpoint string_rev (s : string) : string :=
  match s with
  | EmptyString => EmptyString
  | String c s' => string_rev s' +++ String c EmptyString
  end.

(** *** [int(s)] on a [str]

    A [str] is held as the bytes of its UTF-8 encoding.  [int] first
    replaces every white-space character outside ASCII by a blank and
    every decimal digit of another script by its ASCII digit (the tables
    are those of Unicode 14.0, as in CPython 3.11), and gives up on any
    other character outside ASCII.  What is left is read as in
    [PyLong_FromString] for base 10: ASCII white space around the
    literal is dropped, one sign is allowed, then decimal digits, where
    single underscores may separate digits.  A literal of more than
    [int_max_str_digits] digits is refused. *)

(** [Py_ISSPACE]: blank, \t, \n, \v, \f, \r *)
Definition is_space (c : ascii) : bool :=
  let n := nat_of_ascii c in
  ((9 <=? n)%nat && (n <=? 13)%nat) || (n =? 32)%nat.

Definition is_digit (c : ascii) : bool :=
  let n := nat_of_ascii c in (48 <=? n)%nat && (n <=? 57)%nat.

Definition digit_value (c : ascii) : Z := Z.of_nat (nat_of_ascii c - 48).

(** The payload of a UTF-8 continuation byte. *)
Definition continuation (c : ascii) : option N :=
  let n := N_of_ascii c in
  if ((128 <=? n) && (n <? 192))%N then Some (n - 128)%N else None.

(** The code points of a [str]; none if the bytes are no UTF-8. *)
Fixpoint code_points (s : string) : option (list N) :=
  match s with
  | EmptyString => Some []
  | String c1 s1 =>
      let b1 := N_of_ascii c1 in
      if (b1 <? 128)%N then option_map (cons b1) (code_points s1)
      else if (b1 <? 192)%N then None
      else if (b1 <? 224)%N then
        match s1 with
        | String c2 s2 =>
            match continuation c2 with
            | Some x2 =>
                let cp := ((b1 - 192) * 64 + x2)%N in
                if (128 <=? cp)%N then option_map (cons cp) (code_points s2)
                else None
            | None => None
            end
        | EmptyString => None
        end
      else if (b1 <? 240)%N then
        match s1 with
        | String c2 (String c3 s3) =>
            match continuation c2, continuation c3 with
            | Some x2, Some x3 =>
                let cp := ((b1 - 224) * 4096 + x2 * 64 + x3)%N in
                if (2048 <=? cp)%N then option_map (cons cp) (code_points s3)
                else None
            | _, _ => None
            end
        | _ => None
        end
      else if (b1 <? 248)%N then
        match s1 with
        | String c2 (String c3 (String c4 s4)) =>
            match continuation c2, continuation c3, continuation c4 with
            | Some x2, Some x3, Some x4 =>
                let cp :=
                  ((b1 - 240) * 262144 + x2 * 4096 + x3 * 64 + x4)%N in
                if ((65536 <=? cp) && (cp <=? 1114111))%N
                then option_map (cons cp) (code_points s4)
                else None
            | _, _, _ => None
            end
        | _ => None
        end
      else None
  end.

(** [Py_UNICODE_ISSPACE] outside ASCII *)
Definition is_unicode_space (cp : N) : bool :=
  existsb (N.eqb cp)
    [0x85; 0xA0; 0x1680; 0x2028; 0x2029; 0x202F; 0x205F; 0x3000]%N
  || ((0x2000 <=? cp) && (cp <=? 0x200A))%N.

(** The digit zero of every script with decimal digits. *)
Definition decimal_zeros : list N :=
  [0x30; 0x660; 0x6F0; 0x7C0; 0x966; 0x9E6; 0xA66; 0xAE6; 0xB66; 0xBE6;
   0xC66; 0xCE6; 0xD66; 0xDE6; 0xE50; 0xED0; 0xF20; 0x1040; 0x1090;
   0x17E0; 0x1810; 0x1946; 0x19D0; 0x1A80; 0x1A90; 0x1B50; 0x1BB0;
   0x1C40; 0x1C50; 0xA620; 0xA8D0; 0xA900; 0xA9D0; 0xA9F0; 0xAA50;
   0xABF0; 0xFF10; 0x104A0; 0x10D30; 0x11066; 0x110F0; 0x11136; 0x111D0;
   0x112F0; 0x11450; 0x114D0; 0x11650; 0x116C0; 0x11730; 0x118E0;
   0x11950; 0x11C50; 0x11D50; 0x11DA0; 0x16A60; 0x16AC0; 0x16B50;
   0x1D7CE; 0x1D7D8; 0x1D7E2; 0x1D7EC; 0x1D7F6; 0x1E140; 0x1E2F0;
   0x1E950; 0x1FBF0]%N.

(** [Py_UNICODE_TODECIMAL] *)
Definition decimal_value (cp : N) : option N :=
  match find (fun z => ((z <=? cp) && (cp <? z + 10))%N) decimal_zeros with
  | Some z => Some (cp - z)%N
  | None => None
  end.

(** One character of [_PyUnicode_TransformDecimalAndSpaceToASCII]. *)
Definition ascii_of_code_point (cp : N) : option ascii :=
  if (cp <? 128)%N then Some (ascii_of_N cp)
  else if is_unicode_space cp then Some " "%char
  else option_map (fun d => ascii_of_N (48 + d)) (decimal_value cp).

Fixpoint ascii_of_code_points (cps : list N) : option string :=
  match cps with
  | [] => Some EmptyString
  | cp :: rest =>
      match ascii_of_code_point cp, ascii_of_code_points rest with
      | Some c, Some s => Some (String c s)
      | _, _ => None
      end
  end.

Fixpoint lstrip (s : string) : string :=
  match s with
  | String c s' => if is_space c then lstrip s' else s
  | EmptyString => s
  end.

Definition strip (s : string) : string :=
  string_rev (lstrip (string_rev (lstrip s))).

Fixpoint int_digits (s : string) (acc : Z) (after_digit : bool) : option Z :=
  match s with
  | EmptyString => if after_digit then Some acc else None
  | String c s' =>
      if is_digit c then int_digits s' (10 * acc + digit_value c)%Z true
      else if Ascii.eqb c "_" then
             if after_digit then int_digits s' acc false else None
           else None
  end.

Fixpoint count_digits (s : string) : nat :=
  match s with
  | EmptyString => 0
  | String c s' => if is_digit c then S (count_digits s') else count_digits s'
  end.

(** [sys.get_int_max_str_digits()], the default *)
Definition int_max_str_digits : nat := 4300.

(** [int(s)]: the number, or none for [ValueError]. *)
Definition py_int (s : string) : option Z :=
  match code_points s with
  | None => None
  | Some cps =>
      match ascii_of_code_points cps with
      | None => None
      | Some a =>
          if (int_max_str_digits <? count_digits a)%nat then None
          else
            match strip a with
            | String c s' =>
                if Ascii.eqb c "-"
                then option_map Z.opp (int_digits s' 0%Z false)
                else if Ascii.eqb c "+" then int_digits s' 0%Z false
                else int_digits (String c s') 0%Z false
            | EmptyString => None
            end
      end
  end.

(* ===================================================================== *)
(** ** [pathlib.Path] *)
(* ===================================================================== *)

Module Path.
Record t := mk {
  root : string;          (* "", "/" or "//" *)
  parts : list string     (* the parts after the root *)
}.

(** [posixpath.splitroot]: the root and the rest of the string. *)
Definition splitroot (p : string) : string * string :=
  match p with
  | String c1 p1 =>
      if Ascii.eqb c1 "/" then
        match p1 with
        | String c2 p2 =>
            if Ascii.eqb c2 "/" then
              match p2 with
              | String c3 _ =>
                  if Ascii.eqb c3 "/" then ("/", p1) else ("//", p2)
              | EmptyString => ("//", p2)
              end
            else ("/", p1)
        | EmptyString => ("/", p1)
        end
      else ("", p)
  | EmptyString => ("", p)
  end.

Definition is_real_part (x : string) : bool :=
  negb (String.eqb x "" || String.eqb x ".").

(** [Path(s)]: empty parts and "." parts are dropped. *)
Definition of_string (s : string) : t :=
  let (r, rel) := splitroot s in
  mk r (filter is_real_part (split_slash rel)).

(** [p / s]: a rooted right operand replaces the left one. *)
Definition joinpath (p : t) (s : string) : t :=
  let q := of_string s in
  if String.eqb (root q) "" then mk (root p) (parts p ++ parts q)
  else q.

(** [p.parent]: a path without parts is its own parent. *)
Definition parent (p : t) : t :=
  match parts p with
  | [] => p
  | _ :: _ => mk (root p) (removelast (parts p))
  end.

(** [p.name] *)
Definition name (p : t) : string := last (parts p) "".

(** [Path(".")] *)
Definition dot : t := mk "" [].

(** [p == q] *)
Definition eqb (p q : t) : bool :=
  String.eqb (root p) (root q) &&
  if list_eq_dec string_dec (parts p) (parts q) then true else false.

(** [str(p)] *)
Definition str (p : t) : string :=
  match parts p with
  | [] => if String.eqb (root p) "" then "." else root p
  | _ :: _ => root p +++ join_slash (parts p)
  end.
End Path.

(* ===================================================================== *)
(** ** Raw records ([rm_rest_api_types.py]) *)
(* ===================================================================== *)

(** [RMApiDocument]: the eight required attributes and the optional ones
    the client reads; the other optional attributes are never looked at.
    [Type_] is the attribute [Type].  attrs does not check an annotation
    when an object is constructed, so [Type_] and [fileType] hold any
    string; the check against the values of their [Literal] is made by
    cattrs, in [_parse_documents]. *)
Record RMApiDocument := mkRaw {
  Bookmarked : bool;
  ID : string;
  ModifiedClient : string;
  Parent : string;
  Type_ : string;
  Version : Z;
  tags : list string;
  VissibleName : string;
  fileType : option string;
  pageCount : option Z;
  sizeInBytes : option string
}.

(** The values of [Literal["DocumentType", "CollectionType"]] and of
    [Optional[Literal["pdf", "notebook", "epub"]]]. *)
Definition type_literal (s : string) : bool :=
  String.eqb s "DocumentType" || String.eqb s "CollectionType".

Definition file_type_literal (s : option string) : bool :=
  match s with
  | None => true
  | Some s =>
      String.eqb s "pdf" || String.eqb s "notebook" || String.eqb s "epub"
  end.

(** A record that cattrs structures. *)
Definition structured (raw : RMApiDocument) : bool :=
  type_literal (Type_ raw) && file_type_literal (fileType raw).

(* ===================================================================== *)
(** ** Entities ([rest_api.py]) *)
(* ===================================================================== *)

Module Folder.
#[warnings="-register-all"]
Inductive t := mk {
  oid : nat;
  id_ : string;
  folder : option t;
  visible_name : string;
  parent_id : option string;
  raw_ : RMApiDocument
}.

(** The property [Folder.filename]. *)
Fixpoint filename (f : t) : Path.t :=
  match f with
  | mk _ _ None vn _ _ => Path.of_string vn
  | mk _ _ (Some p) vn _ _ => Path.joinpath (filename p) vn
  end.
End Folder.

Module Document.
Record t := mk {
  oid : nat;
  id_ : string;
  folder : option Folder.t;
  visible_name : string;
  length : Z;
  extension : string;
  page_count : Z;
  parent_id : option string;
  raw_ : RMApiDocument
}.

(** The property [Document.filename]. *)
Definition filename (d : t) : Path.t :=
  match folder d with
  | None => Path.of_string (visible_name d)
  | Some p =>
      Path.joinpath (Folder.filename p) (visible_name d +++ "." +++ extension d)
  end.
End Document.

(** [Union[Document, Folder]] *)
Inductive Entity :=
| EDocument (d : Document.t)
| EFolder (f : Folder.t).

(** Attribute access on a [Union[Document, Folder]]. *)
Definition oid (e : Entity) : nat :=
  match e with EDocument d => Document.oid d | EFolder f => Folder.oid f end.
Definition id_ (e : Entity) : string :=
  match e with EDocument d => Document.id_ d | EFolder f => Folder.id_ f end.
Definition folder (e : Entity) : option Folder.t :=
  match e with
  | EDocument d => Document.folder d
  | EFolder f => Folder.folder f
  end.
Definition visible_name (e : Entity) : string :=
  match e with
  | EDocument d => Document.visible_name d
  | EFolder f => Folder.visible_name f
  end.
Definition parent_id (e : Entity) : option string :=
  match e with
  | EDocument d => Document.parent_id d
  | EFolder f => Folder.parent_id f
  end.
Definition raw_ (e : Entity) : RMApiDocument :=
  match e with
  | EDocument d => Document.raw_ d
  | EFolder f => Folder.raw_ f
  end.
Definition filename (e : Entity) : Path.t :=
  match e with
  | EDocument d => Document.filename d
  | EFolder f => Folder.filename f
  end.

(** [isinstance(e, Folder)] *)
Definition is_folder (e : Entity) : bool :=
  match e with EFolder _ => true | EDocument _ => false end.

(** [a == b] on [Optional[str]] *)
Definition opt_str_eqb (a b : option string) : bool :=
  match a, b with
  | None, None => true
  | Some x, Some y => String.eqb x y
  | _, _ => false
  end.

(** [_find_doc]: the first entry of [docs] with the name (less one
    trailing ".pdf") and the parent identifier asked for. *)
Definition _find_doc (name : string) (parent_id_ : option string)
    (docs : list Entity) : option Entity :=
  let name := if endswith name ".pdf" then slice_to_minus 4 name else name in
  let res :=
    filter (fun d => String.eqb (visible_name d) name
                     && opt_str_eqb (parent_id d) parent_id_) docs in
  match res with
  | d :: _ => Some d
  | [] => None
  end.

(* ===================================================================== *)
(** ** Effects: exceptions, the log, the tablet *)
(* ===================================================================== *)

Inductive exn :=
| AssertionError
| ValueError
| RuntimeError (msg : string)
| JSONDecodeError                      (* [res.json()]: the body is no JSON *)
| ClassValidationError.                (* cattrs does not structure the body *)

Inductive outcome (A : Type) :=
| Ok (a : A)
| Raise (e : exn)
| OutOfFuel.
Arguments Ok {A} a.
Arguments Raise {A} e.
Arguments OutOfFuel {A}.

(** What a call leaves behind, in the order it happened. *)
Inductive event :=
| PostDocuments (folder_id : string)   (* POST <base_url>/documents/<id> *)
| Warning (msg : string)               (* logger.warning *)
| RawMkdir (fn : Path.t)               (* RemarkableRESTRaw.mkdir entered *)
| PrintJson.                           (* print(json.dumps(documents, ...)) *)

Record world := mkWorld {
  next_oid : nat;          (* the stamp of the next object constructed *)
  trace : list event
}.

Definition M (A : Type) : Type := world -> outcome A * world.

Definition ret {A} (a : A) : M A := fun w => (Ok a, w).

Definition bind {A B} (c : M A) (k : A -> M B) : M B :=
  fun w =>
    match c w with
    | (Ok a, w') => k a w'
    | (Raise e, w') => (Raise e, w')
    | (OutOfFuel, w') => (OutOfFuel, w')
    end.

Definition raise {A} (e : exn) : M A := fun w => (Raise e, w).

Definition out_of_fuel {A} : M A := fun w => (OutOfFuel, w).

Definition emit (e : event) : M unit :=
  fun w => (Ok tt, mkWorld (next_oid w) (trace w ++ [e])).

Definition fresh : M nat :=
  fun w => (Ok (next_oid w), mkWorld (S (next_oid w)) (trace w)).

Notation "x <- c ;; k" := (bind c (fun x => k))
  (at level 61, c at next level, right associativity).
Notation "c ;;; k" := (bind c (fun _ => k))
  (at level 61, right associativity).

(** What the tablet sends back for a listing request. *)
Inductive response :=
| NotOk                  (* [res.ok] is false *)
| NoJson                 (* ok, and the body is no JSON *)
| Misshapen              (* ok, JSON, but no list of records: a required
                            key is missing, or cattrs cannot turn a value
                            into the type declared for it *)
| Records (documents : list RMApiDocument).
                         (* ok, a list of records with their attributes;
                            [Type] and [fileType] as they were sent *)

(** The tablet: its answer to the listing request for a folder identifier
    ("" is the root) that stands at a given position of the log. *)
Definition Device := nat -> string -> response.

(** [requests.post(f"{self.base_url}/documents/{folder_id}")] *)
Definition post_documents (dev : Device) (folder_id : string) : M response :=
  fun w =>
    (Ok (dev (List.length (trace w)) folder_id),
     mkWorld (next_oid w) (trace w ++ [PostDocuments folder_id])).

(** [_parse_documents]: cattrs structures the records; when it refuses
    one, the body is printed and the exception goes on. *)
Definition _parse_documents (documents : list RMApiDocument)
  : M (list RMApiDocument) :=
  if forallb structured documents then ret documents
  else emit PrintJson ;;; raise ClassValidationError.

(** [RemarkableRESTRaw.read_folder] after [folder_id] became a [str];
    [n] counts the retries that are left. *)
Fixpoint read_folder_try (dev : Device) (folder_id : string) (n : nat)
  : M (list RMApiDocument) :=
  res <- post_documents dev folder_id ;;
  match res with
  | NotOk =>
      match n with
      | S n' => read_folder_try dev folder_id n'
      | O => raise AssertionError
      end
  | NoJson => raise JSONDecodeError
  | Misshapen => emit PrintJson ;;; raise ClassValidationError
  | Records documents => _parse_documents documents
  end.

(** [if folder_id is None: folder_id = ""] *)
Definition url_id (folder_id : option string) : string :=
  match folder_id with None => "" | Some s => s end.

Definition read_folder (dev : Device) (folder_id : option string)
    (retries : Z) : M (list RMApiDocument) :=
  let folder_id := url_id folder_id in
  read_folder_try dev folder_id (Z.to_nat retries).

Definition not_implemented_msg (fn : Path.t) : string :=
  "mkdir: not implemented; please create the following folder on the remarkable: ("
  +++ Path.str fn +++ ")".

(** [RemarkableRESTRaw.mkdir] *)
Definition raw_mkdir {A} (fn : Path.t) : M A :=
  emit (RawMkdir fn) ;;;
  raise (RuntimeError (not_implemented_msg fn)).

(* ===================================================================== *)
(** ** [RemarkableREST] *)
(* ===================================================================== *)

(** [raw.Parent if raw.Parent != "" else None] *)
Definition parent_of_raw (raw : RMApiDocument) : option string :=
  if String.eqb (Parent raw) "" then None else Some (Parent raw).

(** One turn of the first loop of [get_documents]: the entity appended
    for [raw], if any. *)
Definition convert_record (parent : option Folder.t) (raw : RMApiDocument)
  : M (option Entity) :=
  if String.eqb (Type_ raw) "DocumentType" then
    match sizeInBytes raw with
    | None => raise AssertionError
    | Some size =>
        match pageCount raw with
        | None => raise AssertionError
        | Some page_count =>
            match py_int size with
            | None => raise ValueError
            | Some length =>
                o <- fresh ;;
                ret (Some (EDocument
                       (Document.mk o (ID raw) parent (VissibleName raw)
                          length "pdf" page_count (parent_of_raw raw) raw)))
            end
        end
    end
  else if String.eqb (Type_ raw) "CollectionType" then
    o <- fresh ;;
    ret (Some (EFolder
           (Folder.mk o (ID raw) parent (VissibleName raw)
              (parent_of_raw raw) raw)))
  else
    emit (Warning ("skipping " +++ VissibleName raw +++ "/" +++ Type_ raw)) ;;;
    ret None.

(** [for raw in docs.documents: ...] with [docs_] as built so far. *)
Fixpoint convert_loop (parent : option Folder.t)
    (documents : list RMApiDocument) (docs_ : list Entity)
  : M (list Entity) :=
  match documents with
  | [] => ret docs_
  | raw :: rest =>
      r <- convert_record parent raw ;;
      match r with
      | Some e => convert_loop parent rest (docs_ ++ [e])
      | None => convert_loop parent rest docs_
      end
  end.

(** [for doc in docs_: if isinstance(doc, Folder): subs += ...] where
    [rec] is the recursive call. *)
Fixpoint recurse_loop (rec : Folder.t -> M (list Entity))
    (docs_ : list Entity) (subs : list Entity) : M (list Entity) :=
  match docs_ with
  | [] => ret subs
  | EFolder doc :: rest =>
      r <- rec doc ;;
      recurse_loop rec rest (subs ++ r)
  | EDocument _ :: rest => recurse_loop rec rest subs
  end.

(** [RemarkableREST.get_documents]; [fuel] bounds the depth of the
    recursion into folders. *)
Fixpoint get_documents (fuel : nat) (dev : Device)
    (folder_id : option string) (retries : Z) (recurse : bool)
    (parent : option Folder.t) {struct fuel} : M (list Entity) :=
  match fuel with
  | O => out_of_fuel
  | S fuel' =>
      docs <- read_folder dev folder_id retries ;;
      docs_ <- convert_loop parent docs [] ;;
      if recurse then
        subs <- recurse_loop
                  (fun doc =>
                     get_documents fuel' dev (Some (Folder.id_ doc)) retries
                       recurse (Some doc))
                  docs_ [] ;;
        ret (docs_ ++ subs)
      else ret docs_
  end.

(** [docs = self.get_documents(recurse=True)] when [docs is None]. *)
Definition docs_or_fetch (fuel : nat) (dev : Device)
    (docs : option (list Entity)) : M (list Entity) :=
  match docs with
  | None => get_documents fuel dev None 3 true None
  | Some d => ret d
  end.

(** [RemarkableREST.find_file]; [fuel] bounds the recursion along
    [fn.parent]. *)
Fixpoint find_file (fuel : nat) (dev : Device) (fn : Path.t)
    (docs : option (list Entity)) {struct fuel} : M (option Entity) :=
  match fuel with
  | O => out_of_fuel
  | S fuel' =>
      docs <- docs_or_fetch fuel' dev docs ;;
      if negb (Path.eqb (Path.parent fn) Path.dot) then
        parent <- find_file fuel' dev (Path.parent fn) (Some docs) ;;
        match parent with
        | None => ret None
        | Some parent =>
            ret (_find_doc (Path.name fn) (Some (id_ parent)) docs)
        end
      else ret (_find_doc (Path.name fn) None docs)
  end.

(** [RemarkableREST.has_file] *)
Definition has_file (fuel : nat) (dev : Device) (fn : Path.t)
    (docs : option (list Entity)) : M bool :=
  r <- find_file fuel dev fn docs ;;
  ret (match r with Some _ => true | None => false end).

Definition collision_msg (fn : Path.t) : string :=
  "mkdir: document of same name exists '" +++ Path.str fn +++ "'".

(** [RemarkableREST.mkdir].  The last [else] of the source ("invalid
    case") has no counterpart: an [Optional[Union[Document, Folder]]] is a
    document, a folder or nothing. *)
Fixpoint mkdir (fuel : nat) (dev : Device) (fn : Path.t)
    (exists_ok parents : bool) (docs : option (list Entity))
    {struct fuel} : M Folder.t :=
  match fuel with
  | O => out_of_fuel
  | S fuel' =>
      docs <- docs_or_fetch fuel' dev docs ;;
      parent_id <-
        (if negb (Path.eqb (Path.parent fn) Path.dot) then
           if parents then
             parent <- mkdir fuel' dev (Path.parent fn) true true (Some docs) ;;
             ret (Some (Folder.id_ parent))
           else
             parent_ <- find_file fuel' dev (Path.parent fn) (Some docs) ;;
             match parent_ with
             | None => raise (RuntimeError "parent does not exist")
             | Some parent_ => ret (Some (id_ parent_))
             end
         else ret None) ;;
      let folder := _find_doc (Path.name fn) parent_id docs in
      if (match folder with Some _ => true | None => false end)
         && negb exists_ok
      then raise (RuntimeError "folder already exists")
      else
        match folder with
        | Some (EDocument _) => raise (RuntimeError (collision_msg fn))
        | Some (EFolder folder) =>
            if negb exists_ok
            then raise (RuntimeError "folder already exists")
            else ret folder
        | None => raw_mkdir fn
        end
  end.

(* ===================================================================== *)
(** ** Uploading a file, and the [ls] command *)
(* ===================================================================== *)

(** [s.rfind(".")], none for -1 *)
Fixpoint rfind_dot (s : string) : option nat :=
  match s with
  | EmptyString => None
  | String c s' =>
      match rfind_dot s' with
      | Some i => Some (S i)
      | None => if Ascii.eqb c "." then Some 0 else None
      end
  end.

(** [p.suffix] as [pathlib] computes it up to Python 3.12: what begins at
    the last "." of the name, unless that is the first or the last
    character of the name. *)
Definition path_suffix (p : Path.t) : string :=
  let name := Path.name p in
  match rfind_dot name with
  | Some i =>
      if (0 <? i)%nat && (i <? String.length name - 1)%nat
      then substring i (String.length name - i) name
      else ""
  | None => ""
  end.

(** Beside what the library does, a call can read a local file, send a
    file to the tablet and print a line. *)
Inductive io_exn :=
| LibraryError (e : exn)
| OSError                                  (* the local file is not readable *)
| AttributeError (class attr : string).

Inductive io_event :=
| FromLibrary (e : event)
| PostUpload (name content : string)       (* POST <base_url>/upload *)
| Print (line : string).

Record io_world := mkIO {
  io_next_oid : nat;
  io_trace : list io_event
}.

Inductive io_outcome (A : Type) :=
| IoOk (a : A)
| IoRaise (e : io_exn)
| IoOutOfFuel.
Arguments IoOk {A} a.
Arguments IoRaise {A} e.
Arguments IoOutOfFuel {A}.

Definition IO (A : Type) : Type := io_world -> io_outcome A * io_world.

Definition io_ret {A} (a : A) : IO A := fun s => (IoOk a, s).

Definition io_bind {A B} (c : IO A) (k : A -> IO B) : IO B :=
  fun s =>
    match c s with
    | (IoOk a, s') => k a s'
    | (IoRaise e, s') => (IoRaise e, s')
    | (IoOutOfFuel, s') => (IoOutOfFuel, s')
    end.

Definition io_raise {A} (e : io_exn) : IO A := fun s => (IoRaise e, s).

Definition io_emit (e : io_event) : IO unit :=
  fun s => (IoOk tt, mkIO (io_next_oid s) (io_trace s ++ [e])).

(** The library's part of a log. *)
Definition library_events (evs : list io_event) : list event :=
  flat_map (fun e => match e with FromLibrary e' => [e'] | _ => [] end) evs.

(** The world a call into the library starts in. *)
Definition lib_world (s : io_world) : world :=
  mkWorld (io_next_oid s) (library_events (io_trace s)).

(** A call into the library: it goes on from the library's part of the
    log, and what it adds goes to the end of the log. *)
Definition lift {A} (c : M A) : IO A :=
  fun s =>
    let (r, w) := c (lib_world s) in
    let s' :=
      mkIO (next_oid w)
        (io_trace s
         ++ map FromLibrary
              (skipn (List.length (trace (lib_world s))) (trace w))) in
    match r with
    | Ok a => (IoOk a, s')
    | Raise e => (IoRaise (LibraryError e), s')
    | OutOfFuel => (IoOutOfFuel, s')
    end.

Notation "x <~ c ;; k" := (io_bind c (fun x => k))
  (at level 61, c at next level, right associativity).
Notation "c ;;~ k" := (io_bind c (fun _ => k))
  (at level 61, right associativity).

(** The local disc: the bytes of the file at a path, if it can be read. *)
Definition Disc := Path.t -> option string.

(** The answer of the tablet to an upload: whether the response is ok. *)
Definition Uploads := string -> string -> bool.

Definition upload_error_msg (fn_disc fn_rm : Path.t) : string :=
  "error uploading " +++ Path.str fn_disc +++ " to " +++ Path.str fn_rm.

(** [assert fn_disc.suffix == ".pdf"; assert fn_rm.suffix == ".pdf"] *)
Definition assert_pdf (fn_disc fn_rm : Path.t) : IO unit :=
  if negb (String.eqb (path_suffix fn_disc) ".pdf")
  then io_raise (LibraryError AssertionError)
  else if negb (String.eqb (path_suffix fn_rm) ".pdf")
       then io_raise (LibraryError AssertionError)
       else io_ret tt.

(** [RemarkableRESTRaw.upload_document_as_file]; the debug message is
    not recorded. *)
Definition raw_upload_document_as_file (dev : Device) (disc : Disc)
    (accepts : Uploads) (fn_disc fn_rm : Path.t)
    (folder_id : option string) : IO unit :=
  assert_pdf fn_disc fn_rm ;;~
  lift (read_folder dev folder_id 3) ;;~
  match disc fn_disc with
  | None => io_raise OSError
  | Some content =>
      io_emit (PostUpload (Path.name fn_rm) content) ;;~
      if accepts (Path.name fn_rm) content then io_ret tt
      else io_raise
             (LibraryError (RuntimeError (upload_error_msg fn_disc fn_rm)))
  end.

(** [RemarkableREST.upload_document_as_file] *)
Definition upload_document_as_file (fuel : nat) (dev : Device)
    (disc : Disc) (accepts : Uploads) (fn_disc fn_rm : Path.t)
    (docs : option (list Entity)) : IO unit :=
  assert_pdf fn_disc fn_rm ;;~
  docs <~ lift (docs_or_fetch fuel dev docs) ;;
  parent_id <~
    (if negb (Path.eqb (Path.parent fn_rm) Path.dot) then
       parent <~ lift (mkdir fuel dev (Path.parent fn_rm) true true
                         (Some docs)) ;;
       io_ret (Some (Folder.id_ parent))
     else io_ret None) ;;
  raw_upload_document_as_file dev disc accepts fn_disc fn_rm parent_id.

(** The attributes the [ls] command asks an entity for. *)
Inductive cli_attribute :=
| attr_document_id
| attr_visible_name
| attr_extension
| attr_page_count.

Definition attribute_name (a : cli_attribute) : string :=
  match a with
  | attr_document_id => "document_id"
  | attr_visible_name => "visible_name"
  | attr_extension => "extension"
  | attr_page_count => "page_count"
  end.

Definition class_name (doc : Entity) : string :=
  match doc with EDocument _ => "Document" | EFolder _ => "Folder" end.

(** [str(n)] for an [int] *)
Definition py_str_int (n : Z) : string := NilZero.string_of_int (Z.to_int n).

(** [f"{doc.<attr>}"]: the classes are slotted, an attribute they do not
    declare raises [AttributeError]. *)
Definition format_attribute (doc : Entity) (a : cli_attribute) : IO string :=
  match a, doc with
  | attr_visible_name, _ => io_ret (visible_name doc)
  | attr_extension, EDocument d => io_ret (Document.extension d)
  | attr_page_count, EDocument d => io_ret (py_str_int (Document.page_count d))
  | _, _ => io_raise (AttributeError (class_name doc) (attribute_name a))
  end.

(** [for doc in docs: print(f"{doc.document_id} {doc.visible_name}
    {doc.extension} {doc.page_count}")] *)
Fixpoint ls_loop (docs : list Entity) : IO unit :=
  match docs with
  | [] => io_ret tt
  | doc :: rest =>
      a <~ format_attribute doc attr_document_id ;;
      b <~ format_attribute doc attr_visible_name ;;
      c <~ format_attribute doc attr_extension ;;
      d <~ format_attribute doc attr_page_count ;;
      io_emit (Print (a +++ " " +++ b +++ " " +++ c +++ " " +++ d)) ;;~
      ls_loop rest
  end.

(** The command [ls] of [cli.py]. *)
Definition ls (fuel : nat) (dev : Device) : IO unit :=
  docs <~ lift (get_documents fuel dev None 3 true None) ;;
  ls_loop docs.

(* ===================================================================== *)
(** ** Vocabulary of the statements *)
(* ===================================================================== *)

(** A display name that is one part of a path as it stands: not empty,
    not ".", without "/". *)
Definition plain_segment (s : string) : bool :=
  negb (has_slash s) && Path.is_real_part s.

(** The first entry of [docs] whose display name is exactly [nm] and whose
    parent identifier is [pid]. *)
Definition first_named (nm : string) (pid : option string)
    (docs : list Entity) : option Entity :=
  find (fun d => String.eqb (visible_name d) nm
                 && opt_str_eqb (parent_id d) pid) docs.

(** The name [_find_doc] compares with. *)
Definition strip_pdf (nm : string) : string :=
  if endswith nm ".pdf" then slice_to_minus 4 nm else nm.

(** A record [get_documents] turns into an entity. *)
Definition known_type (raw : RMApiDocument) : bool :=
  String.eqb (Type_ raw) "DocumentType"
  || String.eqb (Type_ raw) "CollectionType".

(** A record the first loop of [get_documents] gets past. *)
Definition convertible (raw : RMApiDocument) : bool :=
  if String.eqb (Type_ raw) "DocumentType" then
    match sizeInBytes raw, pageCount raw with
    | Some size, Some _ =>
        match py_int size with Some _ => true | None => false end
    | _, _ => false
    end
  else true.

Definition warning_of (raw : RMApiDocument) : event :=
  Warning ("skipping " +++ VissibleName raw +++ "/" +++ Type_ raw).

(** The directories above [fn], outermost first, without [Path(".")]:
    for a/b/c these are a and a/b. *)
Definition proper_ancestors (fn : Path.t) : list Path.t :=
  map (fun k => Path.mk (Path.root fn) (firstn k (Path.parts fn)))
      (seq 1 (List.length (Path.parts fn) - 1)).

(** Every directory above [fn] resolves to a [Folder] of [docs]. *)
Definition ancestors_are_folders (fuel : nat) (dev : Device)
    (docs : list Entity) (w : world) (fn : Path.t) : Prop :=
  Forall
    (fun q => exists G,
         find_file fuel dev q (Some docs) w = (Ok (Some (EFolder G)), w))
    (proper_ancestors fn).

(** [pid] is the parent identifier [find_file] and [mkdir] look the last
    part of [fn] up under: none for a path of one part, else the
    identifier of what the directory of [fn] resolves to. *)
Definition parent_id_resolved (fuel : nat) (dev : Device)
    (docs : list Entity) (w : world) (fn : Path.t)
    (pid : option string) : Prop :=
  (Path.parent fn = Path.dot /\ pid = None) \/
  (Path.parent fn <> Path.dot /\
   exists p, find_file fuel dev (Path.parent fn) (Some docs) w
             = (Ok (Some p), w)
             /\ pid = Some (id_ p)).

(** No entry of [docs], folder or document, has the name [nm] (less one
    trailing ".pdf") under the parent identifier [pid]. *)
Definition nothing_named (nm : string) (pid : option string)
    (docs : list Entity) : Prop :=
  forall e, In e docs -> visible_name e = strip_pdf nm -> parent_id e <> pid.

(** Lines 221 to 234 of [mkdir]: what happens once [parent_id] is known. *)
Definition mkdir_target (fn : Path.t) (exists_ok : bool)
    (parent_id : option string) (docs : list Entity) : M Folder.t :=
  let folder := _find_doc (Path.name fn) parent_id docs in
  if (match folder with Some _ => true | None => false end)
     && negb exists_ok
  then raise (RuntimeError "folder already exists")
  else
    match folder with
    | Some (EDocument _) => raise (RuntimeError (collision_msg fn))
    | Some (EFolder folder) =>
        if negb exists_ok
        then raise (RuntimeError "folder already exists")
        else ret folder
    | None => raw_mkdir fn
    end.

(** The world after one more entry in the log. *)
Definition logged (e : event) (w : world) : world :=
  mkWorld (next_oid w) (trace w ++ [e]).

(** What the first loop of [get_documents] makes of a record: the entity
    carries the record, its identifier, name and parent, and the [parent]
    the call was given. *)
Definition built (parent : option Folder.t) (e : Entity) : Prop :=
  folder e = parent /\
  id_ e = ID (raw_ e) /\
  visible_name e = VissibleName (raw_ e) /\
  parent_id e = parent_of_raw (raw_ e) /\
  match e with
  | EDocument d =>
      Type_ (raw_ e) = "DocumentType" /\ Document.extension d = "pdf"
  | EFolder _ => Type_ (raw_ e) = "CollectionType"
  end.

(** [level] is one fetched level: the entities for the records of known
    type, in the order of the records, stamped from [n] on. *)
Definition level_ok (parent : option Folder.t) (n : nat)
    (documents : list RMApiDocument) (level : list Entity) : Prop :=
  map raw_ level = filter known_type documents /\
  map oid level = seq n (List.length level) /\
  Forall (built parent) level.

(** The folders above a folder, nearest first: the chain of [folder]
    references. *)
Fixpoint folder_ancestors (f : Folder.t) : list Folder.t :=
  match f with
  | Folder.mk _ _ None _ _ _ => []
  | Folder.mk _ _ (Some p) _ _ _ => p :: folder_ancestors p
  end.

Definition chain (p : option Folder.t) : list Folder.t :=
  match p with
  | None => []
  | Some f => f :: folder_ancestors f
  end.

(** The folders an entity lies in: [F] is among them exactly when the
    entity belongs to the subtree of [F]. *)
Definition ancestors (e : Entity) : list Folder.t := chain (folder e).

(** The results of the recursive calls for the folders of [level], in
    order; [P f n r] says that [r] is the result for folder [f] when the
    next stamp is [n]. *)
Inductive sublistings (P : Folder.t -> nat -> list Entity -> Prop)
  : list Entity -> nat -> list (list Entity) -> Prop :=
| sub_nil n : sublistings P [] n []
| sub_document d rest n rs :
    sublistings P rest n rs ->
    sublistings P (EDocument d :: rest) n rs
| sub_folder f rest n r rs :
    P f n r ->
    sublistings P rest (n + List.length r) rs ->
    sublistings P (EFolder f :: rest) n (r :: rs).

(** The world after [k] more listing requests for [folder_id]. *)
Definition asked (folder_id : string) (k : nat) (w : world) : world :=
  mkWorld (next_oid w) (trace w ++ repeat (PostDocuments folder_id) k).

(** [documents] is what the tablet sent, and cattrs structured, in answer
    to a request for [folder_id] of the log [tr], at position [since] or
    behind it. *)
Definition answered (dev : Device) (tr : list event) (since : nat)
    (folder_id : string) (documents : list RMApiDocument) : Prop :=
  exists t,
    since <= t /\ nth_error tr t = Some (PostDocuments folder_id) /\
    dev t folder_id = Records documents /\
    forallb structured documents = true.

(** [R] is what [get_documents] with [recurse=True] returns for
    [folder_id] and [parent] when the next stamp is [n], the tree below
    is less than [fuel] levels deep and [answers] holds the answers of
    the tablet: the level fetched, then the results for its folders. *)
Fixpoint listing (answers : string -> list RMApiDocument -> Prop)
    (fuel : nat) (folder_id : option string)
    (parent : option Folder.t) (n : nat) (R : list Entity) : Prop :=
  match fuel with
  | O => False
  | S fuel' =>
      exists documents level subs,
        answers (url_id folder_id) documents /\
        level_ok parent n documents level /\
        sublistings
          (fun f => listing answers fuel' (Some (Folder.id_ f)) (Some f))
          level (n + List.length level) subs /\
        R = level ++ concat subs
  end.

(** The [Parent] of every record is the folder it was listed under. *)
Definition parent_linked (docs : list Entity) : Prop :=
  forall e, In e docs -> parent_id e = option_map Folder.id_ (folder e).

(** No two entries share display name and parent identifier. *)
Definition names_unique (docs : list Entity) : Prop :=
  NoDup (map (fun e => (visible_name e, parent_id e)) docs).

(** Every display name is one part of a path, and where [filename] ends
    in the bare display name (folders, documents in the root) that name
    does not end in ".pdf". *)
Definition names_resolvable (docs : list Entity) : Prop :=
  forall e, In e docs ->
    plain_segment (visible_name e) = true /\
    (is_folder e = true \/ folder e = None ->
     endswith (visible_name e) ".pdf" = false).

(** Every folder an entry refers to is an entry as well. *)
Definition closed (docs : list Entity) : Prop :=
  forall e F, In e docs -> folder e = Some F -> In (EFolder F) docs.

(** No two entries have the same identifier. *)
Definition ids_unique (docs : list Entity) : Prop :=
  forall e1 e2, In e1 docs -> In e2 docs -> id_ e1 = id_ e2 -> e1 = e2.

(** Below [folder_id] the tablet holds, at every moment, a tree less
    than [fuel] levels deep, all of whose records cattrs structures and
    the first loop of [get_documents] gets past. *)
Fixpoint finite_tree (dev : Device) (fuel : nat) (folder_id : string)
  : Prop :=
  match fuel with
  | O => False
  | S fuel' =>
      forall t,
      exists documents,
        dev t folder_id = Records documents /\
        forallb structured documents = true /\
        forallb convertible documents = true /\
        forall raw,
          In raw documents -> Type_ raw = "CollectionType" ->
          finite_tree dev fuel' (ID raw)
  end.

(** The tablet never refuses a listing request. *)
Definition never_refuses (dev : Device) : Prop :=
  forall t folder_id, dev t folder_id <> NotOk.

(** The folder identifiers of the listing requests of a log, in order. *)
Definition requested (evs : list event) : list string :=
  flat_map (fun e => match e with PostDocuments i => [i] | _ => [] end) evs.

(** A log of listing requests and nothing else. *)
Definition only_requests (evs : list event) : Prop :=
  evs = map PostDocuments (requested evs).

(** The requests that [(i, k)] stands for: [k] requests for the folder
    [i] that the tablet refused, and one more. *)
Definition attempts (ks : list (string * nat)) : list string :=
  flat_map (fun p => repeat (fst p) (S (snd p))) ks.

(** The requests of the log [evs] are those for the folders [ids], each
    sent again after a refusal, [retries] times at most, and sent once
    when the tablet never refuses. *)
Definition sent (dev : Device) (retries : nat) (evs : list event)
    (ids : list string) : Prop :=
  exists ks,
    Permutation (map fst ks) ids /\
    Forall (fun p => snd p <= retries) ks /\
    Permutation (requested evs) (attempts ks) /\
    (never_refuses dev -> Forall (fun p => snd p = 0) ks).

(** The identifiers of the folders of a list, in order. *)
Definition folder_ids (docs : list Entity) : list string :=
  flat_map (fun e => match e with EFolder f => [Folder.id_ f] | _ => [] end)
    docs.

(** Below [folder_id] the tablet lists folders inside folders at least
    [n] levels down: whatever list of records it sends for [folder_id],
    at any moment, holds a folder for which that is so [n - 1] levels
    down. *)
Fixpoint deep (dev : Device) (n : nat) (folder_id : string) : Prop :=
  match n with
  | O => True
  | S n' =>
      forall t documents,
        dev t folder_id = Records documents ->
        exists raw,
          In raw documents /\
          Type_ raw = "CollectionType" /\ deep dev n' (ID raw)
  end.

(** How the outcome of a call into the library comes out of [lift]. *)
Definition io_of {A} (r : outcome A) : io_outcome A :=
  match r with
  | Ok a => IoOk a
  | Raise e => IoRaise (LibraryError e)
  | OutOfFuel => IoOutOfFuel
  end.

(** The last part of the path [filename] gives an entity: the display
    name, for a document in a folder followed by "." and the extension. *)
Definition last_part (e : Entity) : string :=
  match e with
  | EFolder f => Folder.visible_name f
  | EDocument d =>
      match Document.folder d with
      | None => Document.visible_name d
      | Some _ => Document.visible_name d +++ "." +++ Document.extension d
      end
  end.

(* ===================================================================== *)
(** ** Sample data *)
(* ===================================================================== *)

Definition raw_folder (i n p : string) : RMApiDocument :=
  mkRaw false i "" p "CollectionType" 1 [] n None None None.

Definition raw_document (i n p size : string) : RMApiDocument :=
  mkRaw false i "" p "DocumentType" 1 [] n (Some "pdf") (Some 1%Z) (Some size).

Definition w0 : world := mkWorld 0 [].

(** A tablet that refuses every request. *)
Definition silent : Device := fun _ _ => NotOk.

(** The scenario of the specification: folder A with document B in it. *)
Definition tablet_AB : Device :=
  fun _ folder_id =>
    if String.eqb folder_id "" then Records [raw_folder "1" "A" ""]
    else if String.eqb folder_id "1"
         then Records [raw_document "2" "B" "1" "10"]
    else Records [].

Definition folder_A : Folder.t :=
  Folder.mk 0 "1" None "A" None (raw_folder "1" "A" "").

Definition document_B : Document.t :=
  Document.mk 1 "2" (Some folder_A) "B" 10 "pdf" 1 (Some "1")
    (raw_document "2" "B" "1" "10").

Definition docs_AB : list Entity := [EFolder folder_A; EDocument document_B].

(** A document B in the root. *)
Definition root_document_B : Document.t :=
  Document.mk 0 "2" None "B" 10 "pdf" 1 None (raw_document "2" "B" "" "10").

(** A list in which folder B hangs under the document A. *)
Definition document_A : Document.t :=
  Document.mk 0 "d" None "A" 10 "pdf" 1 None (raw_document "d" "A" "" "10").

Definition folder_under_document : Folder.t :=
  Folder.mk 1 "f" None "B" (Some "d") (raw_folder "f" "B" "d").

Definition docs_folder_under_document : list Entity :=
  [EDocument document_A; EFolder folder_under_document].

(** Folder C inside folder A. *)
Definition folder_C : Folder.t :=
  Folder.mk 2 "3" (Some folder_A) "C" (Some "1") (raw_folder "3" "C" "1").

Definition docs_ABC : list Entity :=
  [EFolder folder_A; EDocument document_B; EFolder folder_C].



(** A root listing with a record of a type the client does not know. *)
Definition raw_other : RMApiDocument :=
  mkRaw false "9" "" "" "TemplateType" 1 [] "T" None None None.

Definition tablet_mixed : Device :=
  fun _ folder_id =>
    if String.eqb folder_id ""
    then Records [raw_folder "1" "A" ""; raw_other;
                  raw_document "2" "B" "" "10"]
    else Records [].


(** A folder X in the root with a document Y in it, and a folder whose
    display name ends in ".pdf". *)
Definition folder_X : Folder.t :=
  Folder.mk 0 "x" None "X" None (raw_folder "x" "X" "").

Definition document_Y : Document.t :=
  Document.mk 1 "y" (Some folder_X) "Y" 10 "pdf" 1 (Some "x")
    (raw_document "y" "Y" "x" "10").

Definition folder_scans_pdf : Folder.t :=
  Folder.mk 2 "s" None "scans.pdf" None (raw_folder "s" "scans.pdf" "").

Definition docs_XY : list Entity :=
  [EFolder folder_X; EDocument document_Y; EFolder folder_scans_pdf].

(** A tablet whose root holds a folder N and a document N. *)
Definition tablet_same_name : Device :=
  fun _ folder_id =>
    if String.eqb folder_id ""
    then Records [raw_folder "1" "N" ""; raw_document "2" "N" "" "10"]
    else Records [].

Definition folder_N : Folder.t :=
  Folder.mk 0 "1" None "N" None (raw_folder "1" "N" "").

Definition document_N : Document.t :=
  Document.mk 1 "2" None "N" 10 "pdf" 1 None (raw_document "2" "N" "" "10").

(** A tablet whose root holds the folder scans.pdf. *)
Definition tablet_scans : Device :=
  fun _ folder_id =>
    if String.eqb folder_id "" then Records [raw_folder "s" "scans.pdf" ""]
    else Records [].

Definition folder_scans : Folder.t :=
  Folder.mk 0 "s" None "scans.pdf" None (raw_folder "s" "scans.pdf" "").

(** A tablet that lists the folder L inside itself. *)
Definition tablet_loop : Device :=
  fun _ folder_id =>
    if String.eqb folder_id "" then Records [raw_folder "L" "loop" ""]
    else if String.eqb folder_id "L" then Records [raw_folder "L" "loop" "L"]
    else Records [].

(** A tablet whose root holds the folders A and G; every request for G
    is refused. *)
Definition tablet_gap : Device :=
  fun _ folder_id =>
    if String.eqb folder_id ""
    then Records [raw_folder "1" "A" ""; raw_folder "g" "G" ""]
    else if String.eqb folder_id "1"
         then Records [raw_document "2" "B" "1" "10"]
    else NotOk.

(** The tablet of the scenario when it refuses the first two requests. *)
Definition tablet_flaky : Device :=
  fun t folder_id => if (t <? 2)%nat then NotOk else tablet_AB t folder_id.

(** A folder inside folder A whose display name begins with a slash. *)
Definition folder_slash : Folder.t :=
  Folder.mk 5 "e" (Some folder_A) "/etc" (Some "1") (raw_folder "e" "/etc" "1").

Definition s0 : io_world := mkIO 0 [].

(** A local disc with one file, and a tablet that takes every upload. *)
Definition disc_paper : Disc :=
  fun p => if Path.eqb p (Path.of_string "in/A/paper.pdf")
           then Some "%PDF" else None.

Definition takes_all : Uploads := fun _ _ => true.

(* ===================================================================== *)
(** ** Facts about strings *)
(* ===================================================================== *)

Section StringFacts.

(** [int] on some strings: blanks and a sign around the digits,
    underscores between them, digits and blanks of other scripts (here
    ARABIC-INDIC DIGIT ONE and TWO, NO-BREAK SPACE), and what it
    refuses: the separators 28 to 31, which [str.strip] drops but [int]
    does not, and more than 4300 digits. *)
Lemma py_int_examples :
  py_int " +1_0 " = Some 10%Z /\
  py_int "-007" = Some (-7)%Z /\
  py_int (String (ascii_of_nat 217) (String (ascii_of_nat 161)
            (String (ascii_of_nat 217) (String (ascii_of_nat 162) ""))))
  = Some 12%Z /\
  py_int (String (ascii_of_nat 194) (String (ascii_of_nat 160) "12"))
  = Some 12%Z /\
  py_int (String (ascii_of_nat 28) "12") = None /\
  py_int "1__0" = None /\ py_int "_1" = None /\ py_int "1_" = None /\
  py_int "" = None /\ py_int "abc" = None /\ py_int "1 2" = None /\
  py_int (string_of_list_ascii (repeat "1"%char 4300)) <> None /\
  py_int (string_of_list_ascii (repeat "1"%char 4301)) = None.
Proof.
  repeat split; try reflexivity.
  vm_compute. discriminate.
Qed.

Lemma length_append (a b : string) :
  String.length (a +++ b) = String.length a + String.length b.
Proof. induction a as [|c a IH]; simpl; [reflexivity | now rewrite IH]. Qed.

Lemma substring_0_length (s : string) : substring 0 (String.length s) s = s.
Proof. induction s as [|c s IH]; simpl; [reflexivity | now rewrite IH]. Qed.

Lemma substring_0_append (a b : string) :
  substring 0 (String.length a) (a +++ b) = a.
Proof.
  induction a as [|c a IH]; simpl.
  - destruct b; reflexivity.
  - now rewrite IH.
Qed.

Lemma substring_skip_append (a b : string) :
  substring (String.length a) (String.length b) (a +++ b) = b.
Proof.
  induction a as [|c a IH]; simpl; [apply substring_0_length | exact IH].
Qed.

Lemma length_substring_0 (n : nat) (s : string) :
  String.length (substring 0 n s) <= n.
Proof.
  revert s; induction n as [|n IH]; intros [|c s]; simpl; try lia.
  specialize (IH s); lia.
Qed.

Lemma endswith_append (a suffix : string) : endswith (a +++ suffix) suffix = true.
Proof.
  unfold endswith. rewrite length_append.
  replace (String.length a + String.length suffix - String.length suffix)
    with (String.length a) by lia.
  rewrite substring_skip_append, String.eqb_refl, andb_true_r.
  apply Nat.leb_le; lia.
Qed.

Lemma slice_to_minus_append (a suffix : string) :
  slice_to_minus (String.length suffix) (a +++ suffix) = a.
Proof.
  unfold slice_to_minus. rewrite length_append.
  replace (String.length a + String.length suffix - String.length suffix)
    with (String.length a) by lia.
  apply substring_0_append.
Qed.

Lemma endswith_length (s suffix : string) :
  endswith s suffix = true -> String.length suffix <= String.length s.
Proof.
  unfold endswith. intros H. apply andb_prop in H as [H _].
  now apply Nat.leb_le.
Qed.

(** Cutting a non-empty suffix off changes the string. *)
Lemma slice_to_minus_neq (n : nat) (s : string) :
  0 < n -> n <= String.length s -> slice_to_minus n s <> s.
Proof.
  intros Hn Hle Heq. unfold slice_to_minus in Heq.
  pose proof (length_substring_0 (String.length s - n) s) as Hl.
  rewrite Heq in Hl. lia.
Qed.

Lemma split_slash_no_slash (s : string) :
  has_slash s = false -> split_slash s = [s].
Proof.
  induction s as [|c s IH]; simpl; [reflexivity |].
  intros H. apply orb_false_elim in H as [Hc Hs].
  rewrite Hc, (IH Hs). reflexivity.
Qed.

Lemma has_slash_append (a b : string) :
  has_slash (a +++ b) = has_slash a || has_slash b.
Proof.
  induction a as [|c a IH]; simpl; [reflexivity |].
  now rewrite IH, orb_assoc.
Qed.

Lemma append_nil_r (s : string) : s +++ "" = s.
Proof. induction s as [|c s IH]; simpl; [reflexivity | now rewrite IH]. Qed.

Lemma append_assoc (a b c : string) : (a +++ b) +++ c = a +++ b +++ c.
Proof. induction a as [|x a IH]; simpl; [reflexivity | now rewrite IH]. Qed.

Lemma append_inj_l (a b c : string) : a +++ b = a +++ c -> b = c.
Proof.
  induction a as [|x a IH]; simpl; [tauto |].
  intros H. injection H as H. auto.
Qed.

End StringFacts.

(* ===================================================================== *)
(** ** Facts about paths *)
(* ===================================================================== *)

Section PathFacts.

Lemma path_eqb_spec (p q : Path.t) : reflect (p = q) (Path.eqb p q).
Proof.
  destruct p as [r1 l1], q as [r2 l2]. unfold Path.eqb. simpl.
  destruct (String.eqb_spec r1 r2) as [->|Hr]; simpl.
  - destruct (list_eq_dec string_dec l1 l2) as [->|Hl]; constructor;
      [reflexivity | congruence].
  - constructor. congruence.
Qed.

Lemma splitroot_no_slash (s : string) :
  has_slash s = false -> Path.splitroot s = ("", s).
Proof.
  destruct s as [|c s]; simpl; [reflexivity |].
  intros H. apply orb_false_elim in H as [Hc _]. now rewrite Hc.
Qed.

Lemma of_string_no_slash (s : string) :
  has_slash s = false ->
  Path.of_string s = Path.mk "" (if Path.is_real_part s then [s] else []).
Proof.
  intros H. unfold Path.of_string.
  rewrite (splitroot_no_slash _ H), (split_slash_no_slash _ H). reflexivity.
Qed.

Lemma of_string_plain (s : string) :
  plain_segment s = true -> Path.of_string s = Path.mk "" [s].
Proof.
  unfold plain_segment. intros H. apply andb_prop in H as [Hs Hr].
  apply negb_true_iff in Hs. rewrite (of_string_no_slash _ Hs), Hr.
  reflexivity.
Qed.

Lemma joinpath_plain (p : Path.t) (s : string) :
  plain_segment s = true ->
  Path.joinpath p s = Path.mk (Path.root p) (Path.parts p ++ [s]).
Proof.
  intros H. unfold Path.joinpath. rewrite (of_string_plain _ H). reflexivity.
Qed.

Lemma parent_snoc (r : string) (ps : list string) (s : string) :
  Path.parent (Path.mk r (ps ++ [s])) = Path.mk r ps.
Proof.
  unfold Path.parent. simpl.
  destruct (ps ++ [s]) eqn:E.
  - destruct ps; discriminate.
  - rewrite <- E, removelast_last. reflexivity.
Qed.

Lemma name_snoc (r : string) (ps : list string) (s : string) :
  Path.name (Path.mk r (ps ++ [s])) = s.
Proof. unfold Path.name. simpl. apply last_last. Qed.

Lemma parent_root (p : Path.t) : Path.root (Path.parent p) = Path.root p.
Proof. unfold Path.parent. destruct (Path.parts p); reflexivity. Qed.

Lemma parent_parts_length (p : Path.t) :
  List.length (Path.parts (Path.parent p)) = List.length (Path.parts p) - 1.
Proof.
  unfold Path.parent. destruct (Path.parts p) as [|a l] eqn:E.
  - now rewrite E.
  - simpl Path.parts. clear E. revert a.
    induction l as [|b l IH]; intros a; [reflexivity |].
    specialize (IH b). simpl in *. lia.
Qed.

(** A suffix ".pdf" keeps a slash-free name one part of a path. *)
Lemma plain_segment_pdf (s : string) :
  has_slash s = false -> plain_segment (s +++ ".pdf") = true.
Proof.
  intros H. unfold plain_segment, Path.is_real_part.
  rewrite has_slash_append, H. simpl.
  destruct (String.eqb_spec (s +++ ".pdf") "") as [E|_].
  - apply (f_equal String.length) in E. rewrite length_append in E.
    simpl in E. lia.
  - destruct (String.eqb_spec (s +++ ".pdf") ".") as [E|_]; [|reflexivity].
    apply (f_equal String.length) in E. rewrite length_append in E.
    simpl in E. lia.
Qed.

End PathFacts.

(* ===================================================================== *)
(** ** [_find_doc] and [find_file] on a given list *)
(* ===================================================================== *)

Section Resolution.

Variable dev : Device.
Variable docs : list Entity.

Lemma find_doc_first_named (nm : string) (pid : option string) :
  _find_doc nm pid docs = first_named (strip_pdf nm) pid docs.
Proof.
  unfold _find_doc, first_named, strip_pdf.
  generalize (if endswith nm ".pdf" then slice_to_minus 4 nm else nm).
  intros n. induction docs as [|d l IH]; simpl; [reflexivity |].
  destruct (String.eqb (visible_name d) n && opt_str_eqb (parent_id d) pid);
    [reflexivity | exact IH].
Qed.

Lemma strip_pdf_append (s : string) : strip_pdf (s +++ ".pdf") = s.
Proof.
  unfold strip_pdf. rewrite endswith_append.
  exact (slice_to_minus_append s ".pdf").
Qed.

Lemma strip_pdf_neq (s : string) : endswith s ".pdf" = true -> strip_pdf s <> s.
Proof.
  intros H. unfold strip_pdf. rewrite H.
  apply slice_to_minus_neq; [lia |].
  exact (endswith_length _ _ H).
Qed.

Lemma opt_str_eqb_eq (a b : option string) :
  opt_str_eqb a b = true <-> a = b.
Proof.
  destruct a as [x|], b as [y|]; simpl; try (split; congruence).
  rewrite String.eqb_eq. split; congruence.
Qed.

Lemma first_named_some (nm : string) (pid : option string) (e : Entity) :
  first_named nm pid docs = Some e ->
  In e docs /\ visible_name e = nm /\ parent_id e = pid.
Proof.
  unfold first_named. intros H. apply find_some in H as [Hin Hb].
  apply andb_prop in Hb as [Hn Hp].
  apply String.eqb_eq in Hn. apply opt_str_eqb_eq in Hp. auto.
Qed.

Lemma find_doc_nothing_named (nm : string) (pid : option string) :
  nothing_named nm pid docs -> _find_doc nm pid docs = None.
Proof.
  intros H. rewrite find_doc_first_named.
  destruct (first_named (strip_pdf nm) pid docs) as [e|] eqn:E;
    [|reflexivity].
  apply first_named_some in E as (Hin & Hn & Hp).
  now destruct (H e Hin Hn).
Qed.

(** One level of the recursion of [find_file], the list being given. *)
Lemma find_file_S (fuel : nat) (fn : Path.t) (w : world) :
  find_file (S fuel) dev fn (Some docs) w =
  if negb (Path.eqb (Path.parent fn) Path.dot) then
    match find_file fuel dev (Path.parent fn) (Some docs) w with
    | (Ok (Some p), w') =>
        (Ok (_find_doc (Path.name fn) (Some (id_ p)) docs), w')
    | (Ok None, w') => (Ok None, w')
    | (Raise e, w') => (Raise e, w')
    | (OutOfFuel, w') => (OutOfFuel, w')
    end
  else (Ok (_find_doc (Path.name fn) None docs), w).
Proof.
  simpl. unfold bind, ret.
  destruct (negb (Path.eqb (Path.parent fn) Path.dot)); [|reflexivity].
  destruct (find_file fuel dev (Path.parent fn) (Some docs) w)
    as [[[p|]|e|] w']; reflexivity.
Qed.

(** Resolution on a given list touches neither the tablet nor the log. *)
Lemma find_file_world (fuel : nat) (fn : Path.t) (w w' : world)
    (r : outcome (option Entity)) :
  find_file fuel dev fn (Some docs) w = (r, w') -> w' = w.
Proof.
  revert fn r w'. induction fuel as [|fuel IH]; intros fn r w' H.
  - simpl in H. unfold out_of_fuel in H. congruence.
  - rewrite find_file_S in H.
    destruct (negb (Path.eqb (Path.parent fn) Path.dot)); [|congruence].
    destruct (find_file fuel dev (Path.parent fn) (Some docs) w)
      as [[[p|]|e|] w1] eqn:E; apply IH in E; congruence.
Qed.

(** More fuel does not change an answer. *)
Lemma find_file_fuel_S (fuel : nat) (fn : Path.t) (w w' : world)
    (r : option Entity) :
  find_file fuel dev fn (Some docs) w = (Ok r, w') ->
  find_file (S fuel) dev fn (Some docs) w = (Ok r, w').
Proof.
  revert fn r w'. induction fuel as [|fuel IH]; intros fn r w' H.
  - simpl in H. unfold out_of_fuel in H. congruence.
  - rewrite find_file_S in H. rewrite find_file_S.
    destruct (negb (Path.eqb (Path.parent fn) Path.dot)); [|exact H].
    destruct (find_file fuel dev (Path.parent fn) (Some docs) w)
      as [[[p|]|e|] w1] eqn:E; try discriminate;
      rewrite (IH _ _ _ E); exact H.
Qed.

Lemma find_file_fuel_mono (fuel fuel' : nat) (fn : Path.t) (w w' : world)
    (r : option Entity) :
  fuel <= fuel' ->
  find_file fuel dev fn (Some docs) w = (Ok r, w') ->
  find_file fuel' dev fn (Some docs) w = (Ok r, w').
Proof.
  intros Hle H. induction Hle as [|m _ IH]; [exact H |].
  now apply find_file_fuel_S.
Qed.

(** Only a relative path resolves: a rooted path never reaches
    [Path(".")]. *)
Lemma find_file_relative (fuel : nat) (fn : Path.t) (w w' : world)
    (r : option Entity) :
  find_file fuel dev fn (Some docs) w = (Ok r, w') -> Path.root fn = "".
Proof.
  revert fn r w'. induction fuel as [|fuel IH]; intros fn r w' H.
  - simpl in H. unfold out_of_fuel in H. congruence.
  - rewrite find_file_S in H.
    destruct (path_eqb_spec (Path.parent fn) Path.dot) as [E|_]; simpl in H.
    + rewrite <- (parent_root fn), E. reflexivity.
    + destruct (find_file fuel dev (Path.parent fn) (Some docs) w)
        as [[[p|]|e|] w1] eqn:E; try discriminate;
        apply IH in E; now rewrite parent_root in E.
Qed.

Lemma find_file_rooted (fuel : nat) (fn : Path.t) (w : world) :
  Path.root fn <> "" ->
  find_file fuel dev fn (Some docs) w = (OutOfFuel, w).
Proof.
  revert fn. induction fuel as [|fuel IH]; intros fn H; [reflexivity |].
  rewrite find_file_S.
  destruct (path_eqb_spec (Path.parent fn) Path.dot) as [E|_]; simpl.
  - exfalso. apply H. rewrite <- (parent_root fn), E. reflexivity.
  - rewrite IH; [reflexivity | now rewrite parent_root].
Qed.

(** On a relative path the recursion is as deep as the path has parts. *)
Lemma find_file_total (fuel : nat) (fn : Path.t) (w : world) :
  Path.root fn = "" ->
  List.length (Path.parts fn) < S fuel -> 0 < fuel ->
  exists r, find_file fuel dev fn (Some docs) w = (Ok r, w).
Proof.
  revert fn. induction fuel as [|fuel IH]; intros fn Hr Hl Hf; [lia |].
  rewrite find_file_S.
  destruct (path_eqb_spec (Path.parent fn) Path.dot) as [E|N]; simpl.
  - eauto.
  - assert (Hp : 1 < List.length (Path.parts fn)).
    { destruct fn as [r [|a [|b l]]]; simpl in *; subst; try lia;
        exfalso; apply N; reflexivity. }
    destruct (IH (Path.parent fn)) as [r Hrp].
    + now rewrite parent_root.
    + rewrite parent_parts_length. lia.
    + lia.
    + rewrite Hrp. destruct r; eauto.
Qed.

(** What an answer of [find_file] looks like. *)
Lemma find_file_answer (fuel : nat) (fn : Path.t) (w w' : world) (e : Entity) :
  find_file fuel dev fn (Some docs) w = (Ok (Some e), w') ->
  exists pid, _find_doc (Path.name fn) pid docs = Some e.
Proof.
  destruct fuel as [|fuel]; intros H.
  - simpl in H. unfold out_of_fuel in H. congruence.
  - rewrite find_file_S in H.
    destruct (negb (Path.eqb (Path.parent fn) Path.dot)).
    + destruct (find_file fuel dev (Path.parent fn) (Some docs) w)
        as [[[p|]|x|] w1]; try discriminate.
      injection H as H _. eauto.
    + injection H as H _. eauto.
Qed.



(** [has_file] is the test whether [find_file] finds something. *)
Lemma has_file_find_file (fuel : nat) (fn : Path.t) (w w' : world)
    (r : option Entity) :
  find_file fuel dev fn (Some docs) w = (Ok r, w') ->
  has_file fuel dev fn (Some docs) w
  = (Ok (match r with Some _ => true | None => false end), w').
Proof. intros H. unfold has_file, bind. now rewrite H. Qed.

End Resolution.

(* ===================================================================== *)
(** ** [mkdir] on a given list *)
(* ===================================================================== *)

Section Mkdir.

Variable dev : Device.
Variable docs : list Entity.

(** One level of the recursion of [mkdir], the list being given. *)
Lemma mkdir_S (fuel : nat) (fn : Path.t) (exists_ok parents : bool)
    (w : world) :
  mkdir (S fuel) dev fn exists_ok parents (Some docs) w =
  if negb (Path.eqb (Path.parent fn) Path.dot) then
    if parents then
      match mkdir fuel dev (Path.parent fn) true true (Some docs) w with
      | (Ok par, w1) =>
          mkdir_target fn exists_ok (Some (Folder.id_ par)) docs w1
      | (Raise x, w1) => (Raise x, w1)
      | (OutOfFuel, w1) => (OutOfFuel, w1)
      end
    else
      match find_file fuel dev (Path.parent fn) (Some docs) w with
      | (Ok (Some par), w1) => mkdir_target fn exists_ok (Some (id_ par)) docs w1
      | (Ok None, w1) => (Raise (RuntimeError "parent does not exist"), w1)
      | (Raise x, w1) => (Raise x, w1)
      | (OutOfFuel, w1) => (OutOfFuel, w1)
      end
  else mkdir_target fn exists_ok None docs w.
Proof.
  simpl. unfold bind, ret, mkdir_target.
  destruct (negb (Path.eqb (Path.parent fn) Path.dot)); [|reflexivity].
  destruct parents.
  - destruct (mkdir fuel dev (Path.parent fn) true true (Some docs) w)
      as [[par|x|] w1]; reflexivity.
  - destruct (find_file fuel dev (Path.parent fn) (Some docs) w)
      as [[[par|]|x|] w1]; reflexivity.
Qed.

Lemma mkdir_target_none (fn : Path.t) (exists_ok : bool)
    (pid : option string) (w : world) :
  _find_doc (Path.name fn) pid docs = None ->
  mkdir_target fn exists_ok pid docs w =
  (Raise (RuntimeError (not_implemented_msg fn)), logged (RawMkdir fn) w).
Proof. intros H. unfold mkdir_target. rewrite H. reflexivity. Qed.

Lemma mkdir_target_folder (fn : Path.t) (pid : option string) (F : Folder.t)
    (w : world) :
  _find_doc (Path.name fn) pid docs = Some (EFolder F) ->
  mkdir_target fn true pid docs w = (Ok F, w).
Proof. intros H. unfold mkdir_target. rewrite H. reflexivity. Qed.

Lemma mkdir_target_exists (fn : Path.t) (pid : option string) (e : Entity)
    (w : world) :
  _find_doc (Path.name fn) pid docs = Some e ->
  mkdir_target fn false pid docs w =
  (Raise (RuntimeError "folder already exists"), w).
Proof. intros H. unfold mkdir_target. rewrite H. reflexivity. Qed.

Lemma mkdir_target_document (fn : Path.t) (pid : option string)
    (d : Document.t) (w : world) :
  _find_doc (Path.name fn) pid docs = Some (EDocument d) ->
  mkdir_target fn true pid docs w =
  (Raise (RuntimeError (collision_msg fn)), w).
Proof. intros H. unfold mkdir_target. rewrite H. reflexivity. Qed.

(** When the last step raises the collision error, [exists_ok] is set. *)
Lemma mkdir_target_collision (fn : Path.t) (exists_ok : bool)
    (pid : option string) (w w' : world) (m : string) :
  mkdir_target fn exists_ok pid docs w = (Raise (RuntimeError m), w') ->
  m = "folder already exists" \/
  m = not_implemented_msg fn \/
  (m = collision_msg fn /\ exists_ok = true).
Proof.
  unfold mkdir_target.
  destruct (_find_doc (Path.name fn) pid docs) as [[d|F]|];
    destruct exists_ok; simpl; unfold raise, ret, raw_mkdir, bind, emit;
    intros H; inversion H; auto.
Qed.

(** The fuel an answer of [find_file] shows there was. *)
Lemma find_file_fuel_needed (fuel : nat) (fn : Path.t) (w w' : world)
    (r : option Entity) :
  find_file fuel dev fn (Some docs) w = (Ok r, w') ->
  List.length (Path.parts fn) < S fuel /\ 0 < fuel.
Proof.
  revert fn r w'. induction fuel as [|fuel IH]; intros fn r w' H.
  - simpl in H. unfold out_of_fuel in H. congruence.
  - rewrite find_file_S in H.
    destruct (path_eqb_spec (Path.parent fn) Path.dot) as [E|_]; simpl in H.
    + pose proof (parent_parts_length fn) as Hl. rewrite E in Hl.
      simpl in Hl. lia.
    + destruct (find_file fuel dev (Path.parent fn) (Some docs) w)
        as [[[p|]|e|] w1] eqn:E; try discriminate;
        apply IH in E; rewrite parent_parts_length in E; lia.
Qed.

Lemma find_file_fuel_any (fuel fuel' : nat) (fn : Path.t) (w w' : world)
    (r : option Entity) :
  find_file fuel' dev fn (Some docs) w = (Ok r, w') ->
  List.length (Path.parts fn) < S fuel -> 0 < fuel ->
  find_file fuel dev fn (Some docs) w = (Ok r, w').
Proof.
  intros H Hl Hf.
  destruct (Nat.le_gt_cases fuel' fuel) as [Hle|Hgt].
  - exact (find_file_fuel_mono _ _ _ _ _ _ _ _ Hle H).
  - pose proof (find_file_relative _ _ _ _ _ _ _ H) as Hr.
    pose proof (find_file_world _ _ _ _ _ _ _ H) as ->.
    destruct (find_file_total dev docs fuel fn w Hr Hl Hf) as [r' Hr'].
    assert (Hle : fuel <= fuel') by lia.
    pose proof (find_file_fuel_mono _ _ _ _ _ _ _ _ Hle Hr') as H2.
    congruence.
Qed.

Lemma proper_ancestors_parent (fn : Path.t) :
  Path.root fn = "" -> Path.parent fn <> Path.dot ->
  proper_ancestors fn = proper_ancestors (Path.parent fn) ++ [Path.parent fn].
Proof.
  destruct fn as [r ps]. simpl. intros -> N.
  destruct (exists_last (l := ps)) as (l & a & ->).
  { intros ->. apply N. reflexivity. }
  rewrite parent_snoc in *. unfold proper_ancestors. simpl Path.parts.
  simpl Path.root. rewrite length_app. simpl List.length.
  replace (List.length l + 1 - 1) with (S (List.length l - 1)).
  2:{ destruct l; [exfalso; apply N; reflexivity | simpl; lia]. }
  assert (Hl : 1 + (List.length l - 1) = List.length l).
  { destruct l; [exfalso; apply N; reflexivity | simpl; lia]. }
  rewrite seq_S, map_app, Hl. f_equal.
  - apply map_ext_in. intros k Hk. apply in_seq in Hk.
    rewrite firstn_app. replace (k - List.length l) with 0 by lia.
    rewrite firstn_O. now rewrite app_nil_r.
  - unfold map.
    rewrite firstn_app, firstn_all, Nat.sub_diag, firstn_O.
    now rewrite app_nil_r.
Qed.

Lemma ancestors_are_folders_parent (fuel : nat) (w : world) (fn : Path.t) :
  Path.root fn = "" -> Path.parent fn <> Path.dot ->
  ancestors_are_folders fuel dev docs w fn ->
  ancestors_are_folders fuel dev docs w (Path.parent fn) /\
  exists G, find_file fuel dev (Path.parent fn) (Some docs) w
            = (Ok (Some (EFolder G)), w).
Proof.
  intros Hr N H. unfold ancestors_are_folders in *.
  rewrite (proper_ancestors_parent _ Hr N) in H.
  apply Forall_app in H as [H1 H2]. split; [exact H1 |].
  now inversion H2.
Qed.

Lemma ancestors_are_folders_fuel (fuel fuel' : nat) (w : world) (fn : Path.t) :
  List.length (Path.parts fn) <= S fuel -> 0 < fuel ->
  ancestors_are_folders fuel' dev docs w fn ->
  ancestors_are_folders fuel dev docs w fn.
Proof.
  intros Hl Hf H. unfold ancestors_are_folders in *.
  rewrite Forall_forall in *. intros q Hq.
  destruct (H q Hq) as [G HG]. exists G.
  apply (find_file_fuel_any _ _ _ _ _ _ HG); [|exact Hf].
  unfold proper_ancestors in Hq. apply in_map_iff in Hq as (k & <- & Hk).
  apply in_seq in Hk. simpl. rewrite length_firstn. lia.
Qed.

(** A path whose directories and whose last part are folders of [docs]:
    [mkdir] with [parents] walks down to the folder and returns it. *)
Lemma proper_ancestors_nil (fn : Path.t) :
  Path.parent fn = Path.dot -> Path.root fn = "" -> proper_ancestors fn = [].
Proof.
  destruct fn as [r [|a [|b l]]]; simpl; intros E Hr; try reflexivity.
  unfold Path.parent in E. simpl in E. discriminate.
Qed.

(** In a list in which every folder an entry refers to is an entry, the
    [parent_id] of an entry is the identifier of its folder and no two
    entries have the same identifier, a path resolves through folders
    only. *)
Lemma resolved_through_folders :
  closed docs -> parent_linked docs -> ids_unique docs ->
  forall (fuel : nat) (fn : Path.t) (e : Entity) (w : world),
    find_file fuel dev fn (Some docs) w = (Ok (Some e), w) ->
    ancestors_are_folders fuel dev docs w fn.
Proof.
  intros Hc Hl Hu fuel.
  induction fuel as [|fuel IH]; intros fn e w H.
  - simpl in H. unfold out_of_fuel in H. congruence.
  - pose proof (find_file_relative _ _ _ _ _ _ _ H) as Hr.
    rewrite find_file_S in H.
    destruct (path_eqb_spec (Path.parent fn) Path.dot) as [E|N]; simpl in H.
    + unfold ancestors_are_folders.
      rewrite (proper_ancestors_nil fn E Hr). constructor.
    + destruct (find_file fuel dev (Path.parent fn) (Some docs) w)
        as [[[p|]|x|] w1] eqn:Ep; try discriminate.
      pose proof (find_file_world _ _ _ _ _ _ _ Ep) as ->.
      injection H as H.
      rewrite find_doc_first_named in H.
      apply first_named_some in H as (He & _ & Hp).
      destruct (find_file_answer _ _ _ _ _ _ _ Ep) as [pid Hd].
      rewrite find_doc_first_named in Hd.
      apply first_named_some in Hd as (Hin & _ & _).
      pose proof (Hl e He) as Hle. rewrite Hp in Hle.
      destruct (folder e) as [G|] eqn:EG; [|discriminate].
      simpl in Hle. injection Hle as Hid.
      assert (p = EFolder G) as ->
        by (apply Hu; [exact Hin | exact (Hc e G He EG) | exact Hid]).
      unfold ancestors_are_folders.
      rewrite (proper_ancestors_parent fn Hr N).
      apply Forall_app. split.
      * pose proof (IH _ _ _ Ep) as A. unfold ancestors_are_folders in A.
        eapply Forall_impl; [|exact A].
        intros q [G' HG']. exists G'. now apply find_file_fuel_S.
      * constructor; [|constructor]. exists G. now apply find_file_fuel_S.
Qed.

Lemma mkdir_existing_chain (fuel : nat) (fn : Path.t) (F : Folder.t)
    (w : world) :
  find_file fuel dev fn (Some docs) w = (Ok (Some (EFolder F)), w) ->
  ancestors_are_folders fuel dev docs w fn ->
  mkdir fuel dev fn true true (Some docs) w = (Ok F, w).
Proof.
  revert fn F. induction fuel as [|fuel IH]; intros fn F H A.
  - simpl in H. unfold out_of_fuel in H. congruence.
  - pose proof (find_file_relative _ _ _ _ _ _ _ H) as Hr.
    pose proof (find_file_fuel_needed _ _ _ _ _ H) as [Hl _].
    rewrite find_file_S in H. rewrite mkdir_S.
    destruct (path_eqb_spec (Path.parent fn) Path.dot) as [E|N]; simpl in *.
    + injection H as H. now apply mkdir_target_folder.
    + destruct (find_file fuel dev (Path.parent fn) (Some docs) w)
        as [[[p|]|e|] w1] eqn:E; try discriminate.
      pose proof (find_file_world _ _ _ _ _ _ _ E) as ->.
      injection H as H.
      destruct (ancestors_are_folders_parent _ _ _ Hr N A) as [A' [G HG]].
      pose proof (find_file_fuel_needed _ _ _ _ _ E) as [Hl' Hf'].
      pose proof (find_file_fuel_S _ _ _ _ _ _ _ E) as E'.
      assert (p = EFolder G) as -> by congruence.
      rewrite (IH _ _ E).
      * now apply mkdir_target_folder.
      * apply ancestors_are_folders_fuel with (fuel' := S fuel);
          [lia | exact Hf' | exact A'].
Qed.

(** Under the hypotheses on the directories of [fn], [mkdir] gets to its
    last step with the parent identifier resolution gives. *)
Lemma mkdir_reaches_target (fuel : nat) (fn : Path.t)
    (exists_ok parents : bool) (w : world) (pid : option string) :
  parent_id_resolved fuel dev docs w fn pid ->
  (parents = true -> ancestors_are_folders fuel dev docs w fn) ->
  mkdir (S fuel) dev fn exists_ok parents (Some docs) w =
  mkdir_target fn exists_ok pid docs w.
Proof.
  intros [[E ->]|[N (p & Hp & ->)]] A; rewrite mkdir_S.
  - rewrite E. now destruct (path_eqb_spec Path.dot Path.dot).
  - destruct (path_eqb_spec (Path.parent fn) Path.dot) as [E|_];
      [contradiction |]. simpl.
    destruct parents.
    + pose proof (find_file_relative _ _ _ _ _ _ _ Hp) as Hr.
      rewrite parent_root in Hr.
      destruct (ancestors_are_folders_parent _ _ _ Hr N (A eq_refl))
        as [A' [G HG]].
      assert (p = EFolder G) as -> by congruence.
      now rewrite (mkdir_existing_chain _ _ _ _ HG A').
    + now rewrite Hp.
Qed.

Lemma find_file_no_raise (fuel : nat) (fn : Path.t) (w w' : world) (x : exn) :
  find_file fuel dev fn (Some docs) w <> (Raise x, w').
Proof.
  revert fn. induction fuel as [|fuel IH]; intros fn H.
  - simpl in H. unfold out_of_fuel in H. congruence.
  - rewrite find_file_S in H.
    destruct (negb (Path.eqb (Path.parent fn) Path.dot)); [|congruence].
    destruct (find_file fuel dev (Path.parent fn) (Some docs) w)
      as [[[p|]|e|] w1] eqn:E; try discriminate.
    injection H as -> ->. exact (IH _ E).
Qed.

Lemma mkdir_rooted (fuel : nat) (fn : Path.t) (exists_ok parents : bool)
    (w : world) :
  Path.root fn <> "" ->
  mkdir fuel dev fn exists_ok parents (Some docs) w = (OutOfFuel, w).
Proof.
  revert fn exists_ok parents.
  induction fuel as [|fuel IH]; intros fn e p H; [reflexivity |].
  rewrite mkdir_S.
  destruct (path_eqb_spec (Path.parent fn) Path.dot) as [E|_]; simpl.
  - exfalso. apply H. rewrite <- (parent_root fn), E. reflexivity.
  - destruct p.
    + rewrite IH; [reflexivity | now rewrite parent_root].
    + rewrite find_file_rooted; [reflexivity | now rewrite parent_root].
Qed.

Lemma join_slash_app (a b : list string) :
  a <> [] -> b <> [] ->
  join_slash (a ++ b) = join_slash a +++ "/" +++ join_slash b.
Proof.
  intros Ha Hb. induction a as [|x a IH]; [contradiction |].
  destruct a as [|y a].
  - destruct b; [contradiction | reflexivity].
  - change (join_slash ((x :: y :: a) ++ b))
      with (x +++ "/" +++ join_slash ((y :: a) ++ b)).
    rewrite IH by discriminate.
    change (join_slash (x :: y :: a)) with (x +++ "/" +++ join_slash (y :: a)).
    now rewrite !append_assoc.
Qed.

(** The name of a directory above [fn] is shorter than the name of [fn]. *)
Lemma str_ancestor_shorter (q fn : Path.t) :
  In q (proper_ancestors fn) ->
  String.length (Path.str q) < String.length (Path.str fn).
Proof.
  unfold proper_ancestors. intros H.
  apply in_map_iff in H as (k & <- & Hk). apply in_seq in Hk.
  destruct fn as [r ps]. simpl in *.
  rewrite <- (firstn_skipn k ps) at 2.
  assert (Ha : firstn k ps <> []).
  { intros E. apply (f_equal (@List.length _)) in E.
    rewrite length_firstn in E. simpl in E. lia. }
  assert (Hb : skipn k ps <> []).
  { intros E. apply (f_equal (@List.length _)) in E.
    rewrite length_skipn in E. simpl in E. lia. }
  unfold Path.str. simpl.
  destruct (firstn k ps) as [|x a] eqn:Ea; [contradiction |].
  destruct (skipn k ps) as [|y b] eqn:Eb; [contradiction |].
  change ((x :: a) ++ y :: b) with (x :: (a ++ y :: b)).
  change (x :: (a ++ y :: b)) with ((x :: a) ++ y :: b).
  rewrite join_slash_app by discriminate.
  cbn [app]. rewrite !length_append.
  change (String.length "/") with 1. lia.
Qed.

(** The errors [mkdir] raises on a given list. *)
Lemma mkdir_raise_msg (fuel : nat) (fn : Path.t) (exists_ok parents : bool)
    (w w' : world) (m : string) :
  mkdir fuel dev fn exists_ok parents (Some docs) w
  = (Raise (RuntimeError m), w') ->
  m = "folder already exists" \/
  m = "parent does not exist" \/
  (exists q, m = not_implemented_msg q) \/
  (m = collision_msg fn /\ exists_ok = true) \/
  (exists q, In q (proper_ancestors fn) /\ m = collision_msg q).
Proof.
  revert fn exists_ok parents w'.
  induction fuel as [|fuel IH]; intros fn e p w' H.
  - simpl in H. unfold out_of_fuel in H. congruence.
  - destruct (string_dec (Path.root fn) "") as [Hr|Hr].
    2:{ rewrite (mkdir_rooted _ _ _ _ _ Hr) in H. discriminate. }
    rewrite mkdir_S in H.
    assert (T : forall pid w1,
               mkdir_target fn e pid docs w1 = (Raise (RuntimeError m), w') ->
               m = "folder already exists" \/
               m = "parent does not exist" \/
               (exists q, m = not_implemented_msg q) \/
               (m = collision_msg fn /\ e = true) \/
               (exists q, In q (proper_ancestors fn) /\ m = collision_msg q)).
    { intros pid w1 HT.
      destruct (mkdir_target_collision _ _ _ _ _ _ HT) as [?|[?|?]]; eauto 6. }
    destruct (path_eqb_spec (Path.parent fn) Path.dot) as [E|N]; simpl in H;
      [eauto |].
    destruct p.
    + destruct (mkdir fuel dev (Path.parent fn) true true (Some docs) w)
        as [[par|x|] w1] eqn:E; [eauto | | discriminate].
      injection H as -> ->.
      rewrite (proper_ancestors_parent _ Hr N).
      destruct (IH _ _ _ _ E) as [?|[?|[?|[[? _]|(q & Hq & ?)]]]]; auto.
      * do 4 right. exists (Path.parent fn). split; [|assumption].
        apply in_or_app. right. now left.
      * do 4 right. exists q. split; [|assumption].
        apply in_or_app. now left.
    + destruct (find_file fuel dev (Path.parent fn) (Some docs) w)
        as [[[par|]|x|] w1] eqn:E; [eauto | | | discriminate].
      * injection H as <- _. auto.
      * exfalso. exact (find_file_no_raise _ _ _ _ _ E).
Qed.

(** More fuel does not change what [mkdir] returns or raises. *)
Lemma mkdir_fuel_S (fuel : nat) (fn : Path.t) (exists_ok parents : bool)
    (w w' : world) (r : outcome Folder.t) :
  mkdir fuel dev fn exists_ok parents (Some docs) w = (r, w') ->
  r <> OutOfFuel ->
  mkdir (S fuel) dev fn exists_ok parents (Some docs) w = (r, w').
Proof.
  revert fn exists_ok parents r w'.
  induction fuel as [|fuel IH]; intros fn e p r w' H N.
  - simpl in H. unfold out_of_fuel in H. congruence.
  - rewrite mkdir_S in H. rewrite mkdir_S.
    destruct (negb (Path.eqb (Path.parent fn) Path.dot)); [|exact H].
    destruct p.
    + destruct (mkdir fuel dev (Path.parent fn) true true (Some docs) w)
        as [[par|x|] w1] eqn:E.
      * now rewrite (IH _ _ _ _ _ E) by discriminate.
      * now rewrite (IH _ _ _ _ _ E) by discriminate.
      * congruence.
    + destruct (find_file fuel dev (Path.parent fn) (Some docs) w)
        as [[par|x|] w1] eqn:E.
      * now rewrite (find_file_fuel_S _ _ _ _ _ _ _ E).
      * exfalso. exact (find_file_no_raise _ _ _ _ _ E).
      * congruence.
Qed.

End Mkdir.

(* ===================================================================== *)
(** ** Folder operations: the statements *)
(* ===================================================================== *)

Section MkdirStatements.

Variable dev : Device.
Variable docs : list Entity.

(** C7.  When [fn] resolves to the folder [F] of [docs], [mkdir] with
    [exists_ok=True] returns [F] and leaves the world as it was: nothing
    is sent to the tablet, the raw [mkdir] is not entered, no object is
    constructed.  With [parents=False] that is so for every list; with
    [parents=True] for every list as the tree builder makes it, where
    every folder an entry refers to is an entry, the [parent_id] of an
    entry is the identifier of its folder, and no two entries have the
    same identifier. *)
Theorem mkdir_exists_ok_returns_folder (fuel : nat) (fn : Path.t)
    (F : Folder.t) (w w' : world) :
  find_file fuel dev fn (Some docs) w = (Ok (Some (EFolder F)), w') ->
  mkdir fuel dev fn true false (Some docs) w = (Ok F, w) /\
  (closed docs -> parent_linked docs -> ids_unique docs ->
   forall parents, mkdir fuel dev fn true parents (Some docs) w = (Ok F, w)).
Proof.
  intros H. pose proof (find_file_world _ _ _ _ _ _ _ H) as ->.
  assert (P0 : mkdir fuel dev fn true false (Some docs) w = (Ok F, w)).
  { destruct fuel as [|fuel].
    - simpl in H. unfold out_of_fuel in H. congruence.
    - rewrite find_file_S in H. rewrite mkdir_S.
      destruct (negb (Path.eqb (Path.parent fn) Path.dot)).
      + destruct (find_file fuel dev (Path.parent fn) (Some docs) w)
          as [[[p|]|e|] w1] eqn:E; try discriminate.
        pose proof (find_file_world _ _ _ _ _ _ _ E) as ->.
        injection H as H. now apply mkdir_target_folder.
      + injection H as H. now apply mkdir_target_folder. }
  split; [exact P0 |].
  intros Hc Hl Hu [|]; [|exact P0].
  apply mkdir_existing_chain; [exact H |].
  exact (resolved_through_folders dev docs Hc Hl Hu _ _ _ _ H).
Qed.

(** C2, as amended.  When the directory of [fn] resolves (with
    [parents=True]: through folders only) and no entry at all, folder or
    document, has the last part of [fn] as its name there, [mkdir] enters
    the raw [mkdir], which raises the "not implemented" error for [fn],
    whatever [exists_ok] and [parents] are.  With [parents=True] the same
    error comes from the outermost directory [q] of [fn] that is missing. *)
Theorem mkdir_not_implemented (fuel : nat) (fn : Path.t)
    (exists_ok parents : bool) (w : world) :
  (forall pid,
      parent_id_resolved fuel dev docs w fn pid ->
      (parents = true -> ancestors_are_folders fuel dev docs w fn) ->
      nothing_named (Path.name fn) pid docs ->
      mkdir (S fuel) dev fn exists_ok parents (Some docs) w =
      (Raise (RuntimeError (not_implemented_msg fn)),
       logged (RawMkdir fn) w)) /\
  (forall q pid,
      In q (proper_ancestors fn) ->
      parent_id_resolved fuel dev docs w q pid ->
      ancestors_are_folders fuel dev docs w q ->
      nothing_named (Path.name q) pid docs ->
      mkdir (S fuel + (List.length (Path.parts fn)
                       - List.length (Path.parts q)))
        dev fn exists_ok true (Some docs) w =
      (Raise (RuntimeError (not_implemented_msg q)),
       logged (RawMkdir q) w)).
Proof.
  split.
  - intros pid P A N. apply find_doc_nothing_named in N.
    rewrite (mkdir_reaches_target _ _ _ _ _ _ _ _ P A).
    now apply mkdir_target_none.
  - intros q pid Hq P A N. apply find_doc_nothing_named in N.
    assert (Hq1 : mkdir (S fuel) dev q true true (Some docs) w =
                  (Raise (RuntimeError (not_implemented_msg q)),
                   logged (RawMkdir q) w)).
    { rewrite (mkdir_reaches_target _ _ _ _ _ _ _ _ P (fun _ => A)).
      now apply mkdir_target_none. }
    clear P A N.
    remember (List.length (Path.parts fn) - List.length (Path.parts q)) as n
      eqn:En.
    revert fn exists_ok Hq En.
    induction n as [|n IH]; intros fn exists_ok Hq En.
    + exfalso. unfold proper_ancestors in Hq.
      apply in_map_iff in Hq as (k & <- & Hk). apply in_seq in Hk.
      simpl in En. rewrite length_firstn in En. lia.
    + replace (S fuel + S n) with (S (S fuel + n)) by lia.
      rewrite mkdir_S.
      assert (Hps : exists l a, Path.parts fn = l ++ [a]).
      { destruct (exists_last (l := Path.parts fn)) as (l & a & E);
          [|eauto].
        intros E. unfold proper_ancestors in Hq. rewrite E in Hq.
        contradiction. }
      destruct Hps as (l & a & Eps).
      destruct fn as [r ps]. simpl in Eps. subst ps.
      rewrite parent_snoc.
      unfold proper_ancestors in Hq. simpl in Hq.
      apply in_map_iff in Hq as (k & <- & Hk). apply in_seq in Hk.
      rewrite length_app in Hk. simpl in Hk.
      simpl in En. rewrite length_firstn, length_app in En. simpl in En.
      assert (Hkl : k <= List.length l) by lia.
      rewrite firstn_app in *.
      replace (k - List.length l) with 0 in * by lia.
      rewrite firstn_O, app_nil_r in *.
      destruct (path_eqb_spec (Path.mk r l) Path.dot) as [E|_].
      { injection E as -> ->. simpl in Hk. lia. }
      simpl negb. cbv iota.
      destruct (Nat.eq_dec k (List.length l)) as [->|Hne].
      * rewrite firstn_all in *.
        replace n with 0 by lia. rewrite Nat.add_0_r, Hq1. reflexivity.
      * rewrite (IH (Path.mk r l) true).
        -- reflexivity.
        -- unfold proper_ancestors. simpl. apply in_map_iff.
           exists k. split; [reflexivity |]. apply in_seq. lia.
        -- simpl. rewrite length_firstn. lia.
Qed.

(** C10.  A document where the folder should be: with [exists_ok=False]
    the error is "folder already exists", with [exists_ok=True] it is the
    collision error; and whenever a call of [mkdir] raises the collision
    error for its own path, that call had [exists_ok=True]. *)
Theorem mkdir_document_in_the_way (fuel : nat) (fn : Path.t) (w : world) :
  (forall parents pid d,
      parent_id_resolved fuel dev docs w fn pid ->
      (parents = true -> ancestors_are_folders fuel dev docs w fn) ->
      _find_doc (Path.name fn) pid docs = Some (EDocument d) ->
      mkdir (S fuel) dev fn false parents (Some docs) w =
      (Raise (RuntimeError "folder already exists"), w) /\
      mkdir (S fuel) dev fn true parents (Some docs) w =
      (Raise (RuntimeError (collision_msg fn)), w)) /\
  (forall exists_ok parents w',
      mkdir fuel dev fn exists_ok parents (Some docs) w =
      (Raise (RuntimeError (collision_msg fn)), w') ->
      exists_ok = true).
Proof.
  split.
  - intros parents pid d P A D. split.
    + rewrite (mkdir_reaches_target _ _ _ _ _ _ _ _ P A).
      now apply mkdir_target_exists with (e := EDocument d).
    + rewrite (mkdir_reaches_target _ _ _ _ _ _ _ _ P A).
      now apply mkdir_target_document with (d := d).
  - intros e p w' H.
    destruct (mkdir_raise_msg _ _ _ _ _ _ _ _ _ H)
      as [E|[E|[[q E]|[[_ E]|(q & Hq & E)]]]];
      try (unfold collision_msg, not_implemented_msg in E; simpl in E;
           discriminate E).
    + exact E.
    + exfalso. apply str_ancestor_shorter in Hq.
      apply (f_equal String.length) in E. unfold collision_msg in E.
      rewrite !length_append in E. lia.
Qed.

End MkdirStatements.

Lemma mkdir_exists_ok_returns_folder_witness :
  find_file 2 silent (Path.of_string "A/C") (Some docs_ABC) w0
  = (Ok (Some (EFolder folder_C)), w0) /\
  closed docs_ABC /\ parent_linked docs_ABC /\ ids_unique docs_ABC /\
  mkdir 2 silent (Path.of_string "A/C") true false (Some docs_ABC) w0
  = (Ok folder_C, w0) /\
  mkdir 2 silent (Path.of_string "A/C") true true (Some docs_ABC) w0
  = (Ok folder_C, w0).
Proof.
  assert (Hc : closed docs_ABC).
  { intros e F [<-|[<-|[<-|[]]]] E; simpl in E; try discriminate;
      injection E as <-; now left. }
  assert (Hl : parent_linked docs_ABC).
  { intros e [<-|[<-|[<-|[]]]]; reflexivity. }
  assert (Hu : ids_unique docs_ABC).
  { intros e1 e2 [<-|[<-|[<-|[]]]] [<-|[<-|[<-|[]]]] E;
      try reflexivity; discriminate E. }
  destruct (mkdir_exists_ok_returns_folder silent docs_ABC 2
              (Path.of_string "A/C") folder_C w0 w0 eq_refl) as [H0 H1].
  split; [reflexivity |]. split; [exact Hc |]. split; [exact Hl |].
  split; [exact Hu |]. split; [exact H0 | exact (H1 Hc Hl Hu true)].
Defined.

(** The list has to be one of the tree builder for [parents=True]: when
    the folder B, an entry without a folder, carries the identifier of
    the document A as [parent_id], [find_file] resolves A/B to B, and
    [mkdir] with [parents=True] raises at A. *)
Lemma mkdir_folder_under_document :
  ~ parent_linked docs_folder_under_document /\
  find_file 2 silent (Path.of_string "A/B")
    (Some docs_folder_under_document) w0
  = (Ok (Some (EFolder folder_under_document)), w0) /\
  mkdir 2 silent (Path.of_string "A/B") true true
    (Some docs_folder_under_document) w0
  = (Raise (RuntimeError "mkdir: document of same name exists 'A'"), w0).
Proof.
  split; [|split; reflexivity].
  intros H. specialize (H (EFolder folder_under_document)
                          (or_intror (or_introl eq_refl))).
  discriminate H.
Qed.

Lemma mkdir_not_implemented_witness :
  (parent_id_resolved 1 silent docs_AB w0 (Path.of_string "A/Z") (Some "1") /\
   ancestors_are_folders 1 silent docs_AB w0 (Path.of_string "A/Z") /\
   nothing_named "Z" (Some "1") docs_AB /\
   mkdir 2 silent (Path.of_string "A/Z") false true (Some docs_AB) w0
   = (Raise (RuntimeError (not_implemented_msg (Path.of_string "A/Z"))),
      logged (RawMkdir (Path.of_string "A/Z")) w0)) /\
  (In (Path.of_string "A/Z") (proper_ancestors (Path.of_string "A/Z/Q")) /\
   mkdir 3 silent (Path.of_string "A/Z/Q") false true (Some docs_AB) w0
   = (Raise (RuntimeError (not_implemented_msg (Path.of_string "A/Z"))),
      logged (RawMkdir (Path.of_string "A/Z")) w0)).
Proof.
  assert (P : parent_id_resolved 1 silent docs_AB w0 (Path.of_string "A/Z")
                (Some "1")).
  { right. split; [discriminate |]. exists (EFolder folder_A).
    split; reflexivity. }
  assert (A : ancestors_are_folders 1 silent docs_AB w0 (Path.of_string "A/Z")).
  { unfold ancestors_are_folders. simpl. constructor; [|constructor].
    exists folder_A. reflexivity. }
  assert (I : In (Path.of_string "A/Z")
                (proper_ancestors (Path.of_string "A/Z/Q"))).
  { simpl. right. left. reflexivity. }
  assert (N : nothing_named "Z" (Some "1") docs_AB).
  { intros e [<-|[<-|[]]] E; discriminate E. }
  split.
  - split; [exact P |]. split; [exact A |]. split; [exact N |].
    apply (proj1 (mkdir_not_implemented silent docs_AB 1
                    (Path.of_string "A/Z") false true w0) (Some "1"));
      [exact P | intros _; exact A | exact N].
  - split; [exact I |].
    apply (proj2 (mkdir_not_implemented silent docs_AB 1
                    (Path.of_string "A/Z/Q") false true w0)
             (Path.of_string "A/Z") (Some "1"));
      [exact I | exact P | exact A | exact N].
Defined.

(** C2 as it is stated fails: no folder B exists in the root, a document
    B does, and [mkdir] raises the collision error or "folder already
    exists", never "not implemented". *)
Lemma mkdir_document_not_folder :
  (forall F, ~ In (EFolder F) [EDocument root_document_B]) /\
  mkdir 1 silent (Path.of_string "B") true false
    (Some [EDocument root_document_B]) w0
  = (Raise (RuntimeError "mkdir: document of same name exists 'B'"), w0) /\
  mkdir 1 silent (Path.of_string "B") false false
    (Some [EDocument root_document_B]) w0
  = (Raise (RuntimeError "folder already exists"), w0) /\
  forall fuel exists_ok parents,
    fst (mkdir fuel silent (Path.of_string "B") exists_ok parents
           (Some [EDocument root_document_B]) w0)
    <> Raise (RuntimeError (not_implemented_msg (Path.of_string "B"))).
Proof.
  split.
  { intros F [H|[]]. discriminate H. }
  split; [reflexivity |]. split; [reflexivity |].
  intros [|fuel] [|] [|]; vm_compute; discriminate.
Qed.

Lemma mkdir_document_in_the_way_witness :
  parent_id_resolved 1 silent docs_AB w0 (Path.of_string "A/B") (Some "1") /\
  ancestors_are_folders 1 silent docs_AB w0 (Path.of_string "A/B") /\
  _find_doc "B" (Some "1") docs_AB = Some (EDocument document_B) /\
  mkdir 2 silent (Path.of_string "A/B") false true (Some docs_AB) w0
  = (Raise (RuntimeError "folder already exists"), w0) /\
  mkdir 2 silent (Path.of_string "A/B") true true (Some docs_AB) w0
  = (Raise (RuntimeError (collision_msg (Path.of_string "A/B"))), w0) /\
  true = true.
Proof.
  assert (P : parent_id_resolved 1 silent docs_AB w0 (Path.of_string "A/B")
                (Some "1")).
  { right. split; [discriminate |]. exists (EFolder folder_A).
    split; reflexivity. }
  assert (A : ancestors_are_folders 1 silent docs_AB w0 (Path.of_string "A/B")).
  { unfold ancestors_are_folders. simpl. constructor; [|constructor].
    exists folder_A. reflexivity. }
  split; [exact P |]. split; [exact A |]. split; [reflexivity |].
  pose proof (mkdir_document_in_the_way silent docs_AB 1
                (Path.of_string "A/B") w0) as [T1 _].
  destruct (T1 true (Some "1") document_B P (fun _ => A) eq_refl) as [H1 H2].
  split; [exact H1 |]. split; [exact H2 |].
  apply (proj2 (mkdir_document_in_the_way silent docs_AB 2
                  (Path.of_string "A/B") w0) true true w0).
  reflexivity.
Defined.

(* ===================================================================== *)
(** ** The record parser *)
(* ===================================================================== *)

Section Parser.

Variable dev : Device.

Lemma parse_documents_ok (documents : list RMApiDocument) (w : world) :
  forallb structured documents = true ->
  _parse_documents documents w = (Ok documents, w).
Proof. intros H. unfold _parse_documents. now rewrite H. Qed.

Lemma parse_documents_refused (documents : list RMApiDocument) (w : world) :
  forallb structured documents = false ->
  _parse_documents documents w
  = (Raise ClassValidationError, logged PrintJson w).
Proof. intros H. unfold _parse_documents. now rewrite H. Qed.

Lemma parse_documents_inv (documents r : list RMApiDocument) (w w' : world) :
  _parse_documents documents w = (Ok r, w') ->
  r = documents /\ w' = w /\ forallb structured documents = true.
Proof.
  unfold _parse_documents.
  destruct (forallb structured documents); [|discriminate].
  unfold ret. intros H. injection H as <- <-. auto.
Qed.

Lemma asked_S (fid : string) (k : nat) (w : world) :
  asked fid (S k) w = asked fid k (logged (PostDocuments fid) w).
Proof. unfold asked, logged. simpl. now rewrite <- app_assoc. Qed.

Lemma asked_snoc (fid : string) (k : nat) (w : world) :
  asked fid (S k) w = logged (PostDocuments fid) (asked fid k w).
Proof.
  unfold asked, logged. cbn [next_oid trace]. f_equal.
  rewrite <- app_assoc. f_equal. exact (repeat_cons k (PostDocuments fid)).
Qed.

Lemma asked_length (fid : string) (k : nat) (w : world) :
  List.length (trace (asked fid k w)) = List.length (trace w) + k.
Proof. unfold asked. simpl. now rewrite length_app, repeat_length. Qed.

Lemma asked_nth (fid : string) (k : nat) (w : world) :
  nth_error (trace (asked fid (S k) w)) (List.length (trace w) + k)
  = Some (PostDocuments fid).
Proof.
  rewrite asked_snoc. unfold logged. cbn [trace].
  rewrite <- asked_length with (fid := fid).
  rewrite nth_error_app2 by lia. now rewrite Nat.sub_diag.
Qed.

(** The tablet sends records at once. *)
Lemma read_folder_try_ok (fid : string) (n : nat) (w : world)
    (documents : list RMApiDocument) :
  dev (List.length (trace w)) fid = Records documents ->
  forallb structured documents = true ->
  read_folder_try dev fid n w = (Ok documents, logged (PostDocuments fid) w).
Proof.
  intros H V. destruct n; simpl; unfold bind, post_documents; rewrite H;
    now apply parse_documents_ok.
Qed.

(** The tablet refuses [k] requests; [read_folder] goes on with the
    retries that are left. *)
Lemma read_folder_try_retry (fid : string) (k : nat) :
  forall (n : nat) (w : world),
    k <= n ->
    (forall j, j < k -> dev (List.length (trace w) + j) fid = NotOk) ->
    read_folder_try dev fid n w
    = read_folder_try dev fid (n - k) (asked fid k w).
Proof.
  induction k as [|k IH]; intros n w Hk H.
  - rewrite Nat.sub_0_r. unfold asked. simpl. rewrite app_nil_r.
    now destruct w.
  - destruct n as [|n]; [lia |].
    simpl read_folder_try at 1. unfold bind at 1. unfold post_documents at 1.
    specialize (H 0 (Nat.lt_0_succ k)) as H0. rewrite Nat.add_0_r in H0.
    rewrite H0. fold (logged (PostDocuments fid) w).
    rewrite IH.
    + now rewrite <- asked_S.
    + lia.
    + intros j Hj. unfold logged. simpl. rewrite length_app. simpl.
      replace (List.length (trace w) + 1 + j)
        with (List.length (trace w) + S j) by lia.
      apply H. lia.
Qed.

(** The tablet refuses every request. *)
Lemma read_folder_try_fail (fid : string) (n : nat) (w : world) :
  (forall j, j <= n -> dev (List.length (trace w) + j) fid = NotOk) ->
  read_folder_try dev fid n w = (Raise AssertionError, asked fid (S n) w).
Proof.
  intros H. rewrite (read_folder_try_retry fid n n w (le_n n)).
  - rewrite Nat.sub_diag. simpl. unfold bind, post_documents.
    rewrite asked_length, (H n (le_n n)). unfold raise.
    now rewrite asked_snoc.
  - intros j Hj. apply H. lia.
Qed.

(** Every way [read_folder] can end. *)
Lemma read_folder_try_cases (fid : string) (n : nat) :
  forall (w : world),
  exists k,
    k <= n /\
    (forall j, j < k -> dev (List.length (trace w) + j) fid = NotOk) /\
    match dev (List.length (trace w) + k) fid with
    | NotOk =>
        k = n /\
        read_folder_try dev fid n w = (Raise AssertionError, asked fid (S n) w)
    | NoJson =>
        read_folder_try dev fid n w
        = (Raise JSONDecodeError, asked fid (S k) w)
    | Misshapen =>
        read_folder_try dev fid n w
        = (Raise ClassValidationError, logged PrintJson (asked fid (S k) w))
    | Records documents =>
        read_folder_try dev fid n w
        = if forallb structured documents
          then (Ok documents, asked fid (S k) w)
          else (Raise ClassValidationError,
                logged PrintJson (asked fid (S k) w))
    end.
Proof.
  induction n as [|n IH]; intros w.
  - exists 0. split; [lia |]. split; [intros j Hj; lia |].
    rewrite Nat.add_0_r. simpl. unfold bind, post_documents.
    fold (logged (PostDocuments fid) w).
    replace (asked fid 1 w) with (logged (PostDocuments fid) w)
      by (unfold asked, logged; reflexivity).
    destruct (dev (List.length (trace w)) fid) as [| | |documents];
      try reflexivity; auto.
    unfold _parse_documents.
    destruct (forallb structured documents); reflexivity.
  - destruct (dev (List.length (trace w)) fid) as [| | |documents] eqn:E.
    + destruct (IH (logged (PostDocuments fid) w)) as (k & Hk & Hno & Hend).
      assert (Hlen : forall j,
                 List.length (trace (logged (PostDocuments fid) w)) + j
                 = List.length (trace w) + S j).
      { intros j. unfold logged. simpl. rewrite length_app. simpl. lia. }
      assert (Hstep : read_folder_try dev fid (S n) w
                      = read_folder_try dev fid n
                          (logged (PostDocuments fid) w)).
      { simpl read_folder_try at 1. unfold bind at 1.
        unfold post_documents at 1. now rewrite E. }
      exists (S k). split; [lia |]. split.
      * intros [|j] Hj; [now rewrite Nat.add_0_r |].
        rewrite <- Hlen. apply Hno. lia.
      * rewrite <- Hlen, Hstep, !(asked_S fid).
        destruct (dev (List.length (trace (logged (PostDocuments fid) w)) + k)
                    fid) as [| | |documents].
        -- destruct Hend as [-> Hend]. split; [reflexivity |].
           now rewrite Hend, asked_S.
        -- now rewrite asked_S in Hend.
        -- now rewrite asked_S in Hend.
        -- now rewrite asked_S in Hend.
    + exists 0. split; [lia |]. split; [intros j Hj; lia |].
      rewrite Nat.add_0_r, E. simpl. unfold bind, post_documents.
      now rewrite E.
    + exists 0. split; [lia |]. split; [intros j Hj; lia |].
      rewrite Nat.add_0_r, E. simpl. unfold bind, post_documents.
      now rewrite E.
    + exists 0. split; [lia |]. split; [intros j Hj; lia |].
      rewrite Nat.add_0_r, E. simpl. unfold bind, post_documents.
      rewrite E. unfold _parse_documents.
      destruct (forallb structured documents); reflexivity.
Qed.

Lemma read_folder_try_inv (fid : string) (n : nat) (w w' : world)
    (documents : list RMApiDocument) :
  read_folder_try dev fid n w = (Ok documents, w') ->
  exists k,
    k <= n /\
    (forall j, j < k -> dev (List.length (trace w) + j) fid = NotOk) /\
    dev (List.length (trace w) + k) fid = Records documents /\
    forallb structured documents = true /\
    w' = asked fid (S k) w.
Proof.
  intros H. destruct (read_folder_try_cases fid n w) as (k & Hk & Hno & Hend).
  exists k. split; [exact Hk |]. split; [exact Hno |].
  destruct (dev (List.length (trace w) + k) fid) as [| | |l].
  - destruct Hend as [_ Hend]. congruence.
  - congruence.
  - congruence.
  - rewrite H in Hend.
    destruct (forallb structured l) eqn:V; [|discriminate].
    injection Hend as -> ->. auto.
Qed.

Lemma read_folder_ok (folder_id : option string) (retries : Z) (w : world)
    (documents : list RMApiDocument) :
  dev (List.length (trace w)) (url_id folder_id) = Records documents ->
  forallb structured documents = true ->
  read_folder dev folder_id retries w
  = (Ok documents, logged (PostDocuments (url_id folder_id)) w).
Proof. apply read_folder_try_ok. Qed.

(** The tablet sends records that cattrs refuses. *)
Lemma read_folder_refused (folder_id : option string) (retries : Z)
    (w : world) (documents : list RMApiDocument) :
  dev (List.length (trace w)) (url_id folder_id) = Records documents ->
  forallb structured documents = false ->
  read_folder dev folder_id retries w
  = (Raise ClassValidationError,
     logged PrintJson (logged (PostDocuments (url_id folder_id)) w)).
Proof.
  intros H V. unfold read_folder.
  destruct (Z.to_nat retries); simpl; unfold bind, post_documents;
    rewrite H; now apply parse_documents_refused.
Qed.

Lemma structured_known_type (documents : list RMApiDocument) :
  forallb structured documents = true ->
  forallb known_type documents = true /\
  filter known_type documents = documents /\
  filter (fun r => negb (known_type r)) documents = [].
Proof.
  induction documents as [|raw rest IH]; intros H; [auto |].
  simpl in H. apply andb_prop in H as [Hr H].
  destruct (IH H) as (I1 & I2 & I3).
  assert (K : known_type raw = true).
  { unfold structured in Hr. now apply andb_prop in Hr as [Hr _]. }
  simpl. rewrite K, I1, I2, I3. auto.
Qed.

Lemma not_known_not_structured (documents : list RMApiDocument)
    (raw : RMApiDocument) :
  In raw documents -> known_type raw = false ->
  forallb structured documents = false.
Proof.
  intros Hin K. destruct (forallb structured documents) eqn:V; [|reflexivity].
  rewrite forallb_forall in V. specialize (V raw Hin).
  unfold structured in V. apply andb_prop in V as [V _].
  unfold known_type in K. unfold type_literal in V. congruence.
Qed.

Lemma read_folder_inv (folder_id : option string) (retries : Z)
    (w w' : world) (documents : list RMApiDocument) :
  read_folder dev folder_id retries w = (Ok documents, w') ->
  exists k,
    k <= Z.to_nat retries /\
    (forall j, j < k ->
               dev (List.length (trace w) + j) (url_id folder_id) = NotOk) /\
    dev (List.length (trace w) + k) (url_id folder_id) = Records documents /\
    forallb structured documents = true /\
    w' = asked (url_id folder_id) (S k) w.
Proof. apply read_folder_try_inv. Qed.

(** What [read_folder] returns is an answer of the tablet to a request
    of the call. *)
Lemma read_folder_answered (folder_id : option string) (retries : Z)
    (w w' : world) (documents : list RMApiDocument) :
  read_folder dev folder_id retries w = (Ok documents, w') ->
  answered dev (trace w') (List.length (trace w)) (url_id folder_id)
    documents /\
  next_oid w' = next_oid w /\
  exists k,
    trace w' = trace w ++ repeat (PostDocuments (url_id folder_id)) (S k).
Proof.
  intros H. apply read_folder_inv in H as (k & _ & _ & D & V & ->).
  split; [|split; [reflexivity | now exists k]].
  exists (List.length (trace w) + k).
  split; [lia |]. split; [apply asked_nth |]. auto.
Qed.

Lemma read_folder_no_fuel (folder_id : option string) (retries : Z)
    (w w' : world) :
  read_folder dev folder_id retries w <> (OutOfFuel, w').
Proof.
  unfold read_folder.
  destruct (read_folder_try_cases (url_id folder_id) (Z.to_nat retries) w)
    as (k & _ & _ & Hend).
  destruct (dev (List.length (trace w) + k) (url_id folder_id)) as [| | |l].
  - destruct Hend as [_ ->]. discriminate.
  - rewrite Hend. discriminate.
  - rewrite Hend. discriminate.
  - rewrite Hend. destruct (forallb structured l); discriminate.
Qed.

(** What one turn of the first loop does. *)
Lemma convert_record_spec (parent : option Folder.t) (raw : RMApiDocument)
    (w : world) :
  match convert_record parent raw w with
  | (Ok (Some e), w') =>
      known_type raw = true /\ convertible raw = true /\ raw_ e = raw /\
      oid e = next_oid w /\ built parent e /\
      w' = mkWorld (S (next_oid w)) (trace w)
  | (Ok None, w') =>
      known_type raw = false /\ convertible raw = true /\
      w' = logged (warning_of raw) w
  | (Raise x, w') =>
      convertible raw = false /\ w' = w /\
      Type_ raw = "DocumentType" /\
      match x with
      | AssertionError => sizeInBytes raw = None \/ pageCount raw = None
      | ValueError =>
          exists size, sizeInBytes raw = Some size /\ py_int size = None
      | _ => False
      end
  | (OutOfFuel, _) => False
  end.
Proof.
  unfold convert_record, known_type, convertible, built.
  destruct (String.eqb_spec (Type_ raw) "DocumentType") as [ED|ND].
  - destruct (sizeInBytes raw) as [size|]; [|simpl; auto 6].
    destruct (pageCount raw) as [pc|]; [|simpl; auto 6].
    destruct (py_int size) as [len|] eqn:EI; simpl.
    + repeat split; auto.
    + repeat split; eauto.
  - destruct (String.eqb_spec (Type_ raw) "CollectionType") as [EC|NC]; simpl.
    + repeat split; auto.
    + repeat split; auto.
Qed.

Lemma convert_loop_spec (parent : option Folder.t)
    (documents : list RMApiDocument) (docs_ out : list Entity)
    (w w' : world) :
  convert_loop parent documents docs_ w = (Ok out, w') ->
  exists level,
    out = docs_ ++ level /\
    level_ok parent (next_oid w) documents level /\
    next_oid w' = next_oid w + List.length level /\
    trace w' =
    trace w ++ map warning_of (filter (fun r => negb (known_type r)) documents).
Proof.
  revert docs_ w. induction documents as [|raw rest IH]; intros docs_ w H.
  - simpl in H. unfold ret in H. injection H as <- <-.
    exists []. rewrite !app_nil_r, Nat.add_0_r.
    repeat split; constructor.
  - simpl in H. unfold bind in H.
    pose proof (convert_record_spec parent raw w) as S.
    destruct (convert_record parent raw w) as [[[e|]|x|] w1];
      try discriminate.
    + destruct S as (K & _ & R & O & B & ->).
      apply IH in H as (level & -> & (L1 & L2 & L3) & N & T).
      simpl in *. exists (e :: level). rewrite <- app_assoc. simpl.
      unfold level_ok. simpl. rewrite K. simpl.
      rewrite R, L1, O, L2, N, T.
      repeat split; auto.
    + destruct S as (K & _ & ->).
      apply IH in H as (level & -> & (L1 & L2 & L3) & N & T).
      simpl in *. exists level. unfold level_ok. simpl. rewrite K. simpl.
      rewrite T, <- app_assoc. repeat split; auto.
Qed.

Lemma convert_loop_total (parent : option Folder.t)
    (documents : list RMApiDocument) (docs_ : list Entity) (w : world) :
  forallb convertible documents = true ->
  exists out w', convert_loop parent documents docs_ w = (Ok out, w').
Proof.
  revert docs_ w. induction documents as [|raw rest IH]; intros docs_ w H.
  - simpl. unfold ret. eauto.
  - simpl in H. apply andb_prop in H as [Hc Hr].
    simpl. unfold bind.
    pose proof (convert_record_spec parent raw w) as S.
    destruct (convert_record parent raw w) as [[[e|]|x|] w1].
    + apply IH, Hr.
    + apply IH, Hr.
    + destruct S as [S _]. congruence.
    + contradiction.
Qed.


End Parser.

(* ===================================================================== *)
(** ** The record parser and one level of the tree: the statements *)
(* ===================================================================== *)

Lemma get_documents_S (fuel : nat) (dev : Device) (folder_id : option string)
    (retries : Z) (recurse : bool) (parent : option Folder.t) :
  get_documents (S fuel) dev folder_id retries recurse parent =
  (docs <- read_folder dev folder_id retries ;;
   docs_ <- convert_loop parent docs [] ;;
   if recurse then
     subs <- recurse_loop
               (fun doc =>
                  get_documents fuel dev (Some (Folder.id_ doc)) retries
                    recurse (Some doc))
               docs_ [] ;;
     ret (docs_ ++ subs)
   else ret docs_).
Proof. reflexivity. Qed.

(** C3.  A document without a parent folder gets its display name as
    path, without the extension; a document in a folder gets the path of
    the folder extended with "<display name>.<extension>". *)
Theorem document_filename_in_root :
  (forall o i vn len ext pc pid raw,
      Document.filename (Document.mk o i None vn len ext pc pid raw)
      = Path.of_string vn) /\
  (forall o i p vn len ext pc pid raw,
      Document.filename (Document.mk o i (Some p) vn len ext pc pid raw)
      = Path.joinpath (Folder.filename p) (vn +++ "." +++ ext)) /\
  Document.filename root_document_B = Path.of_string "B" /\
  Document.filename root_document_B
  <> Path.joinpath Path.dot
       (Document.visible_name root_document_B +++ "."
        +++ Document.extension root_document_B).
Proof.
  split; [reflexivity |]. split; [reflexivity |]. split; [reflexivity |].
  vm_compute. discriminate.
Qed.

(** C5.  The first loop of [get_documents] makes one entity of every
    record of type DocumentType or CollectionType, in the order of the
    records, and leaves a warning in the log for every other record.
    But a record of another type does not get as far as the loop: cattrs
    refuses the answer that holds it, and [get_documents] raises
    [ClassValidationError].  So whenever [get_documents] returns without
    recursion, every record the tablet sent has one of the two types, the
    list has one entity for each of them, and no warning was logged. *)
Theorem get_documents_one_level (dev : Device) (fuel : nat)
    (folder_id : option string) (retries : Z) (parent : option Folder.t)
    (w : world) :
  (forall documents docs w',
      convert_loop parent documents [] w = (Ok docs, w') ->
      List.length docs = List.length (filter known_type documents) /\
      map raw_ docs = filter known_type documents /\
      trace w' =
      trace w
      ++ map warning_of (filter (fun r => negb (known_type r)) documents)) /\
  (forall documents raw,
      dev (List.length (trace w)) (url_id folder_id) = Records documents ->
      In raw documents -> known_type raw = false ->
      get_documents (S fuel) dev folder_id retries false parent w
      = (Raise ClassValidationError,
         logged PrintJson (logged (PostDocuments (url_id folder_id)) w))) /\
  (forall docs w',
      get_documents (S fuel) dev folder_id retries false parent w
      = (Ok docs, w') ->
      exists documents k,
        answered dev (trace w') (List.length (trace w)) (url_id folder_id)
          documents /\
        forallb known_type documents = true /\
        map raw_ docs = documents /\
        List.length docs = List.length (filter known_type documents) /\
        trace w' =
        trace w ++ repeat (PostDocuments (url_id folder_id)) (S k)) /\
  (forall documents,
      dev (List.length (trace w)) (url_id folder_id) = Records documents ->
      forallb structured documents = true ->
      forallb convertible documents = true ->
      exists docs w',
        get_documents (S fuel) dev folder_id retries false parent w
        = (Ok docs, w')) /\
  get_documents 1 tablet_mixed None 3 false None w0
  = (Raise ClassValidationError, mkWorld 0 [PostDocuments ""; PrintJson]).
Proof.
  split; [|split; [|split; [|split]]].
  - intros documents docs w' E.
    apply convert_loop_spec in E as (level & -> & (L1 & _ & _) & _ & T).
    simpl. rewrite <- L1, length_map. auto.
  - intros documents raw D Hin K.
    rewrite get_documents_S. unfold bind.
    now rewrite (read_folder_refused dev folder_id retries w documents D
                   (not_known_not_structured documents raw Hin K)).
  - intros docs w' H. rewrite get_documents_S in H. unfold bind in H.
    destruct (read_folder dev folder_id retries w) as [[documents|x|] w1] eqn:E1;
      try discriminate.
    destruct (convert_loop parent documents [] w1) as [[out|x|] w2] eqn:E2;
      try discriminate.
    unfold ret in H. injection H as -> ->.
    pose proof (read_folder_answered dev _ _ _ _ _ E1) as (A & _ & k & T1).
    assert (V : forallb structured documents = true)
      by (destruct A as (t & _ & _ & _ & V); exact V).
    destruct (structured_known_type documents V) as (K1 & K2 & K3).
    apply convert_loop_spec in E2 as (level & -> & (L1 & _ & _) & _ & T2).
    rewrite K3 in T2. simpl in T2. rewrite app_nil_r in T2.
    exists documents, k. simpl.
    split; [now rewrite T2 |]. split; [exact K1 |].
    split; [now rewrite L1, K2 |].
    split; [now rewrite <- L1, length_map | now rewrite T2].
  - intros documents D V C.
    rewrite get_documents_S. unfold bind.
    rewrite (read_folder_ok dev folder_id retries w documents D V).
    destruct (convert_loop_total parent documents []
                (logged (PostDocuments (url_id folder_id)) w) C)
      as (out & w1 & E).
    rewrite E. unfold ret. eauto.
  - reflexivity.
Qed.

Lemma get_documents_one_level_witness :
  tablet_AB 0 (url_id None) = Records [raw_folder "1" "A" ""] /\
  (exists docs w',
      get_documents 1 tablet_AB None 3 false None w0 = (Ok docs, w') /\
      List.length docs = 1 /\ trace w' = [PostDocuments ""]) /\
  tablet_mixed 0 (url_id None)
  = Records [raw_folder "1" "A" ""; raw_other; raw_document "2" "B" "" "10"] /\
  known_type raw_other = false /\
  get_documents 1 tablet_mixed None 3 false None w0
  = (Raise ClassValidationError, mkWorld 0 [PostDocuments ""; PrintJson]).
Proof.
  pose proof (get_documents_one_level tablet_AB 0 None 3 None w0)
    as (_ & _ & R & T & _).
  pose proof (get_documents_one_level tablet_mixed 0 None 3 None w0)
    as (_ & F & _).
  split; [reflexivity |]. split.
  - destruct (T [raw_folder "1" "A" ""] eq_refl eq_refl eq_refl)
      as (docs & w' & E).
    exists docs, w'. split; [exact E |].
    destruct (R docs w' E) as (documents & k & A & _ & M & L & Tr).
    assert (w' = mkWorld 1 [PostDocuments ""] /\ List.length docs = 1)
      as [-> Hl] by (vm_compute in E; now inversion E).
    split; [exact Hl | reflexivity].
  - split; [reflexivity |]. split; [reflexivity |].
    exact (F [raw_folder "1" "A" ""; raw_other; raw_document "2" "B" "" "10"]
             raw_other eq_refl (or_intror (or_introl eq_refl)) eq_refl).
Defined.




(* ===================================================================== *)
(** ** The path resolver: the statements *)
(* ===================================================================== *)



(** C9.  The ".pdf" suffix is cut off every part of the path and for both
    kinds of entity: "X.pdf" finds the folder X; under the directory
    "A.pdf" the entries of the folder A are looked up; and no path whose
    last part is the display name of a folder ending in ".pdf" resolves
    to that folder. *)
Theorem pdf_suffix_cut_everywhere (dev : Device) (docs : list Entity)
    (fuel : nat) (w : world) :
  (forall X F,
      has_slash X = false ->
      first_named X None docs = Some (EFolder F) ->
      find_file (S fuel) dev (Path.of_string (X +++ ".pdf")) (Some docs) w
      = (Ok (Some (EFolder F)), w)) /\
  (forall A B F,
      has_slash A = false -> plain_segment B = true ->
      first_named A None docs = Some (EFolder F) ->
      find_file (S (S fuel)) dev
        (Path.joinpath (Path.of_string (A +++ ".pdf")) B) (Some docs) w
      = (Ok (_find_doc B (Some (Folder.id_ F)) docs), w)) /\
  (forall fn F w',
      endswith (Folder.visible_name F) ".pdf" = true ->
      Path.name fn = Folder.visible_name F ->
      find_file fuel dev fn (Some docs) w <> (Ok (Some (EFolder F)), w')).
Proof.
  assert (R : forall X F,
             has_slash X = false ->
             first_named X None docs = Some (EFolder F) ->
             forall k,
               find_file (S k) dev (Path.of_string (X +++ ".pdf"))
                 (Some docs) w
               = (Ok (Some (EFolder F)), w)).
  { intros X F HX HF k.
    rewrite (of_string_plain _ (plain_segment_pdf _ HX)), find_file_S.
    change (Path.mk "" [X +++ ".pdf"]) with (Path.mk "" ([] ++ [X +++ ".pdf"])).
    rewrite parent_snoc, name_snoc. simpl.
    now rewrite find_doc_first_named, strip_pdf_append, HF. }
  split; [|split].
  - intros X F HX HF. now apply R.
  - intros A B F HA HB HF.
    rewrite (joinpath_plain _ _ HB), find_file_S, parent_snoc, name_snoc.
    assert (E : Path.mk (Path.root (Path.of_string (A +++ ".pdf")))
                  (Path.parts (Path.of_string (A +++ ".pdf")))
                = Path.of_string (A +++ ".pdf"))
      by (destruct (Path.of_string (A +++ ".pdf")); reflexivity).
    rewrite E.
    destruct (path_eqb_spec (Path.of_string (A +++ ".pdf")) Path.dot)
      as [D|_].
    { rewrite (of_string_plain _ (plain_segment_pdf _ HA)) in D.
      discriminate. }
    cbn [negb]. now rewrite (R A F HA HF fuel).
  - intros fn F w' HE HN H.
    apply find_file_answer in H as [pid H].
    rewrite find_doc_first_named in H.
    apply first_named_some in H as (_ & H & _). simpl in H.
    rewrite HN in H. symmetry in H. exact (strip_pdf_neq _ HE H).
Qed.

Lemma pdf_suffix_cut_everywhere_witness :
  (first_named "X" None docs_XY = Some (EFolder folder_X) /\
   find_file 1 silent (Path.of_string "X.pdf") (Some docs_XY) w0
   = (Ok (Some (EFolder folder_X)), w0)) /\
  (find_file 2 silent (Path.of_string "X.pdf/Y.pdf") (Some docs_XY) w0
   = (Ok (Some (EDocument document_Y)), w0)) /\
  (endswith (Folder.visible_name folder_scans_pdf) ".pdf" = true /\
   Path.name (Path.of_string "scans.pdf") = "scans.pdf" /\
   find_file 1 silent (Path.of_string "scans.pdf") (Some docs_XY) w0
   <> (Ok (Some (EFolder folder_scans_pdf)), w0)).
Proof.
  pose proof (pdf_suffix_cut_everywhere silent docs_XY 0 w0) as (T1 & T2 & _).
  pose proof (pdf_suffix_cut_everywhere silent docs_XY 1 w0) as (_ & _ & T3).
  split; [|split].
  - split; [reflexivity |].
    exact (T1 "X" folder_X eq_refl eq_refl).
  - exact (T2 "X" "Y.pdf" folder_X eq_refl eq_refl eq_refl).
  - split; [reflexivity |]. split; [reflexivity |].
    exact (T3 (Path.of_string "scans.pdf") folder_scans_pdf w0
             eq_refl eq_refl).
Defined.

(* ===================================================================== *)
(** ** The tree builder *)
(* ===================================================================== *)

Section TreeBuilder.

Variable dev : Device.
Variable answers : string -> list RMApiDocument -> Prop.

Lemma sublistings_mono (P Q : Folder.t -> nat -> list Entity -> Prop) :
  (forall f n r, P f n r -> Q f n r) ->
  forall l n rs, sublistings P l n rs -> sublistings Q l n rs.
Proof.
  intros H l n rs S.
  induction S; constructor; auto.
Qed.

(** A listing stays one when more answers are known. *)
Lemma listing_mono (A B : string -> list RMApiDocument -> Prop) :
  (forall i d, A i d -> B i d) ->
  forall fuel folder_id parent n R,
    listing A fuel folder_id parent n R -> listing B fuel folder_id parent n R.
Proof.
  intros H fuel.
  induction fuel as [|fuel IH]; intros folder_id parent n R L; [exact L |].
  destruct L as (documents & level & subs & D & Lv & S & ->).
  exists documents, level, subs. split; [now apply H |].
  split; [exact Lv |]. split; [|reflexivity].
  apply (sublistings_mono _ _ (fun f m r => IH _ _ m r) _ _ _ S).
Qed.

Lemma answered_mono (tr evs : list event) (lo lo' : nat) (i : string)
    (d : list RMApiDocument) :
  lo' <= lo -> answered dev tr lo i d -> answered dev (tr ++ evs) lo' i d.
Proof.
  intros Hl (t & Ht & N & D & V). exists t.
  split; [lia |]. split; [|auto].
  rewrite nth_error_app1; [exact N |].
  apply nth_error_Some. congruence.
Qed.

Lemma recurse_loop_spec (rec : Folder.t -> M (list Entity))
    (P : list event -> Folder.t -> nat -> list Entity -> Prop) (lo : nat) :
  (forall tr evs f n r, P tr f n r -> P (tr ++ evs) f n r) ->
  (forall f w r w',
      lo <= List.length (trace w) ->
      rec f w = (Ok r, w') ->
      P (trace w') f (next_oid w) r /\
      next_oid w' = next_oid w + List.length r /\
      exists evs, trace w' = trace w ++ evs) ->
  forall docs_ subs w out w',
    lo <= List.length (trace w) ->
    recurse_loop rec docs_ subs w = (Ok out, w') ->
    exists rs,
      out = subs ++ concat rs /\
      sublistings (P (trace w')) docs_ (next_oid w) rs /\
      next_oid w' = next_oid w + List.length (concat rs) /\
      exists evs, trace w' = trace w ++ evs.
Proof.
  intros HM HR docs_.
  induction docs_ as [|[d|f] rest IH]; intros subs w out w' Hlo H.
  - simpl in H. unfold ret in H. injection H as <- <-.
    exists []. simpl. rewrite app_nil_r, Nat.add_0_r.
    repeat split; [constructor |]. exists []. now rewrite app_nil_r.
  - simpl in H. apply IH in H as (rs & -> & S & N & T); [|exact Hlo].
    exists rs. repeat split; auto. now constructor.
  - simpl in H. unfold bind in H.
    destruct (rec f w) as [[r|x|] w1] eqn:E; try discriminate.
    apply HR in E as (HP & HN & e1 & T1); [|exact Hlo].
    apply IH in H as (rs & -> & S & N & e2 & T2).
    2:{ rewrite T1, length_app. lia. }
    exists (r :: rs). simpl. rewrite <- app_assoc, length_app.
    repeat split.
    + constructor; [rewrite T2; now apply HM |]. now rewrite <- HN.
    + lia.
    + exists (e1 ++ e2). now rewrite T2, T1, app_assoc.
Qed.

(** The result of [get_documents] with [recurse=True] is a listing, of
    answers the tablet gave to requests of the call. *)
Lemma get_documents_listing (fuel : nat) (folder_id : option string)
    (retries : Z) (parent : option Folder.t) (w w' : world)
    (R : list Entity) :
  get_documents fuel dev folder_id retries true parent w = (Ok R, w') ->
  listing (answered dev (trace w') (List.length (trace w)))
    fuel folder_id parent (next_oid w) R /\
  next_oid w' = next_oid w + List.length R /\
  exists evs, trace w' = trace w ++ evs.
Proof.
  revert folder_id parent w w' R.
  induction fuel as [|fuel IH]; intros folder_id parent w w' R H.
  - simpl in H. unfold out_of_fuel in H. congruence.
  - rewrite get_documents_S in H. unfold bind in H.
    destruct (read_folder dev folder_id retries w) as [[documents|x|] w1] eqn:E1;
      try discriminate.
    apply read_folder_answered in E1 as (A & N1 & k & T1).
    destruct (convert_loop parent documents [] _) as [[level|x|] w2] eqn:E2;
      try discriminate.
    apply convert_loop_spec in E2 as (level' & -> & L & N2 & T2).
    simpl in L, N2. simpl app in H.
    destruct (recurse_loop _ level' [] w2) as [[subs|x|] w3] eqn:E3;
      try discriminate.
    unfold ret in H. injection H as <- <-.
    apply (recurse_loop_spec _
             (fun tr f =>
                listing (answered dev tr (List.length (trace w)))
                  fuel (Some (Folder.id_ f)) (Some f))
             (List.length (trace w)))
      in E3 as (rs & -> & S & N3 & e3 & T3).
    2:{ intros tr evs f n r. apply listing_mono.
        intros i d Hd. exact (answered_mono tr evs _ _ i d (le_n _) Hd). }
    2:{ intros f v r v' Hv Hf. apply IH in Hf as (Lf & Nf & ef & Tf).
        split; [|split; [exact Nf | now exists ef]].
        revert Lf. apply listing_mono. intros i d Hd.
        rewrite <- (app_nil_r (trace v')).
        exact (answered_mono _ [] _ _ i d Hv Hd). }
    2:{ rewrite T2, T1, !length_app. lia. }
    rewrite N1 in L, N2.
    simpl. split; [|split].
    + exists documents, level', rs. rewrite <- N2.
      split; [|auto]. rewrite T3, T2, <- app_assoc.
      exact (answered_mono _ _ _ _ _ _ (le_n _) A).
    + rewrite length_app. lia.
    + eexists. rewrite T3, T2, T1, <- !app_assoc. reflexivity.
Qed.

(** Parts of a list of sublistings. *)
Lemma sublistings_In (P : Folder.t -> nat -> list Entity -> Prop)
    (l : list Entity) (n : nat) (rs : list (list Entity)) (r : list Entity) :
  sublistings P l n rs -> In r rs ->
  exists f m, In (EFolder f) l /\ P f m r /\ n <= m.
Proof.
  intros S. induction S as [n|d rest n rs S IH|f rest n r0 rs HP S IH];
    intros Hin.
  - contradiction.
  - destruct (IH Hin) as (f & m & ? & ? & ?). exists f, m. simpl. auto.
  - destruct Hin as [->|Hin].
    + exists f, n. simpl. auto.
    + destruct (IH Hin) as (g & m & ? & ? & ?). exists g, m. simpl.
      repeat split; auto. lia.
Qed.

Lemma sublistings_split (P : Folder.t -> nat -> list Entity -> Prop)
    (l1 l2 : list Entity) (f : Folder.t) (n : nat)
    (rs : list (list Entity)) :
  sublistings P (l1 ++ EFolder f :: l2) n rs ->
  exists rs1 r rs2 m,
    rs = rs1 ++ r :: rs2 /\ sublistings P l1 n rs1 /\ P f m r /\
    sublistings P l2 (m + List.length r) rs2 /\ n <= m.
Proof.
  revert n rs. induction l1 as [|e l1 IH]; intros n rs S; simpl in S.
  - inversion S; subst. exists [], r, rs0, n. repeat split; auto. constructor.
  - inversion S; subst.
    + destruct (IH _ _ H3) as (rs1 & r & rs2 & m & -> & S1 & HP & S2 & Hm).
      exists rs1, r, rs2, m. repeat split; auto. now constructor.
    + destruct (IH _ _ H4) as (rs1 & r0 & rs2 & m & -> & S1 & HP & S2 & Hm).
      exists (r :: rs1), r0, rs2, m. repeat split; auto.
      * now constructor.
      * lia.
Qed.

Lemma sublistings_oids (P : Folder.t -> nat -> list Entity -> Prop)
    (l : list Entity) (n : nat) (rs : list (list Entity)) :
  (forall f m r, P f m r -> map oid r = seq m (List.length r)) ->
  sublistings P l n rs ->
  map oid (concat rs) = seq n (List.length (concat rs)).
Proof.
  intros HP S. induction S as [n|d rest n rs S IH|f rest n r rs Hf S IH].
  - reflexivity.
  - exact IH.
  - simpl. rewrite map_app, length_app, seq_app, IH, (HP _ _ _ Hf).
    reflexivity.
Qed.

(** The stamps of a listing count up from [n]: the list is in the order
    in which its entities were constructed. *)
Lemma listing_oids (fuel : nat) (folder_id : option string)
    (parent : option Folder.t) (n : nat) (R : list Entity) :
  listing answers fuel folder_id parent n R ->
  map oid R = seq n (List.length R).
Proof.
  revert folder_id parent n R.
  induction fuel as [|fuel IH]; intros folder_id parent n R H; [contradiction |].
  destruct H as (documents & level & subs & _ & (_ & L2 & _) & S & ->).
  rewrite map_app, length_app, seq_app, L2. f_equal.
  apply (sublistings_oids _ _ _ _ (fun f m r => IH _ _ m r) S).
Qed.

Lemma listing_oid_bounds (fuel : nat) (folder_id : option string)
    (parent : option Folder.t) (n : nat) (R : list Entity) (e : Entity) :
  listing answers fuel folder_id parent n R -> In e R ->
  n <= oid e < n + List.length R.
Proof.
  intros L Hin. apply listing_oids in L.
  apply (in_map oid) in Hin. rewrite L in Hin. now apply in_seq in Hin.
Qed.

Lemma listing_nth_oid (fuel : nat) (folder_id : option string)
    (parent : option Folder.t) (n : nat) (R : list Entity) (i : nat)
    (e : Entity) :
  listing answers fuel folder_id parent n R -> nth_error R i = Some e ->
  oid e = n + i.
Proof.
  intros L Hn. apply listing_oids in L.
  pose proof (map_nth_error oid _ _ Hn) as H. rewrite L in H.
  assert (Hi : i < List.length R) by (apply nth_error_Some; congruence).
  rewrite nth_error_nth' with (d := 0) in H by now rewrite length_seq.
  rewrite seq_nth in H by exact Hi. now injection H.
Qed.

Lemma folder_ancestors_chain (f : Folder.t) :
  folder_ancestors f = chain (Folder.folder f).
Proof. destruct f as [o i [p|] vn pid raw]; reflexivity. Qed.

Lemma chain_inj (a b : option Folder.t) : chain a = chain b -> a = b.
Proof. destruct a, b; simpl; congruence. Qed.

Lemma level_ok_folder (parent : option Folder.t) (n : nat)
    (documents : list RMApiDocument) (level : list Entity) (e : Entity) :
  level_ok parent n documents level -> In e level ->
  folder e = parent /\ n <= oid e < n + List.length level.
Proof.
  intros (_ & L2 & L3) Hin. split.
  - rewrite Forall_forall in L3. now destruct (L3 e Hin).
  - apply (in_map oid) in Hin. rewrite L2 in Hin. now apply in_seq in Hin.
Qed.

(** The folders an entity of a listing lies in are, nearest first, folders
    of the listing, each constructed before the entity, and then the
    folders the listing itself lies in. *)
Lemma listing_ancestors (fuel : nat) (folder_id : option string)
    (parent : option Folder.t) (n : nat) (R : list Entity) (e : Entity) :
  listing answers fuel folder_id parent n R -> In e R ->
  exists inner,
    ancestors e = inner ++ chain parent /\
    Forall (fun G => In (EFolder G) R /\ Folder.oid G < oid e) inner.
Proof.
  revert folder_id parent n R e.
  induction fuel as [|fuel IH]; intros folder_id parent n R e H Hin;
    [contradiction |].
  destruct H as (documents & level & subs & _ & L & S & ->).
  apply in_app_or in Hin as [Hin|Hin].
  - exists []. split; [|constructor].
    unfold ancestors. now destruct (level_ok_folder _ _ _ _ _ L Hin) as [-> _].
  - apply in_concat in Hin as (r & Hr & Hin).
    destruct (sublistings_In _ _ _ _ _ S Hr) as (f & m & Hf & Lr & Hm).
    destruct (IH _ _ _ _ _ Lr Hin) as (inner & E & F).
    destruct (level_ok_folder _ _ _ _ _ L Hf) as [Ff Of].
    pose proof (listing_oid_bounds _ _ _ _ _ _ Lr Hin) as Oe.
    exists (inner ++ [f]). split.
    + rewrite E. simpl. rewrite folder_ancestors_chain.
      simpl in Ff. rewrite Ff, <- app_assoc. reflexivity.
    + apply Forall_app. split.
      * eapply Forall_impl; [|exact F]. intros G [HG HO]. split; [|exact HO].
        apply in_or_app. right. apply in_concat. eauto.
      * constructor; [|constructor]. split.
        -- apply in_or_app. now left.
        -- simpl in Of. lia.
Qed.

(** The [folder] of an entity of a listing is the [parent] the call was
    given or a folder of the listing. *)
Lemma listing_folder (fuel : nat) (folder_id : option string)
    (parent : option Folder.t) (n : nat) (R : list Entity) (e : Entity) :
  listing answers fuel folder_id parent n R -> In e R ->
  folder e = parent \/ exists G, folder e = Some G /\ In (EFolder G) R.
Proof.
  intros L Hin.
  destruct (listing_ancestors _ _ _ _ _ _ L Hin) as ([|G inner] & E & F).
  - left. now apply chain_inj.
  - right. exists G. inversion F as [|? ? [HG _] _]; subst.
    split; [|exact HG].
    unfold ancestors in E. destruct (folder e) as [g|]; simpl in E;
      congruence.
Qed.

Lemma listing_nodup (fuel : nat) (folder_id : option string)
    (parent : option Folder.t) (n : nat) (R : list Entity) :
  listing answers fuel folder_id parent n R -> NoDup (map oid R).
Proof. intros L. rewrite (listing_oids _ _ _ _ _ L). apply seq_NoDup. Qed.

Lemma nodup_segments (a b : list Entity) (e : Entity) :
  NoDup (map oid (a ++ b)) -> In e a -> In e b -> False.
Proof.
  induction a as [|x a IH]; intros N Ha Hb; [contradiction |].
  simpl in N. inversion N as [|? ? Hx N']; subst.
  destruct Ha as [->|Ha]; [|now apply IH].
  apply Hx. apply in_map. apply in_or_app. now right.
Qed.

(** A listing begins with the level fetched for it, and nothing behind
    that level has the [parent] of the call as its folder. *)
Lemma listing_top_block (fuel : nat) (folder_id : option string)
    (parent : option Folder.t) (n : nat) (R : list Entity) :
  listing answers fuel folder_id parent n R ->
  (forall G, parent = Some G -> Folder.oid G < n) ->
  exists documents level rest,
    answers (url_id folder_id) documents /\
    R = level ++ rest /\
    level_ok parent n documents level /\
    Forall (fun e => folder e <> parent) rest.
Proof.
  intros L Hp. destruct fuel as [|fuel]; [contradiction |].
  destruct L as (documents & level & subs & D & Lv & S & ->).
  exists documents, level, (concat subs).
  split; [exact D |]. split; [reflexivity |]. split; [exact Lv |].
  apply Forall_forall. intros e Hin Hf.
  apply in_concat in Hin as (r & Hr & Hin).
  destruct (sublistings_In _ _ _ _ _ S Hr) as (f & m & Hfl & Lr & Hm).
  destruct (listing_folder _ _ _ _ _ _ Lr Hin) as [E|(G & E & HG)];
    rewrite E in Hf; symmetry in Hf; apply Hp in Hf.
  - destruct (level_ok_folder _ _ _ _ _ Lv Hfl) as [_ O]. simpl in O. lia.
  - pose proof (listing_oid_bounds _ _ _ _ _ _ Lr HG) as O. simpl in O. lia.
Qed.

(** In a listing the entities with folder [F] are one block: the level
    fetched for [F], in the order of its records. *)
Lemma listing_blocks (fuel : nat) (folder_id : option string)
    (parent : option Folder.t) (n : nat) (R : list Entity) (F : Folder.t) :
  listing answers fuel folder_id parent n R ->
  (forall G, parent = Some G -> Folder.oid G < n) ->
  In (EFolder F) R ->
  exists documents before level after m,
    answers (Folder.id_ F) documents /\
    R = before ++ level ++ after /\
    level_ok (Some F) m documents level /\
    Forall (fun e => folder e <> Some F) (before ++ after).
Proof.
  revert folder_id parent n R.
  induction fuel as [|fuel IH]; intros folder_id parent n R L Hp HF;
    [contradiction |].
  pose proof (listing_nodup _ _ _ _ _ L) as ND.
  pose proof (fun e => listing_oid_bounds _ _ _ _ _ e L) as OB.
  destruct L as (documents & level & subs & D & Lv & S & ->).
  assert (Hlevel : forall e, In e level -> folder e <> Some F).
  { intros e He Hf.
    destruct (level_ok_folder _ _ _ _ _ Lv He) as [Fe _].
    rewrite Fe in Hf. apply Hp in Hf.
    specialize (OB _ HF). simpl in OB. lia. }
  assert (Hsub : forall r e,
             In r subs -> In e r -> folder e = Some F ->
             exists f m,
               In (EFolder f) level /\
               listing answers fuel (Some (Folder.id_ f)) (Some f) m r /\
               n + List.length level <= m /\
               (F = f \/ In (EFolder F) r)).
  { intros r e Hr He Hf.
    destruct (sublistings_In _ _ _ _ _ S Hr) as (f & m & Hfl & Lr & Hm).
    exists f, m. repeat split; auto.
    destruct (listing_folder _ _ _ _ _ _ Lr He) as [E|(G & E & HG)];
      rewrite E in Hf; injection Hf as ->; auto. }
  apply in_app_or in HF as [HF|HF].
  - (* [F] is in the fetched level *)
    destruct (in_split _ _ HF) as (l1 & l2 & El). subst level.
    destruct (sublistings_split _ _ _ _ _ _ S)
      as (rs1 & r & rs2 & m & -> & S1 & Lr & S2 & Hm).
    destruct (level_ok_folder _ _ _ _ _ Lv HF) as [_ OF]. simpl in OF.
    destruct (listing_top_block _ _ _ _ _ Lr)
      as (docsF & levelF & restF & DF & -> & LvF & RF).
    { intros G HG. injection HG as <-. lia. }
    exists docsF, ((l1 ++ EFolder F :: l2) ++ concat rs1), levelF,
      (restF ++ concat rs2), m.
    split; [exact DF |]. split.
    { rewrite concat_app. simpl. now rewrite <- !app_assoc. }
    split; [exact LvF |].
    rewrite map_app in ND.
    assert (NDl : forall e, In e (l1 ++ EFolder F :: l2) ->
                            In e (concat (rs1 ++ (levelF ++ restF) :: rs2)) ->
                            False).
    { intros e. apply nodup_segments. now rewrite map_app. }
    assert (Hothers : forall r e,
               In r (rs1 ++ rs2) -> In e r -> folder e <> Some F).
    { intros r' e Hr' He Hf.
      assert (Hin : In r' (rs1 ++ (levelF ++ restF) :: rs2)).
      { apply in_app_or in Hr' as [?|?]; apply in_or_app;
          [left | right; right]; assumption. }
      destruct (Hsub _ _ Hin He Hf) as (f & m' & Hfl & Lr' & _ & [<-|HG]).
      - (* a second sublisting for [F]: its folder is [F] once more *)
        assert (Hf1 : In (EFolder F) l1 \/ In (EFolder F) l2).
        { apply in_app_or in Hr' as [Hr'|Hr'].
          - left. destruct (sublistings_In _ _ _ _ _ S1 Hr')
              as (g & k & Hg & Lg & _).
            destruct (listing_folder _ _ _ _ _ _ Lg He) as [E|(G & E & HG)];
              rewrite E in Hf; injection Hf as ->; [exact Hg |].
            exfalso. apply (NDl (EFolder F) HF).
            apply in_concat. exists r'. auto.
          - right. destruct (sublistings_In _ _ _ _ _ S2 Hr')
              as (g & k & Hg & Lg & _).
            destruct (listing_folder _ _ _ _ _ _ Lg He) as [E|(G & E & HG)];
              rewrite E in Hf; injection Hf as ->; [exact Hg |].
            exfalso. apply (NDl (EFolder F) HF).
            apply in_concat. exists r'. auto. }
        apply NoDup_app_remove_r in ND. rewrite map_app in ND. simpl in ND.
        apply NoDup_remove_2 in ND. apply ND. rewrite <- map_app.
        apply (in_map oid _ (EFolder F)). apply in_or_app. tauto.
      - apply (NDl (EFolder F) HF). apply in_concat. exists r'. auto. }
    apply Forall_forall. intros e He.
    rewrite <- app_assoc in He.
    apply in_app_or in He as [He|He]; [now apply Hlevel |].
    apply in_app_or in He as [He|He].
    { apply in_concat in He as (r' & Hr' & He).
      apply (Hothers r'); auto. apply in_or_app. now left. }
    apply in_app_or in He as [He|He].
    { rewrite Forall_forall in RF. now apply RF. }
    apply in_concat in He as (r' & Hr' & He).
    apply (Hothers r'); auto. apply in_or_app. now right.
  - (* [F] is in the result for a folder of the fetched level *)
    apply in_concat in HF as (r & Hr & HF).
    destruct (in_split _ _ Hr) as (rs1 & rs2 & Es). subst subs.
    destruct (sublistings_In _ _ _ _ _ S Hr) as (f & m & Hfl & Lr & Hm).
    destruct (level_ok_folder _ _ _ _ _ Lv Hfl) as [_ Of]. simpl in Of.
    destruct (IH _ _ _ _ Lr) as (docsF & before & levelF & after & k
                                 & DF & -> & LvF & RF); [| exact HF |].
    { intros G HG. injection HG as <-. lia. }
    exists docsF, (level ++ concat rs1 ++ before), levelF,
      (after ++ concat rs2), k.
    split; [exact DF |]. split.
    { rewrite concat_app. simpl. now rewrite <- !app_assoc. }
    split; [exact LvF |].
    rewrite map_app in ND.
    assert (NDl : In (EFolder F) level -> False).
    { intros Hl.
      apply (nodup_segments level
               (concat (rs1 ++ (before ++ levelF ++ after) :: rs2))
               (EFolder F)).
      - now rewrite map_app.
      - exact Hl.
      - apply in_concat. exists (before ++ levelF ++ after). auto. }
    apply NoDup_app_remove_l in ND.
    rewrite concat_app in ND. simpl in ND.
    assert (Hothers : forall r e,
               In r (rs1 ++ rs2) -> In e r -> folder e <> Some F).
    { intros r' e Hr' He Hf.
      assert (Hin : In r' (rs1 ++ (before ++ levelF ++ after) :: rs2)).
      { apply in_app_or in Hr' as [?|?]; apply in_or_app;
          [left | right; right]; assumption. }
      destruct (Hsub _ _ Hin He Hf) as (g & m' & Hgl & Lr' & _ & [<-|HG]).
      - exact (NDl Hgl).
      - apply in_app_or in Hr' as [Hr'|Hr'].
        + apply (nodup_segments (concat rs1) _ (EFolder F) ND).
          * apply in_concat. exists r'. auto.
          * apply in_or_app. now left.
        + rewrite app_assoc in ND.
          apply (nodup_segments _ (concat rs2) (EFolder F) ND).
          * apply in_or_app. now right.
          * apply in_concat. exists r'. auto. }
    rewrite Forall_forall in RF.
    apply Forall_forall. intros e He.
    rewrite <- !app_assoc in He.
    apply in_app_or in He as [He|He]; [now apply Hlevel |].
    apply in_app_or in He as [He|He].
    { apply in_concat in He as (r' & Hr' & He).
      apply (Hothers r'); auto. apply in_or_app. now left. }
    apply in_app_or in He as [He|He].
    { apply RF. apply in_or_app. now left. }
    apply in_app_or in He as [He|He].
    { apply RF. apply in_or_app. now right. }
    apply in_concat in He as (r' & Hr' & He).
    apply (Hothers r'); auto. apply in_or_app. now right.
Qed.

(** More fuel does not change what [get_documents] returns or raises. *)
Lemma recurse_loop_mono (rec1 rec2 : Folder.t -> M (list Entity)) :
  (forall f w r w', rec1 f w = (r, w') -> r <> OutOfFuel ->
                    rec2 f w = (r, w')) ->
  forall docs_ subs w r w',
    recurse_loop rec1 docs_ subs w = (r, w') -> r <> OutOfFuel ->
    recurse_loop rec2 docs_ subs w = (r, w').
Proof.
  intros HR docs_.
  induction docs_ as [|[d|f] rest IH]; intros subs w r w' H N; simpl in *.
  - exact H.
  - now apply IH.
  - unfold bind in *.
    destruct (rec1 f w) as [[x|x|] w1] eqn:E.
    + rewrite (HR _ _ _ _ E) by discriminate. now apply IH.
    + rewrite (HR _ _ _ _ E) by discriminate. exact H.
    + congruence.
Qed.

Lemma get_documents_fuel_S (fuel : nat) (folder_id : option string)
    (retries : Z) (recurse : bool) (parent : option Folder.t)
    (w w' : world) (r : outcome (list Entity)) :
  get_documents fuel dev folder_id retries recurse parent w = (r, w') ->
  r <> OutOfFuel ->
  get_documents (S fuel) dev folder_id retries recurse parent w = (r, w').
Proof.
  revert folder_id parent w w' r.
  induction fuel as [|fuel IH]; intros folder_id parent w w' r H N.
  - simpl in H. unfold out_of_fuel in H. congruence.
  - rewrite get_documents_S in H. rewrite get_documents_S.
    unfold bind in *.
    destruct (read_folder dev folder_id retries w) as [[documents|x|] w1];
      try exact H.
    destruct (convert_loop parent documents [] w1) as [[level|x|] w2];
      try exact H.
    destruct recurse; [|exact H].
    assert (HR : forall f v q v',
               get_documents fuel dev (Some (Folder.id_ f)) retries true
                 (Some f) v = (q, v') ->
               q <> OutOfFuel ->
               get_documents (S fuel) dev (Some (Folder.id_ f)) retries true
                 (Some f) v = (q, v')).
    { intros f v q v' Hf Nf. now apply IH. }
    destruct (recurse_loop
                (fun doc => get_documents fuel dev (Some (Folder.id_ doc))
                              retries true (Some doc)) level [] w2)
      as [[subs|x|] w3] eqn:E.
    + rewrite (recurse_loop_mono _
                 (fun doc => get_documents (S fuel) dev
                               (Some (Folder.id_ doc)) retries true (Some doc))
                 HR _ _ _ _ _ E) by discriminate.
      exact H.
    + rewrite (recurse_loop_mono _
                 (fun doc => get_documents (S fuel) dev
                               (Some (Folder.id_ doc)) retries true (Some doc))
                 HR _ _ _ _ _ E) by discriminate.
      exact H.
    + congruence.
Qed.

(** [get_documents] returns on a finite tree of convertible records. *)
Lemma recurse_loop_total (rec : Folder.t -> M (list Entity))
    (docs_ : list Entity) :
  (forall f w, In (EFolder f) docs_ -> exists r w', rec f w = (Ok r, w')) ->
  forall subs w, exists out w', recurse_loop rec docs_ subs w = (Ok out, w').
Proof.
  induction docs_ as [|[d|f] rest IH]; intros HR subs w; simpl.
  - unfold ret. eauto.
  - apply IH. intros f v Hf. apply HR. now right.
  - unfold bind. destruct (HR f w (or_introl eq_refl)) as (r & w1 & ->).
    apply IH. intros g v Hg. apply HR. now right.
Qed.

Lemma get_documents_total (fuel : nat) (folder_id : option string)
    (retries : Z) (recurse : bool) (parent : option Folder.t) (w : world) :
  finite_tree dev fuel (url_id folder_id) ->
  exists docs w',
    get_documents fuel dev folder_id retries recurse parent w = (Ok docs, w').
Proof.
  revert folder_id parent w.
  induction fuel as [|fuel IH]; intros folder_id parent w T; [contradiction |].
  destruct (T (List.length (trace w))) as (documents & D & V & C & Sub).
  rewrite get_documents_S. unfold bind.
  rewrite (read_folder_ok dev folder_id retries w documents D V).
  destruct (convert_loop_total parent documents []
              (logged (PostDocuments (url_id folder_id)) w) C)
    as (out & w1 & E).
  rewrite E. destruct recurse; [|unfold ret; eauto].
  apply convert_loop_spec in E as (level & -> & (L1 & _ & L3) & _).
  simpl app.
  destruct (recurse_loop_total
              (fun doc => get_documents fuel dev (Some (Folder.id_ doc))
                            retries true (Some doc)) level) with
    (subs := @nil Entity) (w := w1) as (subs & w2 & ->).
  - intros f v Hf. apply IH. simpl.
    rewrite Forall_forall in L3.
    destruct (L3 _ Hf) as (_ & Hid & _ & _ & Hty). simpl in Hid, Hty.
    rewrite Hid. apply Sub; [|exact Hty].
    assert (Hin : In (Folder.raw_ f) (filter known_type documents)).
    { rewrite <- L1. exact (in_map raw_ _ _ Hf). }
    now apply filter_In in Hin as [Hin _].
  - unfold ret. eauto.
Qed.

End TreeBuilder.

(* ===================================================================== *)
(** ** The tree builder: the statements *)
(* ===================================================================== *)

(** C4.  In the list [get_documents] returns with [recurse=True] from the
    root, a folder stands before every entity of its subtree; the list
    begins with the level of the root, in the order of its records; and
    the entities that have the folder [F] as parent are one block, the
    level fetched for [F], in the order of its records.  The records of
    a level are those the tablet sent in answer to a request of this
    call for the folder. *)
Theorem get_documents_order (dev : Device) (fuel : nat) (retries : Z)
    (w w' : world) (docs : list Entity) :
  get_documents fuel dev None retries true None w = (Ok docs, w') ->
  (forall i j F E,
      nth_error docs i = Some (EFolder F) -> nth_error docs j = Some E ->
      In F (ancestors E) -> i < j) /\
  (exists documents level rest,
      answered dev (trace w') (List.length (trace w)) "" documents /\
      docs = level ++ rest /\
      map raw_ level = filter known_type documents /\
      Forall (fun e => folder e = None) level /\
      Forall (fun e => folder e <> None) rest) /\
  (forall F,
      In (EFolder F) docs ->
      exists documents before level after,
        answered dev (trace w') (List.length (trace w)) (Folder.id_ F)
          documents /\
        docs = before ++ level ++ after /\
        map raw_ level = filter known_type documents /\
        Forall (fun e => folder e = Some F) level /\
        Forall (fun e => folder e <> Some F) (before ++ after)).
Proof.
  intros H. apply get_documents_listing in H as [L _].
  assert (Hp : forall G : Folder.t, None = Some G -> Folder.oid G < next_oid w)
    by discriminate.
  assert (Hb : forall p n documents level,
             level_ok p n documents level ->
             Forall (fun e => folder e = p) level).
  { intros p n documents level (_ & _ & B).
    eapply Forall_impl; [|exact B]. now intros e [? _]. }
  split; [|split].
  - intros i j F E Hi Hj HF.
    destruct (listing_ancestors _ _ _ _ _ _ _ L (nth_error_In _ _ Hj))
      as (inner & E1 & A).
    simpl in E1. rewrite app_nil_r in E1. subst inner.
    rewrite Forall_forall in A. destruct (A F HF) as [_ O].
    rewrite (listing_nth_oid _ _ _ _ _ _ _ _ L Hj) in O.
    pose proof (listing_nth_oid _ _ _ _ _ _ _ _ L Hi) as OF.
    simpl in OF. lia.
  - destruct (listing_top_block _ _ _ _ _ _ L Hp)
      as (documents & level & rest & D & -> & Lv & Rest).
    exists documents, level, rest.
    split; [exact D |]. split; [reflexivity |].
    split; [exact (proj1 Lv) |]. split; [exact (Hb _ _ _ _ Lv) | exact Rest].
  - intros F HF.
    destruct (listing_blocks _ _ _ _ _ _ _ L Hp HF)
      as (documents & before & level & after & m & D & -> & Lv & Rest).
    exists documents, before, level, after.
    split; [exact D |]. split; [reflexivity |].
    split; [exact (proj1 Lv) |]. split; [exact (Hb _ _ _ _ Lv) | exact Rest].
Qed.

Lemma get_documents_order_witness :
  get_documents 2 tablet_AB None 3 true None w0
  = (Ok docs_AB, mkWorld 2 [PostDocuments ""; PostDocuments "1"]) /\
  nth_error docs_AB 0 = Some (EFolder folder_A) /\
  nth_error docs_AB 1 = Some (EDocument document_B) /\
  In folder_A (ancestors (EDocument document_B)) /\
  0 < 1.
Proof.
  assert (H : get_documents 2 tablet_AB None 3 true None w0
              = (Ok docs_AB, mkWorld 2 [PostDocuments ""; PostDocuments "1"]))
    by reflexivity.
  split; [exact H |]. split; [reflexivity |]. split; [reflexivity |].
  split; [now left |].
  apply (proj1 (get_documents_order tablet_AB 2 3 w0 _ docs_AB H)
           0 1 folder_A (EDocument document_B));
    [reflexivity | reflexivity | now left].
Defined.

(* ===================================================================== *)
(** ** Paths built by [filename] and resolved by [find_file] *)
(* ===================================================================== *)

Lemma folder_ind' (P : Folder.t -> Prop) :
  (forall o i vn pid raw, P (Folder.mk o i None vn pid raw)) ->
  (forall o i p vn pid raw, P p -> P (Folder.mk o i (Some p) vn pid raw)) ->
  forall f, P f.
Proof.
  intros H0 H1. fix IH 1.
  intros [o i [p|] vn pid raw]; [apply H1, IH | apply H0].
Qed.

Lemma listing_closed (answers : string -> list RMApiDocument -> Prop)
    (fuel : nat) (folder_id : option string) (n : nat) (R : list Entity) :
  listing answers fuel folder_id None n R -> closed R.
Proof.
  intros L e F He Hf.
  destruct (listing_folder _ _ _ _ _ _ _ L He) as [E|(G & E & HG)];
    congruence.
Qed.

Lemma listing_extension (answers : string -> list RMApiDocument -> Prop)
    (fuel : nat) (folder_id : option string) (parent : option Folder.t)
    (n : nat) (R : list Entity) (d : Document.t) :
  listing answers fuel folder_id parent n R -> In (EDocument d) R ->
  Document.extension d = "pdf".
Proof.
  revert folder_id parent n R.
  induction fuel as [|fuel IH]; intros folder_id parent n R L Hin;
    [contradiction |].
  destruct L as (documents & level & subs & _ & (_ & _ & B) & S & ->).
  apply in_app_or in Hin as [Hin|Hin].
  - rewrite Forall_forall in B. now destruct (B _ Hin) as (_ & _ & _ & _ & _ & ?).
  - apply in_concat in Hin as (r & Hr & Hin).
    destruct (sublistings_In _ _ _ _ _ S Hr) as (f & m & _ & Lr & _).
    exact (IH _ _ _ _ Lr Hin).
Qed.

Section RoundTrip.

Variable docs : list Entity.
Hypothesis Hclosed : closed docs.
Hypothesis Hlinked : parent_linked docs.
Hypothesis Hunique : names_unique docs.
Hypothesis Hnames : names_resolvable docs.

Lemma names_unique_first (e : Entity) :
  In e docs -> first_named (visible_name e) (parent_id e) docs = Some e.
Proof.
  unfold first_named. clear Hclosed Hlinked Hnames.
  unfold names_unique in Hunique.
  induction docs as [|x l IH]; intros Hin; [contradiction |].
  simpl in Hunique. inversion Hunique as [|? ? Hx Hl]; subst.
  simpl.
  destruct (String.eqb_spec (visible_name x) (visible_name e)) as [En|Nn];
    simpl.
  - destruct (opt_str_eqb (parent_id x) (parent_id e)) eqn:Ep.
    + apply opt_str_eqb_eq in Ep.
      destruct Hin as [->|Hin]; [reflexivity |].
      exfalso. apply Hx. rewrite En, Ep.
      exact (in_map (fun e => (visible_name e, parent_id e)) _ _ Hin).
    + destruct Hin as [->|Hin]; [|now apply IH].
      assert (opt_str_eqb (parent_id e) (parent_id e) = true)
        by now apply opt_str_eqb_eq.
      congruence.
  - destruct Hin as [->|Hin]; [congruence | now apply IH].
Qed.

Lemma plain_no_slash (s : string) : plain_segment s = true -> has_slash s = false.
Proof.
  unfold plain_segment. intros H. apply andb_prop in H as [H _].
  now apply negb_true_iff.
Qed.

(** What [find_file] does with a path of one part. *)
Lemma find_file_one_part (dev : Device) (k : nat) (s : string) (w : world) :
  1 <= k ->
  find_file k dev (Path.mk "" [s]) (Some docs) w
  = (Ok (first_named (strip_pdf s) None docs), w).
Proof.
  intros Hk. destruct k as [|k]; [lia |].
  rewrite find_file_S.
  change (Path.mk "" [s]) with (Path.mk "" ([] ++ [s])).
  rewrite parent_snoc, name_snoc. simpl.
  now rewrite find_doc_first_named.
Qed.

(** What [find_file] does with the last part of a longer path. *)
Lemma find_file_snoc (dev : Device) (k : nat) (p : Path.t) (s : string)
    (w : world) (F : Folder.t) :
  Path.parts p <> [] ->
  find_file k dev p (Some docs) w = (Ok (Some (EFolder F)), w) ->
  find_file (S k) dev (Path.mk (Path.root p) (Path.parts p ++ [s]))
    (Some docs) w
  = (Ok (first_named (strip_pdf s) (Some (Folder.id_ F)) docs), w).
Proof.
  intros Hp H. rewrite find_file_S, parent_snoc, name_snoc.
  assert (E : Path.mk (Path.root p) (Path.parts p) = p)
    by (destruct p; reflexivity).
  rewrite E.
  destruct (path_eqb_spec p Path.dot) as [D|_].
  { rewrite D in Hp. now contradiction Hp. }
  simpl negb. cbv iota. rewrite H. simpl.
  now rewrite find_doc_first_named.
Qed.

Lemma folder_resolves (F : Folder.t) :
  In (EFolder F) docs ->
  Path.parts (Folder.filename F) <> [] /\
  forall dev k w,
    List.length (Path.parts (Folder.filename F)) <= k ->
    find_file k dev (Folder.filename F) (Some docs) w
    = (Ok (Some (EFolder F)), w).
Proof.
  induction F as [o i vn pid raw|o i p vn pid raw IH] using folder_ind';
    intros Hin.
  - destruct (Hnames _ Hin) as [Hplain Hpdf]. simpl in Hplain, Hpdf.
    pose proof (Hlinked _ Hin) as Hpid. simpl in Hpid. subst pid.
    simpl. rewrite (of_string_plain _ Hplain). simpl.
    split; [discriminate |]. intros dev k w Hk.
    rewrite find_file_one_part by exact Hk.
    unfold strip_pdf. rewrite (Hpdf (or_introl eq_refl)).
    pose proof (names_unique_first _ Hin) as Hfirst. simpl in Hfirst.
    now rewrite Hfirst.
  - destruct (Hnames _ Hin) as [Hplain Hpdf]. simpl in Hplain, Hpdf.
    pose proof (Hlinked _ Hin) as Hpid. simpl in Hpid. subst pid.
    assert (Hp : In (EFolder p) docs) by exact (Hclosed _ _ Hin eq_refl).
    destruct (IH Hp) as [Hparts Hfind].
    simpl. rewrite (joinpath_plain _ _ Hplain). simpl.
    split; [now destruct (Path.parts (Folder.filename p)) |].
    intros dev k w Hk. rewrite length_app in Hk. simpl in Hk.
    destruct k as [|k]; [lia |].
    rewrite (find_file_snoc dev k _ vn w p Hparts).
    + unfold strip_pdf. rewrite (Hpdf (or_introl eq_refl)).
      pose proof (names_unique_first _ Hin) as Hfirst. simpl in Hfirst.
    now rewrite Hfirst.
    + apply Hfind. lia.
Qed.

Lemma entity_resolves (e : Entity) :
  (forall d, e = EDocument d -> Document.extension d = "pdf") ->
  In e docs ->
  forall dev k w,
    List.length (Path.parts (filename e)) <= k ->
    find_file k dev (filename e) (Some docs) w = (Ok (Some e), w).
Proof.
  intros Hext Hin. destruct e as [d|F].
  2:{ exact (proj2 (folder_resolves F Hin)). }
  destruct (Hnames _ Hin) as [Hplain Hpdf].
  pose proof (Hlinked _ Hin) as Hpid.
  pose proof (names_unique_first _ Hin) as Hfirst.
  pose proof (fun F => Hclosed _ F Hin) as Hcl.
  specialize (Hext d eq_refl).
  destruct d as [o i [p|] vn len ext pc pid raw]; simpl in *; subst.
  - assert (Hp : In (EFolder p) docs) by exact (Hcl p eq_refl).
    destruct (folder_resolves p Hp) as [Hparts Hfind].
    intros dev k w. unfold Document.filename. simpl.
    change (vn +++ "." +++ "pdf") with (vn +++ (String "." "pdf")).
    change (String "." "pdf") with ".pdf".
    rewrite (joinpath_plain _ _ (plain_segment_pdf _ (plain_no_slash _ Hplain))).
    simpl. rewrite length_app. simpl. intros Hk.
    destruct k as [|k]; [lia |].
    rewrite (find_file_snoc dev k _ _ w p Hparts).
    + now rewrite strip_pdf_append, Hfirst.
    + apply Hfind. lia.
  - intros dev k w. unfold Document.filename. simpl.
    rewrite (of_string_plain _ Hplain). simpl. intros Hk.
    rewrite find_file_one_part by exact Hk.
    unfold strip_pdf. rewrite (Hpdf (or_intror eq_refl)).
    now rewrite Hfirst.
Qed.

End RoundTrip.

(** C1, as amended.  Let [docs] be what [get_documents] returns with
    [recurse=True] from the root.  If every entry has the identifier of
    the folder it was listed under as [parent_id], no two entries share
    display name and parent identifier, every display name is one part of
    a path and the name of no folder and of no document in the root ends
    in ".pdf", then [find_file] resolves the [filename] of every entry of
    [docs] to that entry. *)
Theorem find_file_filename (dev : Device) (fuel : nat) (retries : Z)
    (w w' : world) (docs : list Entity) :
  get_documents fuel dev None retries true None w = (Ok docs, w') ->
  parent_linked docs -> names_unique docs -> names_resolvable docs ->
  forall E, In E docs ->
    forall dev' k w1,
      List.length (Path.parts (filename E)) <= k ->
      find_file k dev' (filename E) (Some docs) w1 = (Ok (Some E), w1).
Proof.
  intros H Hl Hu Hn E Hin.
  apply get_documents_listing in H as [L _].
  apply (entity_resolves docs (listing_closed _ _ _ _ _ L) Hl Hu Hn).
  - intros d ->. exact (listing_extension _ _ _ _ _ _ _ L Hin).
  - exact Hin.
Qed.

Lemma find_file_filename_witness :
  get_documents 2 tablet_AB None 3 true None w0
  = (Ok docs_AB, mkWorld 2 [PostDocuments ""; PostDocuments "1"]) /\
  parent_linked docs_AB /\ names_unique docs_AB /\ names_resolvable docs_AB /\
  In (EDocument document_B) docs_AB /\
  filename (EDocument document_B) = Path.of_string "A/B.pdf" /\
  find_file 2 silent (Path.of_string "A/B.pdf") (Some docs_AB) w0
  = (Ok (Some (EDocument document_B)), w0).
Proof.
  assert (H : get_documents 2 tablet_AB None 3 true None w0
              = (Ok docs_AB, mkWorld 2 [PostDocuments ""; PostDocuments "1"]))
    by reflexivity.
  assert (Hl : parent_linked docs_AB).
  { intros e [<-|[<-|[]]]; reflexivity. }
  assert (Hu : names_unique docs_AB).
  { unfold names_unique, docs_AB. simpl.
    repeat constructor; simpl; intuition discriminate. }
  assert (Hn : names_resolvable docs_AB).
  { intros e [<-|[<-|[]]]; split; try reflexivity; intros _; reflexivity. }
  assert (Hi : In (EDocument document_B) docs_AB) by (right; now left).
  split; [exact H |]. split; [exact Hl |]. split; [exact Hu |].
  split; [exact Hn |]. split; [exact Hi |]. split; [reflexivity |].
  apply (find_file_filename tablet_AB 2 3 w0 _ docs_AB H Hl Hu Hn
           (EDocument document_B) Hi silent 2 w0).
  simpl. lia.
Defined.

(** C1 as it is stated fails when a folder and a document of one level
    have the same display name (the first entry is found for both), and
    for a folder whose display name ends in ".pdf" (the suffix is cut off
    before the comparison). *)
Lemma find_file_filename_not_found :
  (fst (get_documents 2 tablet_same_name None 3 true None w0)
   = Ok [EFolder folder_N; EDocument document_N] /\
   find_file 1 silent (filename (EDocument document_N))
     (Some [EFolder folder_N; EDocument document_N]) w0
   = (Ok (Some (EFolder folder_N)), w0) /\
   forall fuel,
     fst (find_file fuel silent (filename (EDocument document_N))
            (Some [EFolder folder_N; EDocument document_N]) w0)
     <> Ok (Some (EDocument document_N))) /\
  (fst (get_documents 2 tablet_scans None 3 true None w0)
   = Ok [EFolder folder_scans] /\
   find_file 1 silent (filename (EFolder folder_scans))
     (Some [EFolder folder_scans]) w0
   = (Ok None, w0) /\
   forall fuel,
     fst (find_file fuel silent (filename (EFolder folder_scans))
            (Some [EFolder folder_scans]) w0)
     <> Ok (Some (EFolder folder_scans))).
Proof.
  split; (split; [reflexivity |]); (split; [reflexivity |]);
    intros [|fuel]; vm_compute; discriminate.
Qed.

(* ===================================================================== *)
(** ** The requests of a listing *)
(* ===================================================================== *)

Section Requests.

Variable dev : Device.
Variable retries : nat.

Lemma requested_app (a b : list event) :
  requested (a ++ b) = requested a ++ requested b.
Proof. apply flat_map_app. Qed.

Lemma requested_warnings (l : list RMApiDocument) :
  requested (map warning_of l) = [].
Proof. induction l as [|r l IH]; [reflexivity | exact IH]. Qed.

Lemma requested_repeat (i : string) (k : nat) :
  requested (repeat (PostDocuments i) k) = repeat i k.
Proof. induction k as [|k IH]; [reflexivity | simpl; now rewrite IH]. Qed.

Lemma folder_ids_app (a b : list Entity) :
  folder_ids (a ++ b) = folder_ids a ++ folder_ids b.
Proof. apply flat_map_app. Qed.

Lemma attempts_app (a b : list (string * nat)) :
  attempts (a ++ b) = attempts a ++ attempts b.
Proof. apply flat_map_app. Qed.

Lemma attempts_at_once (ks : list (string * nat)) :
  Forall (fun p => snd p = 0) ks -> attempts ks = map fst ks.
Proof.
  induction 1 as [|[i k] ks Hk _ IH]; [reflexivity |].
  simpl in *. subst k. simpl. now rewrite <- IH.
Qed.

Lemma sent_nil (evs : list event) : requested evs = [] -> sent dev retries evs [].
Proof.
  intros H. exists []. rewrite H. repeat split; constructor.
Qed.

Lemma sent_app (e1 e2 : list event) (i1 i2 : list string) :
  sent dev retries e1 i1 -> sent dev retries e2 i2 -> sent dev retries (e1 ++ e2) (i1 ++ i2).
Proof.
  intros (k1 & P1 & F1 & R1 & S1) (k2 & P2 & F2 & R2 & S2).
  exists (k1 ++ k2). rewrite map_app, requested_app, attempts_app.
  repeat split.
  - now apply Permutation_app.
  - apply Forall_app. now split.
  - now apply Permutation_app.
  - intros H. apply Forall_app. split; auto.
Qed.

Lemma sent_perm (evs : list event) (i1 i2 : list string) :
  Permutation i1 i2 -> sent dev retries evs i1 -> sent dev retries evs i2.
Proof.
  intros P (ks & P1 & F & R & S). exists ks. repeat split; auto.
  now rewrite P1.
Qed.

Lemma sent_skip (e1 e2 : list event) (ids : list string) :
  requested e2 = [] -> sent dev retries e1 ids -> sent dev retries (e1 ++ e2) ids.
Proof.
  intros H S. rewrite <- (app_nil_r ids). apply sent_app; [exact S |].
  now apply sent_nil.
Qed.

(** The requests of one [read_folder] that returns. *)
Lemma read_folder_sent (folder_id : option string) (w w' : world)
    (documents : list RMApiDocument) :
  read_folder dev folder_id (Z.of_nat retries) w = (Ok documents, w') ->
  exists evs,
    trace w' = trace w ++ evs /\ sent dev retries evs [url_id folder_id].
Proof.
  intros H. apply read_folder_inv in H as (k & Hk & Hno & _ & _ & ->).
  rewrite Nat2Z.id in Hk.
  exists (repeat (PostDocuments (url_id folder_id)) (S k)).
  split; [reflexivity |].
  exists [(url_id folder_id, k)]. repeat split.
  - apply Permutation_refl.
  - repeat constructor. exact Hk.
  - rewrite requested_repeat. unfold attempts. simpl.
    now rewrite app_nil_r.
  - intros Hs. constructor; [|constructor]. simpl.
    destruct k as [|k]; [reflexivity |].
    exfalso. exact (Hs _ _ (Hno 0 (Nat.lt_0_succ k))).
Qed.

Lemma recurse_loop_requests (rec : Folder.t -> M (list Entity)) :
  (forall f v r v',
      rec f v = (Ok r, v') ->
      exists evs,
        trace v' = trace v ++ evs /\
        sent dev retries evs (Folder.id_ f :: folder_ids r)) ->
  forall docs_ subs w out w',
    recurse_loop rec docs_ subs w = (Ok out, w') ->
    exists new evs,
      out = subs ++ new /\ trace w' = trace w ++ evs /\
      sent dev retries evs (folder_ids docs_ ++ folder_ids new).
Proof.
  intros HR docs_.
  induction docs_ as [|[d|f] rest IH]; intros subs w out w' H; simpl in H.
  - unfold ret in H. injection H as <- <-.
    exists [], []. rewrite !app_nil_r. repeat split. now apply sent_nil.
  - exact (IH _ _ _ _ H).
  - unfold bind in H.
    destruct (rec f w) as [[r|x|] w1] eqn:E; try discriminate.
    destruct (HR _ _ _ _ E) as (evs1 & T1 & P1).
    destruct (IH _ _ _ _ H) as (new & evs2 & -> & T2 & P2).
    exists (r ++ new), (evs1 ++ evs2).
    rewrite <- app_assoc, T2, T1, <- app_assoc.
    split; [reflexivity |]. split; [reflexivity |].
    apply (sent_perm _ ((Folder.id_ f :: folder_ids r)
                        ++ folder_ids rest ++ folder_ids new)).
    + rewrite folder_ids_app. simpl. constructor.
      rewrite !app_assoc. apply Permutation_app_tail, Permutation_app_comm.
    + now apply sent_app.
Qed.

Lemma get_documents_trace (fuel : nat) (folder_id : option string)
    (recurse : bool) (parent : option Folder.t)
    (w w' : world) (docs : list Entity) :
  get_documents fuel dev folder_id (Z.of_nat retries) recurse parent w
  = (Ok docs, w') ->
  exists evs,
    trace w' = trace w ++ evs /\
    sent dev retries evs (url_id folder_id :: if recurse then folder_ids docs else []).
Proof.
  revert folder_id parent w w' docs.
  induction fuel as [|fuel IH]; intros folder_id parent w w' docs H.
  - simpl in H. unfold out_of_fuel in H. congruence.
  - rewrite get_documents_S in H. destruct recurse; unfold bind in H;
      (destruct (read_folder dev folder_id (Z.of_nat retries) w)
        as [[documents|x|] w1] eqn:E1; try discriminate);
      apply read_folder_sent in E1 as (e1 & T1 & S1);
      (destruct (convert_loop parent documents [] _)
        as [[level|x|] w2] eqn:E2; try discriminate);
      apply convert_loop_spec in E2 as (level' & -> & _ & _ & T2);
      simpl app in H.
    + destruct (recurse_loop _ level' [] w2) as [[subs|x|] w3] eqn:E3;
        try discriminate.
      unfold ret in H. injection H as <- <-.
      apply recurse_loop_requests in E3 as (new & evs & -> & T3 & P).
      2:{ intros f v r v' Hf. exact (IH _ _ _ _ _ Hf). }
      eexists. split.
      * rewrite T3, T2, T1, <- !app_assoc. reflexivity.
      * simpl app. rewrite folder_ids_app.
        apply (sent_app _ _ [url_id folder_id]); [exact S1 |].
        rewrite <- (app_nil_l (folder_ids level' ++ folder_ids new)).
        apply sent_app; [|exact P].
        apply sent_nil, requested_warnings.
    + unfold ret in H. injection H as <- <-.
      eexists. split.
      * rewrite T2, T1, <- !app_assoc. reflexivity.
      * apply sent_skip; [apply requested_warnings | exact S1].
Qed.

Lemma only_requests_app (a b : list event) :
  only_requests a -> only_requests b -> only_requests (a ++ b).
Proof.
  unfold only_requests. intros Ha Hb.
  rewrite requested_app, map_app, <- Ha, <- Hb. reflexivity.
Qed.

Lemma only_requests_repeat (i : string) (k : nat) :
  only_requests (repeat (PostDocuments i) k).
Proof.
  unfold only_requests. rewrite requested_repeat.
  induction k as [|k IH]; [reflexivity | simpl; now rewrite <- IH].
Qed.

Lemma recurse_loop_quiet (rec : Folder.t -> M (list Entity)) :
  (forall f v r v',
      rec f v = (Ok r, v') ->
      exists evs, trace v' = trace v ++ evs /\ only_requests evs) ->
  forall docs_ subs w out w',
    recurse_loop rec docs_ subs w = (Ok out, w') ->
    exists evs, trace w' = trace w ++ evs /\ only_requests evs.
Proof.
  intros HR docs_.
  induction docs_ as [|[d|f] rest IH]; intros subs w out w' H; simpl in H.
  - unfold ret in H. injection H as _ <-.
    exists []. rewrite app_nil_r. split; reflexivity.
  - exact (IH _ _ _ _ H).
  - unfold bind in H.
    destruct (rec f w) as [[r|x|] w1] eqn:E; try discriminate.
    destruct (HR _ _ _ _ E) as (e1 & T1 & Q1).
    destruct (IH _ _ _ _ H) as (e2 & T2 & Q2).
    exists (e1 ++ e2). rewrite T2, T1, <- app_assoc.
    split; [reflexivity | now apply only_requests_app].
Qed.

(** A listing that returns has logged its requests and nothing else: no
    warning, and nothing was printed. *)
Lemma get_documents_quiet (fuel : nat) (folder_id : option string)
    (z : Z) (recurse : bool) (parent : option Folder.t)
    (w w' : world) (docs : list Entity) :
  get_documents fuel dev folder_id z recurse parent w = (Ok docs, w') ->
  exists evs, trace w' = trace w ++ evs /\ only_requests evs.
Proof.
  revert folder_id parent w w' docs.
  induction fuel as [|fuel IH]; intros folder_id parent w w' docs H.
  - simpl in H. unfold out_of_fuel in H. congruence.
  - rewrite get_documents_S in H. destruct recurse; unfold bind in H;
      (destruct (read_folder dev folder_id z w)
        as [[documents|x|] w1] eqn:E1; try discriminate);
      apply read_folder_answered in E1 as ((t & _ & _ & _ & V) & _ & k & T1);
      destruct (structured_known_type documents V) as (_ & _ & K);
      (destruct (convert_loop parent documents [] _)
        as [[level|x|] w2] eqn:E2; try discriminate);
      apply convert_loop_spec in E2 as (level' & -> & _ & _ & T2);
      rewrite K in T2; simpl in T2; rewrite app_nil_r in T2;
      simpl app in H.
    + destruct (recurse_loop _ level' [] w2) as [[subs|x|] w3] eqn:E3;
        try discriminate.
      unfold ret in H. injection H as _ <-.
      apply recurse_loop_quiet in E3 as (e3 & T3 & Q3).
      2:{ intros f v r v' Hf. exact (IH _ _ _ _ _ Hf). }
      eexists. split.
      * rewrite T3, T2, T1, <- app_assoc. reflexivity.
      * apply only_requests_app; [apply only_requests_repeat | exact Q3].
    + unfold ret in H. injection H as _ <-.
      eexists. split.
      * rewrite T2, T1. reflexivity.
      * apply only_requests_repeat.
Qed.

End Requests.

Section Aborts.

Variable dev : Device.

(** A folder whose listing does not return keeps the loop over the
    folders of a level from returning. *)
Lemma recurse_loop_not_ok (rec : Folder.t -> M (list Entity))
    (docs_ : list Entity) (g : Folder.t) :
  In (EFolder g) docs_ ->
  (forall v r v', rec g v <> (Ok r, v')) ->
  forall subs w out w', recurse_loop rec docs_ subs w <> (Ok out, w').
Proof.
  intros Hin Hg.
  induction docs_ as [|[d|f] rest IH]; intros subs w out w' H;
    [contradiction | |]; simpl in H.
  - destruct Hin as [Hin|Hin]; [discriminate |]. exact (IH Hin _ _ _ _ H).
  - unfold bind in H.
    destruct (rec f w) as [[r|x|] w1] eqn:E; try discriminate.
    destruct Hin as [Hin|Hin].
    + injection Hin as ->. exact (Hg _ _ _ E).
    + exact (IH Hin _ _ _ _ H).
Qed.

(** The folder the first loop builds for a CollectionType record. *)
Lemma level_ok_folder_of (parent : option Folder.t) (n : nat)
    (documents : list RMApiDocument) (level : list Entity)
    (raw : RMApiDocument) :
  level_ok parent n documents level ->
  In raw documents -> Type_ raw = "CollectionType" ->
  exists g, In (EFolder g) level /\ Folder.id_ g = ID raw.
Proof.
  intros (L1 & _ & L3) Hin Ht.
  assert (Hk : In raw (filter known_type documents)).
  { apply filter_In. split; [exact Hin |].
    unfold known_type. rewrite Ht. reflexivity. }
  rewrite <- L1 in Hk. apply in_map_iff in Hk as (e & He & Hin').
  rewrite Forall_forall in L3.
  destruct (L3 _ Hin') as (_ & Hid & _ & _ & Hty).
  destruct e as [d|g].
  - destruct Hty as [Hty _]. rewrite He, Ht in Hty. discriminate.
  - exists g. split; [exact Hin' |]. simpl in *. now rewrite Hid, He.
Qed.

Lemma get_documents_deep (fuel : nat) (folder_id : option string)
    (retries : Z) (parent : option Folder.t) (w w' : world)
    (docs : list Entity) :
  deep dev fuel (url_id folder_id) ->
  get_documents fuel dev folder_id retries true parent w <> (Ok docs, w').
Proof.
  revert folder_id parent w w' docs.
  induction fuel as [|fuel IH]; intros folder_id parent w w' docs Hd H.
  - simpl in H. unfold out_of_fuel in H. congruence.
  - rewrite get_documents_S in H. unfold bind in H.
    destruct (read_folder dev folder_id retries w)
      as [[documents|x|] w1] eqn:E1; try discriminate.
    apply read_folder_inv in E1 as (k & _ & _ & D & _ & ->).
    destruct (Hd _ _ D) as (raw & Hin & Ht & Hd').
    destruct (convert_loop parent documents [] _) as [[level|x|] w2] eqn:E2;
      try discriminate.
    apply convert_loop_spec in E2 as (level' & -> & L & _).
    simpl app in H.
    destruct (level_ok_folder_of _ _ _ _ _ L Hin Ht) as (g & Hg & Hid).
    destruct (recurse_loop _ level' [] w2) as [[subs|x|] w3] eqn:E3;
      try discriminate.
    revert E3. apply (recurse_loop_not_ok _ _ g Hg).
    intros v r v'. apply IH. simpl. now rewrite Hid.
Qed.

(** The first folder of a level whose listing raises stops the loop. *)
Lemma recurse_loop_raises (rec : Folder.t -> M (list Entity)) (x : exn)
    (docs_ : list Entity) :
  (forall f, In (EFolder f) docs_ ->
             (forall v, exists r v', rec f v = (Ok r, v')) \/
             (forall v, exists v', rec f v = (Raise x, v'))) ->
  (exists f, In (EFolder f) docs_ /\
             forall v, exists v', rec f v = (Raise x, v')) ->
  forall subs w, exists w', recurse_loop rec docs_ subs w = (Raise x, w').
Proof.
  induction docs_ as [|[d|f] rest IH]; intros Hall (g & Hg & Hr) subs w.
  - contradiction.
  - simpl. apply IH.
    + intros f Hf. apply Hall. now right.
    + exists g. destruct Hg as [Hg|Hg]; [discriminate | auto].
  - simpl. unfold bind.
    destruct (Hall f (or_introl eq_refl)) as [Hok|Hbad].
    + destruct (Hok w) as (r & w1 & ->). apply IH.
      * intros f' Hf. apply Hall. now right.
      * exists g. destruct Hg as [Hg|Hg]; [|auto].
        injection Hg as ->. destruct (Hr w) as (v' & Hv).
        destruct (Hok w) as (r' & v'' & Hv'). congruence.
    + destruct (Hbad w) as (w1 & ->). eauto.
Qed.

End Aborts.

(** X1.  [read_folder] sends its request again, at once, as long as
    the tablet refuses it and retries are left: when the tablet refuses
    [k] requests and then sends records that cattrs structures,
    [read_folder] returns them after [k + 1] requests (one request when
    the tablet answers at once); when the tablet refuses the request and
    every retry, [read_folder] raises [AssertionError] after one request
    and one more for every retry. *)
Theorem read_folder_requests (dev : Device) (folder_id : option string)
    (retries : Z) (w : world) :
  (forall k documents,
      k <= Z.to_nat retries ->
      (forall j, j < k ->
                 dev (List.length (trace w) + j) (url_id folder_id) = NotOk) ->
      dev (List.length (trace w) + k) (url_id folder_id)
      = Records documents ->
      forallb structured documents = true ->
      read_folder dev folder_id retries w
      = (Ok documents,
         mkWorld (next_oid w)
           (trace w ++ repeat (PostDocuments (url_id folder_id)) (S k)))) /\
  ((forall j, j <= Z.to_nat retries ->
              dev (List.length (trace w) + j) (url_id folder_id) = NotOk) ->
   read_folder dev folder_id retries w
   = (Raise AssertionError,
      mkWorld (next_oid w)
        (trace w ++ repeat (PostDocuments (url_id folder_id))
                      (S (Z.to_nat retries))))).
Proof.
  split.
  - intros k documents Hk Hno D V. unfold read_folder.
    rewrite (read_folder_try_retry dev _ k _ w Hk Hno).
    rewrite read_folder_try_ok with (documents := documents).
    + now rewrite <- asked_snoc.
    + now rewrite asked_length.
    + exact V.
  - intros H. unfold read_folder. now apply read_folder_try_fail.
Qed.

Lemma read_folder_requests_witness :
  read_folder tablet_AB (Some "1") 3 w0
  = (Ok [raw_document "2" "B" "1" "10"], mkWorld 0 [PostDocuments "1"]) /\
  read_folder tablet_flaky (Some "1") 3 w0
  = (Ok [raw_document "2" "B" "1" "10"],
     mkWorld 0 [PostDocuments "1"; PostDocuments "1"; PostDocuments "1"]) /\
  read_folder silent None 3 w0
  = (Raise AssertionError,
     mkWorld 0 [PostDocuments ""; PostDocuments ""; PostDocuments "";
                PostDocuments ""]).
Proof.
  split; [|split].
  - apply (proj1 (read_folder_requests tablet_AB (Some "1") 3 w0) 0);
      [simpl; lia | intros j Hj; lia | reflexivity | reflexivity].
  - apply (proj1 (read_folder_requests tablet_flaky (Some "1") 3 w0) 2);
      [simpl; lia | | reflexivity | reflexivity].
    intros [|[|j]] Hj; [reflexivity | reflexivity | lia].
  - apply (proj2 (read_folder_requests silent None 3 w0)).
    intros j _. reflexivity.
Defined.

(** X2.  A listing that returns has logged listing requests and nothing
    else.  The requests are for the folder it started from and, with
    [recurse=True], for every folder of the result, and for no other
    folder: for each of them one request, and before that one for every
    time the tablet refused, [retries] times at most.  When the tablet
    never refuses, that is one request for each of these folders. *)
Theorem get_documents_requests (dev : Device) (fuel : nat)
    (folder_id : option string) (retries : nat) (recurse : bool)
    (parent : option Folder.t) (w w' : world) (docs : list Entity) :
  get_documents fuel dev folder_id (Z.of_nat retries) recurse parent w
  = (Ok docs, w') ->
  exists evs ks,
    trace w' = trace w ++ evs /\
    only_requests evs /\
    Permutation (map fst ks)
      (url_id folder_id :: if recurse then folder_ids docs else []) /\
    Forall (fun p => snd p <= retries) ks /\
    Permutation (requested evs) (attempts ks) /\
    (never_refuses dev ->
     Permutation (requested evs)
       (url_id folder_id :: if recurse then folder_ids docs else [])).
Proof.
  intros H.
  destruct (get_documents_quiet _ _ _ _ _ _ _ _ _ H) as (evs' & T' & Q).
  apply get_documents_trace in H as (evs & T & ks & P & F & R & S).
  assert (evs' = evs) as ->
    by (rewrite T in T'; exact (eq_sym (app_inv_head _ _ _ T'))).
  exists evs, ks. repeat split; auto.
  intros N. rewrite R, (attempts_at_once _ (S N)). exact P.
Qed.

Lemma get_documents_requests_witness :
  get_documents 2 tablet_flaky None (Z.of_nat 3) true None w0
  = (Ok docs_AB,
     mkWorld 2 [PostDocuments ""; PostDocuments ""; PostDocuments "";
                PostDocuments "1"]) /\
  exists evs ks,
    [PostDocuments ""; PostDocuments ""; PostDocuments ""; PostDocuments "1"]
    = [] ++ evs /\
    Permutation (map fst ks) [""; "1"] /\
    Permutation (requested evs) (attempts ks).
Proof.
  assert (H : get_documents 2 tablet_flaky None (Z.of_nat 3) true None w0
              = (Ok docs_AB,
                 mkWorld 2 [PostDocuments ""; PostDocuments "";
                            PostDocuments ""; PostDocuments "1"]))
    by reflexivity.
  split; [exact H |].
  destruct (get_documents_requests tablet_flaky 2 None 3 true None w0 _
              docs_AB H) as (evs & ks & T & _ & P & _ & R & _).
  exists evs, ks. auto.
Defined.

(** X3.  There is no guard against cycles: when below the folder asked
    for the tablet lists folders inside folders without end, for instance
    a folder inside itself, the recursive listing never returns a list. *)
Theorem get_documents_cycle (dev : Device) (folder_id : option string)
    (retries : Z) (parent : option Folder.t) :
  (forall n, deep dev n (url_id folder_id)) ->
  forall fuel w docs w',
    get_documents fuel dev folder_id retries true parent w <> (Ok docs, w').
Proof. intros H fuel w docs w'. apply get_documents_deep, H. Qed.

Lemma get_documents_cycle_witness :
  (forall n, deep tablet_loop n (url_id None)) /\
  forall fuel,
    get_documents fuel tablet_loop None 3 true None w0
    <> (Ok [], w0).
Proof.
  assert (L : forall n, deep tablet_loop n "L").
  { induction n as [|n IH]; [exact I |].
    intros t documents D. injection D as <-.
    exists (raw_folder "L" "loop" "L").
    repeat split; [now left | exact IH]. }
  assert (D : forall n, deep tablet_loop n (url_id None)).
  { intros [|n]; [exact I |].
    intros t documents D. injection D as <-.
    exists (raw_folder "L" "loop" "").
    repeat split; [now left | apply L]. }
  split; [exact D |].
  intros fuel.
  exact (get_documents_cycle tablet_loop None 3 None D fuel w0 [] w0).
Defined.

(** X4.  One folder that does not answer loses the whole listing: when a
    folder listed at the start is refused at every request, and the
    other folders there either are refused as well or hold finite trees
    of records that cattrs structures and the loop gets past, the
    recursive listing raises [AssertionError]. *)
Theorem get_documents_aborts (dev : Device) (fuel : nat)
    (folder_id : option string) (retries : Z) (parent : option Folder.t)
    (w : world) (documents : list RMApiDocument) (raw : RMApiDocument) :
  dev (List.length (trace w)) (url_id folder_id) = Records documents ->
  forallb structured documents = true ->
  forallb convertible documents = true ->
  In raw documents -> Type_ raw = "CollectionType" ->
  (forall t, dev t (ID raw) = NotOk) ->
  (forall r, In r documents -> Type_ r = "CollectionType" ->
             (forall t, dev t (ID r) = NotOk)
             \/ finite_tree dev (S fuel) (ID r)) ->
  exists w',
    get_documents (S (S fuel)) dev folder_id retries true parent w
    = (Raise AssertionError, w').
Proof.
  intros D V C Hin Ht Hn Hall.
  rewrite get_documents_S. unfold bind.
  rewrite (read_folder_ok dev folder_id retries w documents D V).
  destruct (convert_loop_total parent documents []
              (logged (PostDocuments (url_id folder_id)) w) C)
    as (out & w1 & E).
  rewrite E.
  apply convert_loop_spec in E as (level & -> & L & _). simpl app.
  destruct (level_ok_folder_of _ _ _ _ _ L Hin Ht) as (g & Hg & Hid).
  assert (Hfail : forall f, (forall t, dev t (Folder.id_ f) = NotOk) ->
            forall v, exists v',
              get_documents (S fuel) dev (Some (Folder.id_ f)) retries true
                (Some f) v = (Raise AssertionError, v')).
  { intros f Hf v. rewrite get_documents_S. unfold bind.
    unfold read_folder. simpl url_id.
    rewrite (read_folder_try_fail dev _ _ v (fun j _ => Hf _)). eauto. }
  destruct (recurse_loop_raises
              (fun doc => get_documents (S fuel) dev (Some (Folder.id_ doc))
                            retries true (Some doc))
              AssertionError level) with (subs := @nil Entity) (w := w1)
    as (w2 & ->); [| | eauto].
  - intros f Hf.
    destruct L as (L1 & _ & L3). rewrite Forall_forall in L3.
    destruct (L3 _ Hf) as (_ & Hidf & _ & _ & Hty). simpl in Hidf, Hty.
    assert (Hr : In (Folder.raw_ f) documents).
    { assert (Hk : In (raw_ (EFolder f)) (map raw_ level))
        by exact (in_map raw_ _ _ Hf).
      rewrite L1 in Hk. now apply filter_In in Hk as [Hk _]. }
    destruct (Hall _ Hr Hty) as [Hnone|Hfin].
    + right. apply Hfail. now rewrite Hidf.
    + left. intros v. apply get_documents_total. simpl url_id.
      now rewrite Hidf.
  - exists g. split; [exact Hg |]. apply Hfail. now rewrite Hid.
Qed.

Lemma get_documents_aborts_witness :
  tablet_gap 0 (url_id None)
  = Records [raw_folder "1" "A" ""; raw_folder "g" "G" ""] /\
  (forall t, tablet_gap t "g" = NotOk) /\
  exists w',
    get_documents 3 tablet_gap None 3 true None w0
    = (Raise AssertionError, w').
Proof.
  split; [reflexivity |]. split; [reflexivity |].
  apply (get_documents_aborts tablet_gap 1 None 3 None w0
           [raw_folder "1" "A" ""; raw_folder "g" "G" ""]
           (raw_folder "g" "G" ""));
    try reflexivity.
  - right. now left.
  - intros r [<-|[<-|[]]] _.
    + right. intros t. exists [raw_document "2" "B" "1" "10"].
      repeat split. intros r [<-|[]] T. discriminate T.
    + left. reflexivity.
Defined.

(* ===================================================================== *)
(** ** More on resolution *)
(* ===================================================================== *)

Section ResolutionFacts.

Variable dev : Device.
Variable docs : list Entity.

Lemma first_named_split (nm : string) (pid : option string) (l : list Entity)
    (e : Entity) :
  first_named nm pid l = Some e <->
  exists pre post,
    l = pre ++ e :: post /\ visible_name e = nm /\ parent_id e = pid /\
    forall x, In x pre -> visible_name x = nm -> parent_id x <> pid.
Proof.
  unfold first_named. induction l as [|x l IH]; simpl.
  - split; [discriminate |]. intros (pre & post & E & _).
    destruct pre; discriminate.
  - destruct (String.eqb_spec (visible_name x) nm) as [En|Nn]; simpl.
    + destruct (opt_str_eqb (parent_id x) pid) eqn:Ep.
      * apply opt_str_eqb_eq in Ep. split.
        -- intros H. injection H as <-. exists [], l.
           repeat split; auto; intros y [].
        -- intros ([|y pre] & post & E & Hn & Hp & Hpre).
           ++ simpl in E. now injection E as ->.
           ++ simpl in E. injection E as <- _.
              now destruct (Hpre x (or_introl eq_refl) En).
      * rewrite IH. split.
        -- intros (pre & post & -> & Hn & Hp & Hpre).
           exists (x :: pre), post. repeat split; auto.
           intros y [<-|Hy] Hy1; [|now apply Hpre].
           intros Hy2. apply opt_str_eqb_eq in Hy2. congruence.
        -- intros ([|y pre] & post & E & Hn & Hp & Hpre).
           ++ simpl in E. injection E as <- _.
              apply opt_str_eqb_eq in Hp. congruence.
           ++ simpl in E. injection E as <- ->.
              exists pre, post. repeat split; auto.
              intros z Hz. apply Hpre. now right.
    + rewrite IH. split.
      * intros (pre & post & -> & Hn & Hp & Hpre).
        exists (x :: pre), post. repeat split; auto.
        intros y [<-|Hy] Hy1; [congruence | now apply Hpre].
      * intros ([|y pre] & post & E & Hn & Hp & Hpre).
        -- simpl in E. injection E as <- _. congruence.
        -- simpl in E. injection E as <- ->.
           exists pre, post. repeat split; auto.
           intros z Hz. apply Hpre. now right.
Qed.

Lemma find_doc_none (nm : string) (pid : option string) :
  _find_doc nm pid docs = None <-> nothing_named nm pid docs.
Proof.
  split; [|apply find_doc_nothing_named].
  rewrite find_doc_first_named. unfold first_named. intros H e Hin Hn Hp.
  pose proof (find_none _ _ H e Hin) as Hb. simpl in Hb.
  rewrite Hn, String.eqb_refl in Hb. simpl in Hb.
  assert (opt_str_eqb (parent_id e) pid = true) by now apply opt_str_eqb_eq.
  congruence.
Qed.

(** What an answer of [find_file] rests on. *)
Lemma find_file_inv (fuel : nat) (fn : Path.t) (w w' : world) (e : Entity) :
  find_file (S fuel) dev fn (Some docs) w = (Ok (Some e), w') ->
  w' = w /\
  exists pid,
    parent_id_resolved fuel dev docs w fn pid /\
    _find_doc (Path.name fn) pid docs = Some e.
Proof.
  intros H. pose proof (find_file_world _ _ _ _ _ _ _ H) as ->.
  split; [reflexivity |]. rewrite find_file_S in H.
  destruct (path_eqb_spec (Path.parent fn) Path.dot) as [E|N]; simpl in H.
  - injection H as H. exists None. split; [now left | exact H].
  - destruct (find_file fuel dev (Path.parent fn) (Some docs) w)
      as [[[p|]|x|] w1] eqn:E; try discriminate.
    pose proof (find_file_world _ _ _ _ _ _ _ E) as ->.
    injection H as H. exists (Some (id_ p)). split; [|exact H].
    right. split; [exact N |]. eauto.
Qed.

Lemma proper_ancestors_cons (fn q : Path.t) :
  In q (proper_ancestors fn) -> Path.root fn = "" ->
  Path.parent fn <> Path.dot /\ 2 <= List.length (Path.parts fn).
Proof.
  unfold proper_ancestors. intros H Hr.
  apply in_map_iff in H as (k & _ & Hk). apply in_seq in Hk.
  split; [|lia]. intros E.
  pose proof (parent_parts_length fn) as Hl. rewrite E in Hl. simpl in Hl.
  lia.
Qed.

(** A directory that does not resolve leaves the path unresolved. *)
Lemma find_file_none_above (fuel : nat) (fn q : Path.t) (w : world) :
  Path.root fn = "" -> List.length (Path.parts fn) < S fuel ->
  In q (proper_ancestors fn) ->
  find_file fuel dev q (Some docs) w = (Ok None, w) ->
  find_file fuel dev fn (Some docs) w = (Ok None, w).
Proof.
  revert fn. induction fuel as [|fuel IH]; intros fn Hr Hl Hq H.
  - simpl in H. unfold out_of_fuel in H. congruence.
  - destruct (proper_ancestors_cons _ _ Hq Hr) as [N H2].
    rewrite (proper_ancestors_parent _ Hr N) in Hq.
    pose proof (parent_parts_length fn) as Hpl.
    rewrite find_file_S.
    destruct (path_eqb_spec (Path.parent fn) Path.dot) as [E|_];
      [contradiction |]. simpl.
    assert (Hdown : forall p,
               List.length (Path.parts p) < S fuel ->
               find_file (S fuel) dev p (Some docs) w = (Ok None, w) ->
               find_file fuel dev p (Some docs) w = (Ok None, w)).
    { intros p Hp Hf. apply (find_file_fuel_any _ _ _ _ _ _ _ _ Hf); lia. }
    apply in_app_or in Hq as [Hq|[<-|[]]].
    + rewrite (IH (Path.parent fn)); auto.
      * now rewrite parent_root.
      * lia.
      * apply Hdown; [|exact H].
        unfold proper_ancestors in Hq.
        apply in_map_iff in Hq as (k & <- & Hk). apply in_seq in Hk.
        simpl. rewrite length_firstn. lia.
    + rewrite Hdown; [reflexivity | lia | exact H].
Qed.

Lemma splitroot_slash (s : string) :
  fst (Path.splitroot (String "/" s)) <> "".
Proof.
  destruct s as [|c [|d s]]; simpl; try discriminate;
    destruct (Ascii.eqb c "/"); try discriminate;
    destruct (Ascii.eqb d "/"); discriminate.
Qed.

Lemma of_string_slash (s : string) :
  Path.root (Path.of_string (String "/" s)) <> "".
Proof.
  pose proof (splitroot_slash s) as H. unfold Path.of_string.
  destruct (Path.splitroot (String "/" s)) as [r rel]. exact H.
Qed.

Lemma joinpath_rooted (p : Path.t) (s : string) :
  Path.root (Path.of_string s) <> "" ->
  Path.joinpath p s = Path.of_string s.
Proof.
  intros H. unfold Path.joinpath.
  destruct (String.eqb_spec (Path.root (Path.of_string s)) "");
    [contradiction | reflexivity].
Qed.

Lemma filename_slash (e : Entity) (s : string) :
  visible_name e = String "/" s -> Path.root (filename e) <> "".
Proof.
  destruct e as [[o i [p|] vn len ext pc pid raw]|[o i [p|] vn pid raw]];
    simpl; intros ->; unfold Document.filename; simpl.
  - rewrite joinpath_rooted; apply of_string_slash.
  - apply of_string_slash.
  - rewrite joinpath_rooted; apply of_string_slash.
  - apply of_string_slash.
Qed.

Lemma folder_filename_parts (F : Folder.t) :
  Forall (fun f => plain_segment (Folder.visible_name f) = true)
    (F :: folder_ancestors F) ->
  Folder.filename F
  = Path.mk "" (map Folder.visible_name (rev (folder_ancestors F))
                ++ [Folder.visible_name F]).
Proof.
  induction F as [o i vn pid raw|o i p vn pid raw IH] using folder_ind';
    intros H; inversion H as [|? ? Hp Hrest]; subst; simpl in *.
  - now apply of_string_plain.
  - rewrite (joinpath_plain _ _ Hp), (IH Hrest). simpl.
    now rewrite map_app.
Qed.

End ResolutionFacts.

(** X5.  [_find_doc] answers with the first entry of the list that has
    the name asked for (less one trailing ".pdf") and the parent
    identifier asked for, whatever comes behind it, and with none exactly
    when no entry has them. *)
Theorem find_doc_first_match (nm : string) (pid : option string)
    (docs : list Entity) :
  (forall e,
      _find_doc nm pid docs = Some e <->
      exists pre post,
        docs = pre ++ e :: post /\
        visible_name e = strip_pdf nm /\ parent_id e = pid /\
        nothing_named nm pid pre) /\
  (_find_doc nm pid docs = None <-> nothing_named nm pid docs).
Proof.
  split.
  - intros e. rewrite find_doc_first_named. apply first_named_split.
  - apply find_doc_none.
Qed.

Lemma find_doc_first_match_witness :
  _find_doc "N.pdf" None [EFolder folder_N; EDocument document_N]
  = Some (EFolder folder_N) /\
  _find_doc "M" None [EFolder folder_N; EDocument document_N] = None.
Proof.
  split.
  - apply (proj1 (find_doc_first_match "N.pdf" None
                    [EFolder folder_N; EDocument document_N])).
    exists [], [EDocument document_N].
    repeat split. intros e [].
  - apply (proj2 (find_doc_first_match "M" None
                    [EFolder folder_N; EDocument document_N])).
    intros e [<-|[<-|[]]] E; discriminate E.
Defined.

(** X6.  What [find_file] finds is an entry of the list given, named like
    the last part of the path (less one trailing ".pdf"), whose
    [parent_id] is none for a path of one part and else the identifier of
    what the directory of the path resolves to; and nothing was sent or
    constructed on the way. *)
Theorem find_file_sound (dev : Device) (docs : list Entity) (fuel : nat)
    (fn : Path.t) (w w' : world) (e : Entity) :
  find_file fuel dev fn (Some docs) w = (Ok (Some e), w') ->
  w' = w /\ In e docs /\
  visible_name e = strip_pdf (Path.name fn) /\
  parent_id_resolved fuel dev docs w fn (parent_id e).
Proof.
  intros H. destruct fuel as [|fuel].
  { simpl in H. unfold out_of_fuel in H. congruence. }
  destruct (find_file_inv _ _ _ _ _ _ _ H) as (-> & pid & P & F).
  rewrite find_doc_first_named in F.
  apply first_named_some in F as (Hin & Hn & Hp). subst pid.
  repeat split; auto.
  destruct P as [P|(N & p & Hp & E)]; [now left |].
  right. split; [exact N |]. exists p. split; [|exact E].
  now apply find_file_fuel_S.
Qed.

Lemma find_file_sound_witness :
  find_file 2 silent (Path.of_string "A/B.pdf") (Some docs_AB) w0
  = (Ok (Some (EDocument document_B)), w0) /\
  In (EDocument document_B) docs_AB /\
  visible_name (EDocument document_B)
  = strip_pdf (Path.name (Path.of_string "A/B.pdf")) /\
  parent_id_resolved 2 silent docs_AB w0 (Path.of_string "A/B.pdf")
    (parent_id (EDocument document_B)).
Proof.
  assert (H : find_file 2 silent (Path.of_string "A/B.pdf") (Some docs_AB) w0
              = (Ok (Some (EDocument document_B)), w0)) by reflexivity.
  split; [exact H |].
  exact (proj2 (find_file_sound silent docs_AB 2 (Path.of_string "A/B.pdf")
                  w0 w0 (EDocument document_B) H)).
Defined.

(** X7.  On a relative path and a given list [find_file] returns, after
    as many levels of recursion as the path has parts, without a request
    and without an exception; and it returns none whenever a directory
    above the path resolves to none. *)
Theorem find_file_relative_returns (dev : Device) (docs : list Entity)
    (fuel : nat) (fn : Path.t) (w : world) :
  Path.root fn = "" -> List.length (Path.parts fn) < S fuel -> 0 < fuel ->
  exists r,
    find_file fuel dev fn (Some docs) w = (Ok r, w) /\
    (forall q,
        In q (proper_ancestors fn) ->
        find_file fuel dev q (Some docs) w = (Ok None, w) -> r = None).
Proof.
  intros Hr Hl Hf.
  destruct (find_file_total dev docs fuel fn w Hr Hl Hf) as [r H].
  exists r. split; [exact H |]. intros q Hq Hn.
  pose proof (find_file_none_above dev docs _ _ _ w Hr Hl Hq Hn) as H'.
  congruence.
Qed.

Lemma find_file_relative_returns_witness :
  In (Path.of_string "Z") (proper_ancestors (Path.of_string "Z/B.pdf")) /\
  find_file 2 silent (Path.of_string "Z") (Some docs_AB) w0 = (Ok None, w0) /\
  find_file 2 silent (Path.of_string "Z/B.pdf") (Some docs_AB) w0
  = (Ok None, w0).
Proof.
  assert (I : In (Path.of_string "Z")
                (proper_ancestors (Path.of_string "Z/B.pdf")))
    by (now left).
  split; [exact I |]. split; [reflexivity |].
  destruct (find_file_relative_returns silent docs_AB 2
              (Path.of_string "Z/B.pdf") w0 eq_refl)
    as (r & H & Hn); [simpl; lia | lia |].
  rewrite H. now rewrite (Hn _ I eq_refl).
Defined.

(** X8.  A path with a root never reaches [Path(".")] by taking parents:
    for a path written with a leading slash, and for every rooted path,
    neither [find_file] nor [mkdir] returns or raises, whatever the depth
    of recursion allowed. *)
Theorem rooted_path_never_returns (dev : Device) (docs : list Entity)
    (fuel : nat) (exists_ok parents : bool) (w : world) :
  (forall s, Path.root (Path.of_string (String "/" s)) <> "") /\
  (forall fn,
      Path.root fn <> "" ->
      find_file fuel dev fn (Some docs) w = (OutOfFuel, w) /\
      mkdir fuel dev fn exists_ok parents (Some docs) w = (OutOfFuel, w)).
Proof.
  split; [apply of_string_slash |].
  intros fn H. split; [now apply find_file_rooted | now apply mkdir_rooted].
Qed.

Lemma rooted_path_never_returns_witness :
  Path.root (Path.of_string "/A/B.pdf") <> "" /\
  find_file 9 silent (Path.of_string "/A/B.pdf") (Some docs_AB) w0
  = (OutOfFuel, w0) /\
  mkdir 9 silent (Path.of_string "/A") true true (Some docs_AB) w0
  = (OutOfFuel, w0).
Proof.
  pose proof (rooted_path_never_returns silent docs_AB 9 true true w0)
    as [R T].
  split; [exact (R "A/B.pdf") |]. split.
  - exact (proj1 (T (Path.of_string "/A/B.pdf") (R "A/B.pdf"))).
  - exact (proj2 (T (Path.of_string "/A") (R "A"))).
Defined.

(* ===================================================================== *)
(** ** More on [mkdir] *)
(* ===================================================================== *)

Section MkdirFacts.

Variable dev : Device.
Variable docs : list Entity.

(** The ways the last step of [mkdir] ends. *)
Lemma mkdir_target_cases (fn : Path.t) (exists_ok : bool)
    (pid : option string) (w w' : world) (r : outcome Folder.t) :
  mkdir_target fn exists_ok pid docs w = (r, w') ->
  (w' = w /\
   ((exists F, r = Ok F /\ exists_ok = true /\
               _find_doc (Path.name fn) pid docs = Some (EFolder F)) \/
    r = Raise (RuntimeError "folder already exists") \/
    r = Raise (RuntimeError (collision_msg fn)))) \/
  (r = Raise (RuntimeError (not_implemented_msg fn)) /\
   w' = logged (RawMkdir fn) w).
Proof.
  unfold mkdir_target.
  destruct (_find_doc (Path.name fn) pid docs) as [[d|F]|];
    destruct exists_ok; simpl; unfold raise, ret, raw_mkdir, bind, emit;
    intros H; injection H as <- <-; eauto 8.
Qed.

Lemma not_implemented_not_other (q : Path.t) :
  not_implemented_msg q <> "folder already exists" /\
  not_implemented_msg q <> "parent does not exist" /\
  forall fn, not_implemented_msg q <> collision_msg fn.
Proof.
  unfold not_implemented_msg, collision_msg. simpl.
  repeat split; try discriminate; intros fn; discriminate.
Qed.

Lemma mkdir_returns (fuel : nat) (fn : Path.t) (exists_ok parents : bool)
    (w w' : world) (F : Folder.t) :
  mkdir fuel dev fn exists_ok parents (Some docs) w = (Ok F, w') ->
  exists_ok = true /\ w' = w /\
  find_file fuel dev fn (Some docs) w = (Ok (Some (EFolder F)), w).
Proof.
  revert fn exists_ok parents w' F.
  induction fuel as [|fuel IH]; intros fn e p w' F H.
  - simpl in H. unfold out_of_fuel in H. congruence.
  - rewrite mkdir_S in H. rewrite find_file_S.
    assert (T : forall pid,
               mkdir_target fn e pid docs w = (Ok F, w') ->
               e = true /\ w' = w /\
               _find_doc (Path.name fn) pid docs = Some (EFolder F)).
    { intros pid HT.
      destruct (mkdir_target_cases _ _ _ _ _ _ HT)
        as [[Hw [(G & E & He & Hf)|[E|E]]]|[E _]]; try discriminate.
      injection E as <-. auto. }
    destruct (negb (Path.eqb (Path.parent fn) Path.dot)).
    + destruct p.
      * destruct (mkdir fuel dev (Path.parent fn) true true (Some docs) w)
          as [[par|x|] w1] eqn:E; try discriminate.
        destruct (IH _ _ _ _ _ E) as (_ & -> & Hf). rewrite Hf. simpl.
        destruct (T _ H) as (-> & -> & ->). auto.
      * destruct (find_file fuel dev (Path.parent fn) (Some docs) w)
          as [[[par|]|x|] w1] eqn:E; try discriminate.
        pose proof (find_file_world _ _ _ _ _ _ _ E) as ->.
        destruct (T _ H) as (-> & -> & ->). auto.
    + destruct (T _ H) as (-> & -> & ->). auto.
Qed.

Lemma mkdir_world (fuel : nat) (fn : Path.t) (exists_ok parents : bool)
    (w w' : world) (r : outcome Folder.t) :
  mkdir fuel dev fn exists_ok parents (Some docs) w = (r, w') ->
  (w' = w /\ forall q, r <> Raise (RuntimeError (not_implemented_msg q))) \/
  (exists q,
      (q = fn \/ In q (proper_ancestors fn)) /\
      r = Raise (RuntimeError (not_implemented_msg q)) /\
      w' = logged (RawMkdir q) w).
Proof.
  revert fn exists_ok parents w' r.
  induction fuel as [|fuel IH]; intros fn e p w' r H.
  - simpl in H. unfold out_of_fuel in H. injection H as <- <-.
    left. split; [reflexivity | discriminate].
  - destruct (string_dec (Path.root fn) "") as [Hr|Hr].
    2:{ rewrite (mkdir_rooted _ _ _ _ _ _ _ Hr) in H. injection H as <- <-.
        left. split; [reflexivity | discriminate]. }
    assert (T : forall pid,
               mkdir_target fn e pid docs w = (r, w') ->
               (w' = w /\
                forall q, r <> Raise (RuntimeError (not_implemented_msg q))) \/
               (exists q,
                   (q = fn \/ In q (proper_ancestors fn)) /\
                   r = Raise (RuntimeError (not_implemented_msg q)) /\
                   w' = logged (RawMkdir q) w)).
    { intros pid HT.
      destruct (mkdir_target_cases _ _ _ _ _ _ HT)
        as [[Hw [(G & Hg & _)|[Hg|Hg]]]|[Hg Hw]]; subst w' r.
      - left. split; [reflexivity | discriminate].
      - left. split; [reflexivity |]. intros q E. injection E as E.
        symmetry in E. now apply (proj1 (not_implemented_not_other q)).
      - left. split; [reflexivity |]. intros q E. injection E as E.
        symmetry in E.
        now apply (proj2 (proj2 (not_implemented_not_other q)) fn).
      - right. exists fn. auto. }
    rewrite mkdir_S in H.
    destruct (path_eqb_spec (Path.parent fn) Path.dot) as [E|N]; simpl in H;
      [now apply (T None) |].
    destruct p.
    + destruct (mkdir fuel dev (Path.parent fn) true true (Some docs) w)
        as [[par|x|] w1] eqn:E.
      * destruct (mkdir_returns _ _ _ _ _ _ _ E) as (_ & -> & _).
        now apply (T (Some (Folder.id_ par))).
      * injection H as <- <-.
        destruct (IH _ _ _ _ _ E) as [[-> Hq]|(q & Hq & Hx & ->)].
        -- left. auto.
        -- right. exists q. split; [|auto]. right.
           rewrite (proper_ancestors_parent _ Hr N). apply in_or_app.
           destruct Hq as [->|Hq]; [right; now left | now left].
      * injection H as <- <-.
        destruct (IH _ _ _ _ _ E) as [[-> Hq]|(q & _ & Hx & _)];
          [|discriminate].
        left. split; [reflexivity | discriminate].
    + destruct (find_file fuel dev (Path.parent fn) (Some docs) w)
        as [[[par|]|x|] w1] eqn:E;
        pose proof (find_file_world _ _ _ _ _ _ _ E) as ->.
      * now apply (T (Some (id_ par))).
      * injection H as <- <-. left. split; [reflexivity |].
        intros q Eq. injection Eq as Eq. symmetry in Eq.
        now apply (proj1 (proj2 (not_implemented_not_other q))).
      * exfalso. exact (find_file_no_raise _ _ _ _ _ _ _ E).
      * injection H as <- <-. left. split; [reflexivity | discriminate].
Qed.

(** An error in a directory above comes out of the call for the path. *)
Lemma mkdir_raise_above (n : nat) :
  forall (fn q : Path.t) (k : nat) (exists_ok : bool) (w w1 : world)
         (x : exn),
    In q (proper_ancestors fn) ->
    n = List.length (Path.parts fn) - List.length (Path.parts q) ->
    mkdir k dev q true true (Some docs) w = (Raise x, w1) ->
    mkdir (k + n) dev fn exists_ok true (Some docs) w = (Raise x, w1).
Proof.
  induction n as [|n IH]; intros fn q k e w w1 x Hq En Hq1.
  - exfalso. unfold proper_ancestors in Hq.
    apply in_map_iff in Hq as (j & <- & Hj). apply in_seq in Hj.
    simpl in En. rewrite length_firstn in En. lia.
  - replace (k + S n) with (S (k + n)) by lia.
    rewrite mkdir_S.
    assert (Hps : exists l a, Path.parts fn = l ++ [a]).
    { destruct (exists_last (l := Path.parts fn)) as (l & a & E); [|eauto].
      intros E. unfold proper_ancestors in Hq. rewrite E in Hq.
      contradiction. }
    destruct Hps as (l & a & Eps).
    destruct fn as [r ps]. simpl in Eps. subst ps.
    rewrite parent_snoc.
    unfold proper_ancestors in Hq. simpl in Hq.
    apply in_map_iff in Hq as (j & <- & Hj). apply in_seq in Hj.
    rewrite length_app in Hj. simpl in Hj.
    simpl in En. rewrite length_firstn, length_app in En. simpl in En.
    assert (Hjl : j <= List.length l) by lia.
    rewrite firstn_app in *.
    replace (j - List.length l) with 0 in * by lia.
    rewrite firstn_O, app_nil_r in *.
    destruct (path_eqb_spec (Path.mk r l) Path.dot) as [E|_].
    { injection E as -> ->. simpl in Hj. lia. }
    simpl negb. cbv iota.
    destruct (Nat.eq_dec j (List.length l)) as [->|Hne].
    + rewrite firstn_all in *.
      replace n with 0 by lia. rewrite Nat.add_0_r, Hq1. reflexivity.
    + rewrite (IH (Path.mk r l) (Path.mk r (firstn j l)) k true w w1 x).
      * reflexivity.
      * unfold proper_ancestors. simpl. apply in_map_iff.
        exists j. split; [reflexivity |]. apply in_seq. lia.
      * simpl. rewrite length_firstn. lia.
      * exact Hq1.
Qed.

(** A directory that resolves to a document, below folders: [mkdir] with
    [parents] raises the collision error for it. *)
Lemma mkdir_document_chain (fuel : nat) (q : Path.t) (d : Document.t)
    (w : world) :
  find_file fuel dev q (Some docs) w = (Ok (Some (EDocument d)), w) ->
  ancestors_are_folders fuel dev docs w q ->
  mkdir fuel dev q true true (Some docs) w
  = (Raise (RuntimeError (collision_msg q)), w).
Proof.
  intros H A. destruct fuel as [|fuel].
  { simpl in H. unfold out_of_fuel in H. congruence. }
  pose proof (find_file_relative _ _ _ _ _ _ _ H) as Hr.
  pose proof (find_file_fuel_needed _ _ _ _ _ _ _ H) as [Hl _].
  destruct (find_file_inv _ _ _ _ _ _ _ H) as (_ & pid & P & F).
  rewrite (mkdir_reaches_target dev docs fuel q true true w pid P).
  - now apply mkdir_target_document with (d := d).
  - intros _. destruct P as [[E _]|(N & p & Hp & _)].
    + unfold ancestors_are_folders.
      rewrite (proper_ancestors_nil _ E Hr). constructor.
    + pose proof (find_file_fuel_needed _ _ _ _ _ _ _ Hp) as [_ Hf].
      apply ancestors_are_folders_fuel with (fuel' := S fuel);
        [lia | exact Hf | exact A].
Qed.

End MkdirFacts.

(** X9.  [mkdir] creates nothing: whenever it returns a folder,
    [exists_ok] was set, the folder is the one [find_file] resolves the
    path to in the list given, and nothing was sent, no raw [mkdir] was
    entered and no object was constructed.  In particular [mkdir] with
    [exists_ok=False] never returns. *)
Theorem mkdir_returns_existing (dev : Device) (docs : list Entity)
    (fuel : nat) (fn : Path.t) (exists_ok parents : bool) (w w' : world)
    (F : Folder.t) :
  mkdir fuel dev fn exists_ok parents (Some docs) w = (Ok F, w') ->
  exists_ok = true /\ w' = w /\ In (EFolder F) docs /\
  find_file fuel dev fn (Some docs) w = (Ok (Some (EFolder F)), w).
Proof.
  intros H. destruct (mkdir_returns _ _ _ _ _ _ _ _ _ H) as (He & Hw & Hf).
  repeat split; auto.
  destruct (find_file_answer _ _ _ _ _ _ _ Hf) as [pid Hd].
  rewrite find_doc_first_named in Hd.
  now apply first_named_some in Hd as [Hin _].
Qed.

Lemma mkdir_returns_existing_witness :
  mkdir 2 silent (Path.of_string "A/C") true false (Some docs_ABC) w0
  = (Ok folder_C, w0) /\
  In (EFolder folder_C) docs_ABC /\
  find_file 2 silent (Path.of_string "A/C") (Some docs_ABC) w0
  = (Ok (Some (EFolder folder_C)), w0).
Proof.
  assert (H : mkdir 2 silent (Path.of_string "A/C") true false
                (Some docs_ABC) w0 = (Ok folder_C, w0)) by reflexivity.
  split; [exact H |].
  exact (proj2 (proj2 (mkdir_returns_existing silent docs_ABC 2
                         (Path.of_string "A/C") true false w0 w0 folder_C H))).
Defined.

(** X10.  On a given list [mkdir] touches the world in one way only: it
    enters the raw [mkdir] at most once, for the path or for a directory
    above it, and exactly then the "not implemented" error for that path
    comes out; in every other case the world is as before. *)
Theorem mkdir_effect (dev : Device) (docs : list Entity) (fuel : nat)
    (fn : Path.t) (exists_ok parents : bool) (w w' : world)
    (r : outcome Folder.t) :
  mkdir fuel dev fn exists_ok parents (Some docs) w = (r, w') ->
  (w' = w /\ forall q, r <> Raise (RuntimeError (not_implemented_msg q))) \/
  (exists q,
      (q = fn \/ In q (proper_ancestors fn)) /\
      r = Raise (RuntimeError (not_implemented_msg q)) /\
      w' = logged (RawMkdir q) w).
Proof. apply mkdir_world. Qed.

Lemma mkdir_effect_witness :
  mkdir 3 silent (Path.of_string "A/Z/Q") true true (Some docs_AB) w0
  = (Raise (RuntimeError (not_implemented_msg (Path.of_string "A/Z"))),
     logged (RawMkdir (Path.of_string "A/Z")) w0) /\
  ((logged (RawMkdir (Path.of_string "A/Z")) w0 = w0 /\
    forall q,
      Raise (RuntimeError (not_implemented_msg (Path.of_string "A/Z")))
      <> @Raise Folder.t (RuntimeError (not_implemented_msg q))) \/
   (exists q,
       (q = Path.of_string "A/Z/Q"
        \/ In q (proper_ancestors (Path.of_string "A/Z/Q"))) /\
       @Raise Folder.t
         (RuntimeError (not_implemented_msg (Path.of_string "A/Z")))
       = Raise (RuntimeError (not_implemented_msg q)) /\
       logged (RawMkdir (Path.of_string "A/Z")) w0
       = logged (RawMkdir q) w0)).
Proof.
  assert (H : mkdir 3 silent (Path.of_string "A/Z/Q") true true
                (Some docs_AB) w0
              = (Raise (RuntimeError
                          (not_implemented_msg (Path.of_string "A/Z"))),
                 logged (RawMkdir (Path.of_string "A/Z")) w0))
    by reflexivity.
  split; [exact H |].
  exact (mkdir_effect silent docs_AB 3 (Path.of_string "A/Z/Q") true true
           w0 _ _ H).
Defined.

(** X11.  What [mkdir] raises for a directory that is not a folder.
    With [parents=False], a directory that does not resolve gives "parent
    does not exist".  With [parents=True], a directory [q] that resolves
    to a document, below directories that are folders, gives the
    collision error for [q].  Nothing is sent in either case. *)
Theorem mkdir_directory_errors (dev : Device) (docs : list Entity)
    (fuel : nat) (fn : Path.t) (exists_ok : bool) (w : world) :
  (Path.parent fn <> Path.dot ->
   find_file fuel dev (Path.parent fn) (Some docs) w = (Ok None, w) ->
   mkdir (S fuel) dev fn exists_ok false (Some docs) w
   = (Raise (RuntimeError "parent does not exist"), w)) /\
  (forall q d,
      In q (proper_ancestors fn) ->
      find_file fuel dev q (Some docs) w = (Ok (Some (EDocument d)), w) ->
      ancestors_are_folders fuel dev docs w q ->
      mkdir (fuel + (List.length (Path.parts fn)
                     - List.length (Path.parts q)))
        dev fn exists_ok true (Some docs) w
      = (Raise (RuntimeError (collision_msg q)), w)).
Proof.
  split.
  - intros N H. rewrite mkdir_S.
    destruct (path_eqb_spec (Path.parent fn) Path.dot) as [E|_];
      [contradiction |]. simpl. now rewrite H.
  - intros q d Hq H A.
    apply (mkdir_raise_above dev docs _ fn q fuel exists_ok w w _ Hq eq_refl).
    exact (mkdir_document_chain _ _ _ _ _ _ H A).
Qed.

Lemma mkdir_directory_errors_witness :
  (Path.parent (Path.of_string "Z/Q") <> Path.dot /\
   find_file 1 silent (Path.parent (Path.of_string "Z/Q")) (Some docs_AB) w0
   = (Ok None, w0) /\
   mkdir 2 silent (Path.of_string "Z/Q") true false (Some docs_AB) w0
   = (Raise (RuntimeError "parent does not exist"), w0)) /\
  (In (Path.of_string "A/B") (proper_ancestors (Path.of_string "A/B/C")) /\
   find_file 2 silent (Path.of_string "A/B") (Some docs_AB) w0
   = (Ok (Some (EDocument document_B)), w0) /\
   ancestors_are_folders 2 silent docs_AB w0 (Path.of_string "A/B") /\
   mkdir 3 silent (Path.of_string "A/B/C") true true (Some docs_AB) w0
   = (Raise (RuntimeError (collision_msg (Path.of_string "A/B"))), w0)).
Proof.
  assert (N : Path.parent (Path.of_string "Z/Q") <> Path.dot) by discriminate.
  assert (I : In (Path.of_string "A/B")
                (proper_ancestors (Path.of_string "A/B/C")))
    by (right; now left).
  assert (A : ancestors_are_folders 2 silent docs_AB w0 (Path.of_string "A/B")).
  { unfold ancestors_are_folders. simpl. constructor; [|constructor].
    exists folder_A. reflexivity. }
  split.
  - split; [exact N |]. split; [reflexivity |].
    exact (proj1 (mkdir_directory_errors silent docs_AB 1
                    (Path.of_string "Z/Q") true w0) N eq_refl).
  - split; [exact I |]. split; [reflexivity |]. split; [exact A |].
    exact (proj2 (mkdir_directory_errors silent docs_AB 2
                    (Path.of_string "A/B/C") true w0)
             (Path.of_string "A/B") document_B I eq_refl A).
Defined.

(* ===================================================================== *)
(** ** The paths [filename] builds *)
(* ===================================================================== *)

(** X12.  When the display names of an entity's folders and its own last
    part are each one part of a path, [filename] is the relative path
    made of the display names of the folders, outermost first, and then
    the entity's display name, for a document in a folder with "." and
    its extension behind it. *)
Theorem filename_parts (e : Entity) :
  Forall (fun f => plain_segment (Folder.visible_name f) = true)
    (ancestors e) ->
  plain_segment (last_part e) = true ->
  filename e
  = Path.mk "" (map Folder.visible_name (rev (ancestors e)) ++ [last_part e]).
Proof.
  intros HA HL.
  destruct e as [[o i [p|] vn len ext pc pid raw]|F]; simpl in *.
  - unfold Document.filename. simpl.
    rewrite (joinpath_plain _ _ HL), (folder_filename_parts p HA). simpl.
    rewrite map_app. reflexivity.
  - now apply of_string_plain.
  - unfold ancestors in *. simpl folder in *.
    rewrite <- folder_ancestors_chain in *.
    apply folder_filename_parts. now constructor.
Qed.

Lemma filename_parts_witness :
  Forall (fun f => plain_segment (Folder.visible_name f) = true)
    (ancestors (EDocument document_B)) /\
  plain_segment (last_part (EDocument document_B)) = true /\
  filename (EDocument document_B) = Path.mk "" ["A"; "B.pdf"].
Proof.
  assert (HA : Forall (fun f => plain_segment (Folder.visible_name f) = true)
                 (ancestors (EDocument document_B))).
  { constructor; [reflexivity | constructor]. }
  split; [exact HA |]. split; [reflexivity |].
  exact (filename_parts (EDocument document_B) HA eq_refl).
Defined.

(** X13.  A display name that begins with a slash makes [filename] a
    rooted path, in which the folders of the entity do not appear; and
    [find_file] never returns on that path, so the entity cannot be found
    by its own [filename]. *)
Theorem filename_leading_slash (e : Entity) (s : string) :
  visible_name e = String "/" s ->
  Path.root (filename e) <> "" /\
  filename e = Path.of_string (last_part e) /\
  forall dev docs fuel w,
    find_file fuel dev (filename e) (Some docs) w = (OutOfFuel, w).
Proof.
  intros H. pose proof (filename_slash e s H) as R.
  split; [exact R |]. split.
  - destruct e as [[o i [p|] vn len ext pc pid raw]|[o i [p|] vn pid raw]];
      simpl in *; subst; unfold Document.filename; simpl;
      try reflexivity; apply joinpath_rooted, of_string_slash.
  - intros dev docs fuel w. now apply find_file_rooted.
Qed.

Lemma filename_leading_slash_witness :
  visible_name (EFolder folder_slash) = "/etc" /\
  filename (EFolder folder_slash) = Path.mk "/" ["etc"] /\
  find_file 9 silent (filename (EFolder folder_slash))
    (Some [EFolder folder_A; EFolder folder_slash]) w0
  = (OutOfFuel, w0).
Proof.
  destruct (filename_leading_slash (EFolder folder_slash) "etc" eq_refl)
    as (_ & _ & T).
  split; [reflexivity |]. split; [reflexivity |].
  exact (T silent [EFolder folder_A; EFolder folder_slash] 9 w0).
Defined.

(* ===================================================================== *)
(** ** Fetching the list on demand *)
(* ===================================================================== *)

Lemma find_file_any_world (dev : Device) (docs : list Entity) (fuel : nat) :
  forall (fn : Path.t) (w w2 : world) (r : outcome (option Entity)),
    find_file fuel dev fn (Some docs) w = (r, w) ->
    find_file fuel dev fn (Some docs) w2 = (r, w2).
Proof.
  induction fuel as [|fuel IH]; intros fn w w2 r H.
  - simpl in *. unfold out_of_fuel in *. congruence.
  - rewrite find_file_S in *.
    destruct (negb (Path.eqb (Path.parent fn) Path.dot)); [|congruence].
    destruct (find_file fuel dev (Path.parent fn) (Some docs) w)
      as [o w1] eqn:E.
    pose proof (find_file_world _ _ _ _ _ _ _ E) as ->.
    rewrite (IH _ _ w2 _ E). destruct o as [[p|]|x|]; congruence.
Qed.

(** X14.  With [docs=None] the only requests of [find_file] and
    [has_file] are those of one recursive listing from the root: when
    that listing returns [docs] and leaves the world [w1], the call ends
    in [w1] with the answer it gives on [docs], and the walk along the
    path fetches nothing more; [mkdir] goes on from [w1] as on [docs].
    When the listing raises, all three raise the same error. *)
Theorem fetch_once (dev : Device) (fuel : nat) (fn : Path.t)
    (exists_ok parents : bool) (w : world) :
  (forall docs w1,
      get_documents fuel dev None 3 true None w = (Ok docs, w1) ->
      (forall r w',
          find_file (S fuel) dev fn None w = (r, w') ->
          w' = w1 /\ find_file (S fuel) dev fn (Some docs) w = (r, w)) /\
      (forall b w',
          has_file (S fuel) dev fn None w = (b, w') ->
          w' = w1 /\ has_file (S fuel) dev fn (Some docs) w = (b, w)) /\
      mkdir (S fuel) dev fn exists_ok parents None w
      = mkdir (S fuel) dev fn exists_ok parents (Some docs) w1) /\
  (forall x w1,
      get_documents fuel dev None 3 true None w = (Raise x, w1) ->
      find_file (S fuel) dev fn None w = (Raise x, w1) /\
      has_file (S fuel) dev fn None w = (Raise x, w1) /\
      mkdir (S fuel) dev fn exists_ok parents None w = (Raise x, w1)).
Proof.
  split.
  - intros docs w1 H.
    assert (F : find_file (S fuel) dev fn None w
                = find_file (S fuel) dev fn (Some docs) w1)
      by (simpl; unfold bind; simpl; now rewrite H).
    assert (T : forall r w',
               find_file (S fuel) dev fn None w = (r, w') ->
               w' = w1 /\ find_file (S fuel) dev fn (Some docs) w = (r, w)).
    { intros r w' E. rewrite F in E.
      pose proof (find_file_world _ _ _ _ _ _ _ E) as ->.
      split; [reflexivity |]. exact (find_file_any_world _ _ _ _ _ w _ E). }
    split; [exact T |]. split.
    + intros b w' E. unfold has_file, bind in *.
      destruct (find_file (S fuel) dev fn None w) as [o w2] eqn:E2.
      destruct (T o w2 eq_refl) as [-> ->].
      destruct o as [r|x|]; injection E as <- <-; auto.
    + simpl. unfold bind. simpl. now rewrite H.
  - intros x w1 H. unfold has_file. simpl. unfold bind. simpl.
    rewrite H. repeat split; reflexivity.
Qed.

Lemma fetch_once_witness :
  get_documents 2 tablet_AB None 3 true None w0
  = (Ok docs_AB, mkWorld 2 [PostDocuments ""; PostDocuments "1"]) /\
  find_file 3 tablet_AB (Path.of_string "A/B.pdf") None w0
  = (Ok (Some (EDocument document_B)),
     mkWorld 2 [PostDocuments ""; PostDocuments "1"]) /\
  find_file 3 tablet_AB (Path.of_string "A/B.pdf") (Some docs_AB) w0
  = (Ok (Some (EDocument document_B)), w0) /\
  silent 0 (url_id None) = NotOk /\
  exists w1, has_file 3 silent (Path.of_string "A/B.pdf") None w0
             = (Raise AssertionError, w1).
Proof.
  pose proof (fetch_once tablet_AB 2 (Path.of_string "A/B.pdf") true true w0)
    as [T _].
  pose proof (fetch_once silent 2 (Path.of_string "A/B.pdf") true true w0)
    as [_ F].
  split; [reflexivity |]. split; [reflexivity |]. split.
  - destruct (T docs_AB (mkWorld 2 [PostDocuments ""; PostDocuments "1"])
                eq_refl) as [H _].
    exact (proj2 (H _ _ eq_refl)).
  - split; [reflexivity |].
    destruct (get_documents 2 silent None 3 true None w0) as [r w1] eqn:E.
    assert (r = Raise AssertionError) as ->
      by (vm_compute in E; now inversion E).
    exists w1. exact (proj1 (proj2 (F AssertionError w1 eq_refl))).
Defined.

(* ===================================================================== *)
(** ** Uploading *)
(* ===================================================================== *)

Section Upload.

Variable dev : Device.
Variable disc : Disc.
Variable accepts : Uploads.

Lemma lift_grows {A} (c : M A) (s : io_world) (r : outcome A) (w : world)
    (evs : list event) :
  c (lib_world s) = (r, w) -> trace w = trace (lib_world s) ++ evs ->
  lift c s
  = (io_of r, mkIO (next_oid w) (io_trace s ++ map FromLibrary evs)).
Proof.
  intros H T. unfold lift. rewrite H, T, skipn_app, skipn_all, Nat.sub_diag.
  simpl. now destruct r.
Qed.

Lemma lift_pure {A} (c : M A) (s : io_world) (a : A) :
  c (lib_world s) = (Ok a, lib_world s) -> lift c s = (IoOk a, s).
Proof.
  intros H. rewrite (lift_grows c s _ _ [] H) by now rewrite app_nil_r.
  destruct s. simpl. now rewrite app_nil_r.
Qed.

Lemma lift_trace {A} (c : M A) (s s' : io_world) (r : io_outcome A) :
  lift c s = (r, s') ->
  exists evs, io_trace s' = io_trace s ++ map FromLibrary evs.
Proof.
  unfold lift. destruct (c (lib_world s)) as [[a|x|] w];
    intros H; injection H as _ <-; simpl; eexists; reflexivity.
Qed.

Lemma lift_raises {A} (c : M A) (s : io_world) (x : exn) (w : world) :
  c (lib_world s) = (Raise x, w) ->
  lift c s
  = (IoRaise (LibraryError x),
     mkIO (next_oid w)
       (io_trace s
        ++ map FromLibrary
             (skipn (List.length (trace (lib_world s))) (trace w)))) /\
  exists evs,
    io_trace
      (mkIO (next_oid w)
         (io_trace s
          ++ map FromLibrary
               (skipn (List.length (trace (lib_world s))) (trace w))))
    = io_trace s ++ map FromLibrary evs.
Proof.
  intros H. unfold lift. rewrite H. split; [reflexivity |]. simpl. eauto.
Qed.

Lemma no_upload_from_library (l : list event) (n c : string) :
  ~ In (PostUpload n c) (map FromLibrary l).
Proof. intros H. apply in_map_iff in H as (e & E & _). discriminate. Qed.

Lemma assert_pdf_ok (fn_disc fn_rm : Path.t) (s : io_world) :
  path_suffix fn_disc = ".pdf" -> path_suffix fn_rm = ".pdf" ->
  assert_pdf fn_disc fn_rm s = (IoOk tt, s).
Proof. intros H1 H2. unfold assert_pdf. now rewrite H1, H2. Qed.

Lemma assert_pdf_cases (fn_disc fn_rm : Path.t) (s : io_world) :
  (path_suffix fn_disc = ".pdf" /\ path_suffix fn_rm = ".pdf" /\
   assert_pdf fn_disc fn_rm s = (IoOk tt, s)) \/
  ((path_suffix fn_disc <> ".pdf" \/ path_suffix fn_rm <> ".pdf") /\
   assert_pdf fn_disc fn_rm s = (IoRaise (LibraryError AssertionError), s)).
Proof.
  unfold assert_pdf.
  destruct (String.eqb_spec (path_suffix fn_disc) ".pdf") as [E1|N1]; simpl.
  - destruct (String.eqb_spec (path_suffix fn_rm) ".pdf") as [E2|N2]; simpl;
      auto.
  - auto.
Qed.

(** The raw upload, once the names are checked, when the tablet lists
    the folder after refusing [k] requests. *)
Lemma raw_upload_after (fn_disc fn_rm : Path.t) (tid : option string)
    (s : io_world) (k : nat) (documents : list RMApiDocument)
    (content : string) :
  path_suffix fn_disc = ".pdf" -> path_suffix fn_rm = ".pdf" ->
  k <= 3 ->
  (forall j, j < k ->
             dev (List.length (trace (lib_world s)) + j) (url_id tid)
             = NotOk) ->
  dev (List.length (trace (lib_world s)) + k) (url_id tid)
  = Records documents ->
  forallb structured documents = true ->
  disc fn_disc = Some content ->
  raw_upload_document_as_file dev disc accepts fn_disc fn_rm tid s
  = (if accepts (Path.name fn_rm) content then IoOk tt
     else IoRaise (LibraryError
                     (RuntimeError (upload_error_msg fn_disc fn_rm))),
     mkIO (io_next_oid s)
       (io_trace s
        ++ map FromLibrary (repeat (PostDocuments (url_id tid)) (S k))
        ++ [PostUpload (Path.name fn_rm) content])).
Proof.
  intros H1 H2 Hk Hno D V C. unfold raw_upload_document_as_file, io_bind.
  rewrite (assert_pdf_ok _ _ _ H1 H2).
  assert (R : read_folder dev tid 3 (lib_world s)
              = (Ok documents, asked (url_id tid) (S k) (lib_world s))).
  { unfold read_folder. change (Z.to_nat 3) with 3.
    rewrite (read_folder_try_retry dev _ k _ _ Hk Hno).
    rewrite read_folder_try_ok with (documents := documents).
    - now rewrite <- asked_snoc.
    - now rewrite asked_length.
    - exact V. }
  rewrite (lift_grows _ s _ _ _ R eq_refl). cbn [io_of].
  rewrite C. unfold io_emit. cbn [io_next_oid io_trace next_oid asked lib_world].
  rewrite <- app_assoc.
  destruct (accepts (Path.name fn_rm) content); reflexivity.
Qed.

(** The same when the tablet lists the folder at once. *)
Lemma raw_upload_ok (fn_disc fn_rm : Path.t) (tid : option string)
    (s : io_world) (documents : list RMApiDocument) (content : string) :
  path_suffix fn_disc = ".pdf" -> path_suffix fn_rm = ".pdf" ->
  dev (List.length (trace (lib_world s))) (url_id tid) = Records documents ->
  forallb structured documents = true ->
  disc fn_disc = Some content ->
  raw_upload_document_as_file dev disc accepts fn_disc fn_rm tid s
  = (if accepts (Path.name fn_rm) content then IoOk tt
     else IoRaise (LibraryError
                     (RuntimeError (upload_error_msg fn_disc fn_rm))),
     mkIO (io_next_oid s)
       (io_trace s ++ [FromLibrary (PostDocuments (url_id tid));
                       PostUpload (Path.name fn_rm) content])).
Proof.
  intros H1 H2 D V C. rewrite <- (Nat.add_0_r (List.length _)) in D.
  exact (raw_upload_after _ _ _ _ 0 documents content H1 H2 (Nat.le_0_l 3)
           (fun j Hj => False_ind _ (Nat.nlt_0_r j Hj)) D V C).
Qed.

Lemma raw_upload_spec (fn_disc fn_rm : Path.t) (tid : option string)
    (s s' : io_world) (r : io_outcome unit) :
  raw_upload_document_as_file dev disc accepts fn_disc fn_rm tid s = (r, s') ->
  exists evs,
    io_trace s' = io_trace s ++ evs /\
    ((forall n c, ~ In (PostUpload n c) evs) \/
     (exists content k documents,
         disc fn_disc = Some content /\ k <= 3 /\
         dev (List.length (trace (lib_world s)) + k) (url_id tid)
         = Records documents /\
         forallb structured documents = true /\
         evs = map FromLibrary (repeat (PostDocuments (url_id tid)) (S k))
               ++ [PostUpload (Path.name fn_rm) content])).
Proof.
  destruct (assert_pdf_cases fn_disc fn_rm s) as [(H1 & H2 & A)|[_ A]].
  - destruct (read_folder dev tid 3 (lib_world s)) as [[documents|x|] w] eqn:R.
    + apply read_folder_inv in R as (k & Hk & Hno & D & V & ->).
      destruct (disc fn_disc) as [content|] eqn:C.
      * rewrite (raw_upload_after _ _ _ _ k _ _ H1 H2 Hk Hno D V C).
        intros H. injection H as _ <-. simpl io_trace.
        eexists. split; [reflexivity |].
        right. exists content, k, documents. auto 6.
      * unfold raw_upload_document_as_file, io_bind. rewrite A.
        destruct (lift (read_folder dev tid 3) s) as [[a|x|] s1] eqn:E;
          destruct (lift_trace _ _ _ _ E) as [evs T];
          [rewrite C; unfold io_raise | |];
          intros H; injection H as _ <-;
          (exists (map FromLibrary evs); split; [exact T |]);
          left; intros n c; apply no_upload_from_library.
    + unfold raw_upload_document_as_file, io_bind. rewrite A.
      rewrite (proj1 (lift_raises _ _ _ _ R)).
      intros H. injection H as _ <-.
      destruct (proj2 (lift_raises _ _ _ _ R)) as [evs T].
      exists (map FromLibrary evs). split; [exact T |].
      left. intros n c. apply no_upload_from_library.
    + exfalso. exact (read_folder_no_fuel _ _ _ _ _ R).
  - unfold raw_upload_document_as_file, io_bind. rewrite A.
    intros H. injection H as _ <-. exists []. rewrite app_nil_r.
    split; [reflexivity |]. left. intros n c [].
Qed.

End Upload.

(** X15.  An upload is refused before anything is sent, listing
    included, unless the local and the remote file name both have the
    suffix ".pdf": the call raises [AssertionError] and the world is as
    before. *)
Theorem upload_requires_pdf (dev : Device) (disc : Disc) (accepts : Uploads)
    (fuel : nat) (fn_disc fn_rm : Path.t) (docs : option (list Entity))
    (s : io_world) :
  path_suffix fn_disc <> ".pdf" \/ path_suffix fn_rm <> ".pdf" ->
  upload_document_as_file fuel dev disc accepts fn_disc fn_rm docs s
  = (IoRaise (LibraryError AssertionError), s).
Proof.
  intros H. unfold upload_document_as_file, io_bind.
  destruct (assert_pdf_cases fn_disc fn_rm s) as [(H1 & H2 & _)|[_ A]].
  - destruct H; contradiction.
  - now rewrite A.
Qed.

Lemma upload_requires_pdf_witness :
  path_suffix (Path.of_string "notes.txt") <> ".pdf" /\
  upload_document_as_file 3 tablet_AB disc_paper takes_all
    (Path.of_string "in/A/paper.pdf") (Path.of_string "notes.txt") None s0
  = (IoRaise (LibraryError AssertionError), s0).
Proof.
  assert (H : path_suffix (Path.of_string "notes.txt") <> ".pdf")
    by discriminate.
  split; [exact H |].
  exact (upload_requires_pdf tablet_AB disc_paper takes_all 3
           (Path.of_string "in/A/paper.pdf") (Path.of_string "notes.txt")
           None s0 (or_intror H)).
Defined.

(** X16.  An upload into an existing folder.  When both names end in
    ".pdf", the directory of the remote name is [Path(".")] or resolves
    through folders to a folder of the list, the tablet lists that folder
    at once, with records cattrs structures, and the local file can be
    read, the call sends the listing request
    for the folder and then one upload under the last part of the remote
    name; it returns if the tablet accepts the upload and raises the
    "error uploading" error if not, without a second attempt. *)
Theorem upload_into_folder (dev : Device) (disc : Disc) (accepts : Uploads)
    (fuel : nat) (fn_disc fn_rm : Path.t) (docs : list Entity)
    (s : io_world) (tid : option string)
    (documents : list RMApiDocument) (content : string) :
  path_suffix fn_disc = ".pdf" -> path_suffix fn_rm = ".pdf" ->
  parent_id_resolved fuel dev docs (lib_world s) fn_rm tid ->
  ancestors_are_folders fuel dev docs (lib_world s) fn_rm ->
  dev (List.length (trace (lib_world s))) (url_id tid) = Records documents ->
  forallb structured documents = true ->
  disc fn_disc = Some content ->
  upload_document_as_file fuel dev disc accepts fn_disc fn_rm (Some docs) s
  = (if accepts (Path.name fn_rm) content then IoOk tt
     else IoRaise (LibraryError
                     (RuntimeError (upload_error_msg fn_disc fn_rm))),
     mkIO (io_next_oid s)
       (io_trace s ++ [FromLibrary (PostDocuments (url_id tid));
                       PostUpload (Path.name fn_rm) content])).
Proof.
  intros H1 H2 P A D V C. unfold upload_document_as_file, io_bind.
  rewrite (assert_pdf_ok _ _ _ H1 H2).
  rewrite (lift_pure (docs_or_fetch fuel dev (Some docs)) s docs eq_refl).
  destruct P as [[E ->]|(N & p & Hp & ->)].
  - rewrite E. destruct (path_eqb_spec Path.dot Path.dot) as [_|X];
      [|now contradiction X]. simpl.
    now apply raw_upload_ok with (documents := documents).
  - destruct (path_eqb_spec (Path.parent fn_rm) Path.dot) as [E|_];
      [contradiction |]. simpl.
    pose proof (find_file_relative _ _ _ _ _ _ _ Hp) as Hr.
    rewrite parent_root in Hr.
    destruct (ancestors_are_folders_parent _ _ _ _ _ Hr N A) as [A' [G HG]].
    assert (p = EFolder G) as -> by congruence.
    rewrite (lift_pure _ s G (mkdir_existing_chain _ _ _ _ _ _ HG A')).
    now apply raw_upload_ok with (documents := documents).
Qed.

Lemma upload_into_folder_witness :
  path_suffix (Path.of_string "in/A/paper.pdf") = ".pdf" /\
  path_suffix (Path.of_string "A/paper.pdf") = ".pdf" /\
  parent_id_resolved 2 tablet_AB docs_AB (lib_world s0)
    (Path.of_string "A/paper.pdf") (Some "1") /\
  ancestors_are_folders 2 tablet_AB docs_AB (lib_world s0)
    (Path.of_string "A/paper.pdf") /\
  upload_document_as_file 2 tablet_AB disc_paper takes_all
    (Path.of_string "in/A/paper.pdf") (Path.of_string "A/paper.pdf")
    (Some docs_AB) s0
  = (IoOk tt,
     mkIO 0 [FromLibrary (PostDocuments "1"); PostUpload "paper.pdf" "%PDF"]).
Proof.
  assert (P : parent_id_resolved 2 tablet_AB docs_AB (lib_world s0)
                (Path.of_string "A/paper.pdf") (Some "1")).
  { right. split; [discriminate |]. exists (EFolder folder_A).
    split; reflexivity. }
  assert (A : ancestors_are_folders 2 tablet_AB docs_AB (lib_world s0)
                (Path.of_string "A/paper.pdf")).
  { unfold ancestors_are_folders. simpl. constructor; [|constructor].
    exists folder_A. reflexivity. }
  split; [reflexivity |]. split; [reflexivity |].
  split; [exact P |]. split; [exact A |].
  exact (upload_into_folder tablet_AB disc_paper takes_all 2
           (Path.of_string "in/A/paper.pdf") (Path.of_string "A/paper.pdf")
           docs_AB s0 (Some "1") [raw_document "2" "B" "1" "10"] "%PDF"
           eq_refl eq_refl P A eq_refl eq_refl eq_refl).
Defined.

(** X17.  An upload sends at most one file, and only into a folder
    that exists.  If a file is sent at all, the local file was read and
    the directory of the remote name is [Path(".")] or a folder of the
    list that [find_file] resolves it to; the tablet has listed that
    folder just before, with records cattrs structures, after refusing
    the request three times at most, and between the listing and the
    upload nothing happens.  In every other case, a missing folder
    included, nothing is uploaded. *)
Theorem upload_sends_into_existing (dev : Device) (disc : Disc)
    (accepts : Uploads) (fuel : nat) (fn_disc fn_rm : Path.t)
    (docs : list Entity) (s s' : io_world) (r : io_outcome unit) :
  upload_document_as_file fuel dev disc accepts fn_disc fn_rm (Some docs) s
  = (r, s') ->
  exists evs,
    io_trace s' = io_trace s ++ evs /\
    ((forall n c, ~ In (PostUpload n c) evs) \/
     (exists content tid k documents,
         disc fn_disc = Some content /\ k <= 3 /\
         dev (List.length (trace (lib_world s)) + k) (url_id tid)
         = Records documents /\
         forallb structured documents = true /\
         evs = map FromLibrary (repeat (PostDocuments (url_id tid)) (S k))
               ++ [PostUpload (Path.name fn_rm) content] /\
         ((Path.parent fn_rm = Path.dot /\ tid = None) \/
          (Path.parent fn_rm <> Path.dot /\
           exists F,
             tid = Some (Folder.id_ F) /\ In (EFolder F) docs /\
             find_file fuel dev (Path.parent fn_rm) (Some docs) (lib_world s)
             = (Ok (Some (EFolder F)), lib_world s))))).
Proof.
  unfold upload_document_as_file, io_bind.
  destruct (assert_pdf_cases fn_disc fn_rm s) as [(H1 & H2 & A)|[_ A]];
    rewrite A.
  2:{ intros H. injection H as _ <-. exists []. rewrite app_nil_r.
      split; [reflexivity |]. left. intros n c []. }
  rewrite (lift_pure (docs_or_fetch fuel dev (Some docs)) s docs eq_refl).
  destruct (path_eqb_spec (Path.parent fn_rm) Path.dot) as [E|N]; simpl.
  - intros H.
    apply raw_upload_spec in H
      as (evs & T & [Hn|(c & k & documents & C & Hk & D & V & ->)]).
    + exists evs. auto.
    + eexists. split; [exact T |]. right.
      exists c, None, k, documents. auto 8.
  - destruct (mkdir fuel dev (Path.parent fn_rm) true true (Some docs)
                (lib_world s)) as [[F|x|] w1] eqn:M.
    + destruct (mkdir_returns _ _ _ _ _ _ _ _ _ M) as (_ & -> & Hf).
      rewrite (lift_pure _ s F M). unfold io_ret. intros H.
      apply raw_upload_spec in H
        as (evs & T & [Hn|(c & k & documents & C & Hk & D & V & ->)]).
      * exists evs. auto.
      * eexists. split; [exact T |]. right.
        exists c, (Some (Folder.id_ F)), k, documents.
        repeat split; auto.
        right. split; [exact N |]. exists F. repeat split; auto.
        destruct (find_file_answer _ _ _ _ _ _ _ Hf) as [pid Hd].
        rewrite find_doc_first_named in Hd.
        now apply first_named_some in Hd as [Hin _].
    + rewrite (proj1 (lift_raises _ _ _ _ M)).
      intros H. injection H as _ <-.
      destruct (proj2 (lift_raises _ _ _ _ M)) as [evs T].
      exists (map FromLibrary evs). split; [exact T |].
      left. intros n c. apply no_upload_from_library.
    + destruct (lift (mkdir fuel dev (Path.parent fn_rm) true true
                        (Some docs)) s) as [[F|x|] s1] eqn:L;
        [unfold lift in L; rewrite M in L; discriminate | |];
        destruct (lift_trace _ _ _ _ L) as [evs T];
        intros H; injection H as _ <-;
        (exists (map FromLibrary evs); split; [exact T |]);
        left; intros n c; apply no_upload_from_library.
Qed.

Lemma upload_sends_into_existing_witness :
  upload_document_as_file 3 tablet_AB disc_paper takes_all
    (Path.of_string "in/A/paper.pdf") (Path.of_string "Z/paper.pdf")
    (Some docs_AB) s0
  = (IoRaise (LibraryError
                (RuntimeError (not_implemented_msg (Path.of_string "Z")))),
     mkIO 0 [FromLibrary (RawMkdir (Path.of_string "Z"))]) /\
  exists evs,
    [FromLibrary (RawMkdir (Path.of_string "Z"))] = [] ++ evs /\
    forall n c, ~ In (PostUpload n c) evs.
Proof.
  assert (H : upload_document_as_file 3 tablet_AB disc_paper takes_all
                (Path.of_string "in/A/paper.pdf")
                (Path.of_string "Z/paper.pdf") (Some docs_AB) s0
              = (IoRaise (LibraryError
                            (RuntimeError
                               (not_implemented_msg (Path.of_string "Z")))),
                 mkIO 0 [FromLibrary (RawMkdir (Path.of_string "Z"))]))
    by reflexivity.
  split; [exact H |].
  destruct (upload_sends_into_existing _ _ _ _ _ _ _ _ _ _ H)
    as (evs & T & [Hn|(c & tid & k & documents & _ & _ & _ & _ & -> & _)]).
  - exists evs. split; [exact T | exact Hn].
  - simpl in T. discriminate T.
Defined.

(** X18.  An upload cannot create a folder.  When both names end in
    ".pdf" and [q] is the outermost directory of the remote name that is
    missing (its own directory resolves through folders, and no entry
    has its name there), the call enters the raw [mkdir] for [q] and
    raises its "not implemented" error; the tablet is not asked for a
    listing and no file is sent. *)
Theorem upload_missing_folder (dev : Device) (disc : Disc) (accepts : Uploads)
    (fuel : nat) (fn_disc fn_rm : Path.t) (docs : list Entity)
    (s : io_world) (q : Path.t) (pid : option string) :
  path_suffix fn_disc = ".pdf" -> path_suffix fn_rm = ".pdf" ->
  In q (proper_ancestors fn_rm) ->
  parent_id_resolved fuel dev docs (lib_world s) q pid ->
  ancestors_are_folders fuel dev docs (lib_world s) q ->
  nothing_named (Path.name q) pid docs ->
  upload_document_as_file
    (S fuel + (List.length (Path.parts fn_rm) - 1
               - List.length (Path.parts q)))
    dev disc accepts fn_disc fn_rm (Some docs) s
  = (IoRaise (LibraryError (RuntimeError (not_implemented_msg q))),
     mkIO (io_next_oid s) (io_trace s ++ [FromLibrary (RawMkdir q)])).
Proof.
  intros H1 H2 Hq P A N. apply find_doc_nothing_named in N.
  assert (Hq1 : mkdir (S fuel) dev q true true (Some docs) (lib_world s)
                = (Raise (RuntimeError (not_implemented_msg q)),
                   logged (RawMkdir q) (lib_world s))).
  { rewrite (mkdir_reaches_target _ _ _ _ _ _ _ _ P (fun _ => A)).
    now apply mkdir_target_none. }
  assert (Rq : Path.root q = "").
  { rewrite <- parent_root.
    destruct P as [[E _]|(_ & p & Hp & _)]; [now rewrite E |].
    exact (find_file_relative _ _ _ _ _ _ _ Hp). }
  assert (Rf : Path.root fn_rm = "").
  { unfold proper_ancestors in Hq.
    apply in_map_iff in Hq as (k & <- & _). exact Rq. }
  destruct (proper_ancestors_cons _ _ Hq Rf) as [Np _].
  rewrite (proper_ancestors_parent _ Rf Np) in Hq.
  assert (M : mkdir (S fuel + (List.length (Path.parts fn_rm) - 1
                               - List.length (Path.parts q)))
                dev (Path.parent fn_rm) true true (Some docs) (lib_world s)
              = (Raise (RuntimeError (not_implemented_msg q)),
                 logged (RawMkdir q) (lib_world s))).
  { apply in_app_or in Hq as [Hq|[<-|[]]].
    - apply mkdir_raise_above with (q := q); auto.
      now rewrite parent_parts_length.
    - rewrite parent_parts_length, Nat.sub_diag, Nat.add_0_r. exact Hq1. }
  unfold upload_document_as_file, io_bind.
  rewrite (assert_pdf_ok _ _ _ H1 H2).
  rewrite (lift_pure (docs_or_fetch _ dev (Some docs)) s docs eq_refl).
  destruct (path_eqb_spec (Path.parent fn_rm) Path.dot) as [E|_];
    [contradiction |]. cbn [negb].
  now rewrite (lift_grows _ s _ _ [RawMkdir q] M eq_refl).
Qed.

Lemma upload_missing_folder_witness :
  In (Path.of_string "Z") (proper_ancestors (Path.of_string "Z/paper.pdf")) /\
  nothing_named "Z" None docs_AB /\
  upload_document_as_file 3 tablet_AB disc_paper takes_all
    (Path.of_string "in/A/paper.pdf") (Path.of_string "Z/paper.pdf")
    (Some docs_AB) s0
  = (IoRaise (LibraryError
                (RuntimeError (not_implemented_msg (Path.of_string "Z")))),
     mkIO 0 [FromLibrary (RawMkdir (Path.of_string "Z"))]).
Proof.
  assert (I : In (Path.of_string "Z")
                (proper_ancestors (Path.of_string "Z/paper.pdf")))
    by (now left).
  assert (N : nothing_named "Z" None docs_AB).
  { unfold nothing_named, docs_AB. intros e [<-|[<-|[]]] E;
      vm_compute in E; discriminate E. }
  split; [exact I |]. split; [exact N |].
  exact (upload_missing_folder tablet_AB disc_paper takes_all 2
           (Path.of_string "in/A/paper.pdf") (Path.of_string "Z/paper.pdf")
           docs_AB s0 (Path.of_string "Z") None eq_refl eq_refl I
           (or_introl (conj eq_refl eq_refl)) (Forall_nil _) N).
Defined.

(* ===================================================================== *)
(** ** The [ls] command *)
(* ===================================================================== *)

(** X19.  The [ls] command never prints a line of its listing.  It asks
    every entity for [document_id], which neither class declares: on a
    listing with a first entity it raises [AttributeError] for that
    entity, and only on an empty listing does it return.  Whatever
    happens, the log gains nothing but what the library logs. *)
Theorem ls_never_prints (dev : Device) (fuel : nat) (s s' : io_world)
    (r : io_outcome unit) :
  ls fuel dev s = (r, s') ->
  (exists evs, io_trace s' = io_trace s ++ map FromLibrary evs) /\
  (forall docs w',
      get_documents fuel dev None 3 true None (lib_world s) = (Ok docs, w') ->
      r = match docs with
          | [] => IoOk tt
          | doc :: _ => IoRaise (AttributeError (class_name doc) "document_id")
          end).
Proof.
  unfold ls, io_bind, lift. fold (lib_world s).
  destruct (get_documents fuel dev None 3 true None (lib_world s))
    as [[docs|x|] w] eqn:G; intros H.
  - destruct docs as [|[d|f] rest]; simpl in H; injection H as <- <-;
      (split; [eexists; reflexivity |]);
      intros docs w' E; injection E as <- _; reflexivity.
  - injection H as <- <-. split; [eexists; reflexivity |]. discriminate.
  - injection H as <- <-. split; [eexists; reflexivity |]. discriminate.
Qed.

Lemma ls_never_prints_witness :
  get_documents 2 tablet_AB None 3 true None (lib_world s0)
  = (Ok docs_AB, mkWorld 2 [PostDocuments ""; PostDocuments "1"]) /\
  ls 2 tablet_AB s0
  = (IoRaise (AttributeError "Folder" "document_id"),
     mkIO 2 [FromLibrary (PostDocuments ""); FromLibrary (PostDocuments "1")]).
Proof.
  split; [reflexivity |].
  destruct (ls 2 tablet_AB s0) as [r s'] eqn:E.
  destruct (ls_never_prints tablet_AB 2 s0 s' r E) as [_ H].
  rewrite (H docs_AB _ eq_refl).
  vm_compute in E. now inversion E.
Defined.
